(** * x402-sdk: payment construction, verification and settlement routing

    A shallow embedding of the TypeScript sources
    [src/payment-builder.ts], [src/server.ts], [src/index.ts] and
    [token-utils] (compiled form), with the properties of the
    natural-language specification stated over it. *)

From Stdlib Require Import ZArith NArith List String Ascii Bool Lia.
From Stdlib Require Import Strings.Byte.
From Stdlib Require Import Floats.SpecFloat.
From Stdlib Require Import DecimalString.
Import ListNotations.

Local Open Scope string_scope.
Local Open Scope Z_scope.

(** ** JavaScript numbers

    A JS [number] is an IEEE 754 binary64 value.  [spec_float] with
    [prec = 53] and [emax = 1024] is exactly that format (NaN payloads
    apart), with round-to-nearest-even arithmetic. *)
Module JSNumber.

Definition prec : Z := 53.
Definition emax : Z := 1024.

Definition number := spec_float.

Definition NaN : number := S754_nan.

(** The number nearest to the integer [z] (exact whenever [|z| < 2^53]). *)
Definition of_Z (z : Z) : number := binary_normalize prec emax z 0 false.

Definition mul (x y : number) : number := SFmul prec emax x y.
Definition div (x y : number) : number := SFdiv prec emax x y.
Definition add (x y : number) : number := SFadd prec emax x y.

(** The decimal literal [m * 10^-k] for a mantissa and scale small
    enough to be numbers themselves ([|m| < 2^53], [k <= 22]): one
    correctly rounded division gives the nearest binary64 value, which
    is the value the literal denotes. *)
Definition decimal (m : Z) (k : N) : number :=
  div (of_Z m) (of_Z (10 ^ Z.of_N k)).

(** [isNaN(x)] *)
Definition isNaN (x : number) : bool :=
  match x with S754_nan => true | _ => false end.

(** [x <= y] and [x > y]; both are false when either side is NaN. *)
Definition leb (x y : number) : bool := SFleb x y.
Definition gtb (x y : number) : bool := SFltb y x.

(** JS truthiness of a number: [0], [-0] and [NaN] are falsy. *)
Definition truthy (x : number) : bool :=
  match x with
  | S754_zero _ | S754_nan => false
  | _ => true
  end.

(** Floor of the real value [(-1)^s * m * 2^e] of a finite number. *)
Definition floorZ (s : bool) (m : positive) (e : Z) : Z :=
  let v := if s then Z.neg m else Z.pos m in
  if 0 <=? e then v * 2 ^ e else v / 2 ^ (- e).

(** [Math.floor(x)]: NaN, the infinities and the zeros are returned
    unchanged; a finite number is mapped to the number of its floor. *)
Definition Math_floor (x : number) : number :=
  match x with
  | S754_finite s m e =>
      if 0 <=? e then x
      else binary_normalize prec emax (floorZ s m e) 0 s
  | _ => x
  end.

(** [Math.round(x)]: the integer nearest to [x], ties towards
    +Infinity, that is [floor(x + 1/2)] computed on the exact value. *)
Definition Math_round (x : number) : number :=
  match x with
  | S754_finite s m e =>
      if 0 <=? e then x
      else
        let v := if s then Z.neg m else Z.pos m in
        (* floor ((2 v + 2^-e) / 2^(1-e)) *)
        binary_normalize prec emax ((2 * v + 2 ^ (- e)) / 2 ^ (1 - e)) 0 s
  | _ => x
  end.

(** [Math.pow(10, d)] for a natural exponent [d]: the number nearest
    to [10^d] (exact for [d <= 22]). *)
Definition Math_pow10 (d : N) : number := of_Z (10 ^ Z.of_N d).

(** Truncation towards zero of the real value [(-1)^s * m * 2^e]. *)
Definition truncZ (s : bool) (m : positive) (e : Z) : Z :=
  let v := if s then Z.neg m else Z.pos m in
  if 0 <=? e then v * 2 ^ e else Z.quot v (2 ^ (- e)).

(** The integer value of a number, when it is finite and integral. *)
Definition to_integer (x : number) : option Z :=
  match x with
  | S754_zero _ => Some 0
  | S754_finite s m e =>
      let v := if s then Z.neg m else Z.pos m in
      if 0 <=? e then Some (v * 2 ^ e)
      else if v mod 2 ^ (- e) =? 0 then Some (v / 2 ^ (- e))
      else None
  | _ => None
  end.

End JSNumber.

Import JSNumber.

(** ** Exceptions

    A thrown JS value is an [Error] object with its [message], or some
    other value, kept as its [String(e)] text.  Fallible code returns
    [result]. *)
Inductive JSError :=
| Error (msg : string)
| Thrown (text : string).

(** [error instanceof Error] *)
Definition instanceofError (e : JSError) : bool :=
  match e with
  | Error _ => true
  | Thrown _ => false
  end.

(** [error.message] of an [Error] object *)
Definition message (e : JSError) : string :=
  match e with
  | Error msg => msg
  | Thrown _ => ""
  end.

Inductive result (A : Type) : Type :=
| Ok (a : A)
| Throw (e : JSError).
Arguments Ok {A} a.
Arguments Throw {A} e.

Definition bind {A B} (r : result A) (k : A -> result B) : result B :=
  match r with
  | Ok a => k a
  | Throw e => Throw e
  end.

(** [try { body } catch (error) { handler }] *)
Definition try_catch {A} (body : result A) (handler : JSError -> result A)
  : result A :=
  match body with
  | Ok a => Ok a
  | Throw e => handler e
  end.

Declare Scope js_scope.
Delimit Scope js_scope with js.
Notation "x <- r ;; k" := (bind r (fun x => k))
  (at level 61, r at next level, right associativity) : js_scope.

(** ** Characters and bytes *)

(** Position of [c] in [s], counted from [i]. *)
Fixpoint index_from (c : ascii) (s : string) (i : N) : option N :=
  match s with
  | EmptyString => None
  | String a s' => if Ascii.eqb a c then Some i else index_from c s' (i + 1)%N
  end.

(** The byte of value [n mod 256]. *)
Definition byte_of_N (n : N) : byte :=
  match Byte.of_N (n mod 256) with
  | Some b => b
  | None => x00
  end.

(** ** Base58 and public keys ([@solana/web3.js]) *)
Module Base58.

Definition alphabet : string :=
  "123456789ABCDEFGHJKLMNPQRSTUVWXYZabcdefghijkmnopqrstuvwxyz".

Definition digit (c : ascii) : option N := index_from c alphabet 0%N.

(** Number of leading ['1'] characters: each is one leading zero byte. *)
Fixpoint leading_ones (s : string) : N :=
  match s with
  | String "1"%char s' => (1 + leading_ones s')%N
  | _ => 0%N
  end.

(** The big-endian base-58 value of [s]; [None] on a character
    outside the alphabet. *)
Fixpoint value_from (s : string) (acc : N) : option N :=
  match s with
  | EmptyString => Some acc
  | String c s' =>
      match digit c with
      | Some d => value_from s' (acc * 58 + d)%N
      | None => None
      end
  end.

(** Number of bytes of the minimal big-endian representation. *)
Definition byte_length (n : N) : N := ((N.size n + 7) / 8)%N.

(** [bs58.decode]: the length and the big-endian value of the bytes. *)
Definition decode (s : string) : option (N * N) :=
  match value_from s 0%N with
  | Some v => Some ((leading_ones s + byte_length v)%N, v)
  | None => None
  end.

Definition nth_char (i : N) : ascii :=
  match String.get (N.to_nat i) alphabet with
  | Some c => c
  | None => "1"%char
  end.

(** Base-58 digits of [n], most significant first. *)
Fixpoint digits (fuel : nat) (n : N) (acc : string) : string :=
  match fuel with
  | O => acc
  | S fuel' =>
      if (n =? 0)%N then acc
      else digits fuel' (n / 58)%N (String (nth_char (n mod 58)%N) acc)
  end.

Fixpoint ones (k : nat) : string :=
  match k with
  | O => EmptyString
  | S k' => String "1"%char (ones k')
  end.

(** [bs58.encode] of the [len]-byte big-endian representation of [n]. *)
Definition encode (len : N) (n : N) : string :=
  (ones (N.to_nat (len - byte_length n)) ++ digits (N.to_nat (2 * len)) n "")%string.

End Base58.

(** ** Base64 as [Buffer] implements it *)
Module Base64.

Definition alphabet : string :=
  "ABCDEFGHIJKLMNOPQRSTUVWXYZabcdefghijklmnopqrstuvwxyz0123456789+/".

Definition char_of (v : N) : ascii :=
  match String.get (N.to_nat v) alphabet with
  | Some c => c
  | None => "="%char
  end.

(** The 6-bit value of a character; the URL-safe ['-'] and ['_'] are
    accepted as well. *)
Definition value_of (c : ascii) : option N :=
  if Ascii.eqb c "-" then Some 62%N
  else if Ascii.eqb c "_" then Some 63%N
  else index_from c alphabet 0%N.

(** The 6-bit groups of a byte sequence; a last group of one or two
    bytes gives two or three values. *)
Fixpoint sextets_of_bytes (bs : list byte) : list N :=
  match bs with
  | [] => []
  | [a] =>
      let a := Byte.to_N a in
      [a / 4; (a mod 4) * 16]%N
  | [a; b] =>
      let a := Byte.to_N a in
      let b := Byte.to_N b in
      [a / 4; (a mod 4) * 16 + b / 16; (b mod 16) * 4]%N
  | a :: b :: c :: rest =>
      let a := Byte.to_N a in
      let b := Byte.to_N b in
      let c := Byte.to_N c in
      ([a / 4; (a mod 4) * 16 + b / 16; (b mod 16) * 4 + c / 64; c mod 64]%N
         ++ sextets_of_bytes rest)%list
  end.

Definition padding (len : nat) : string :=
  match Nat.modulo len 3 with
  | 1%nat => "=="
  | 2%nat => "="
  | _ => ""
  end.

(** [buf.toString('base64')] *)
Definition encode (bs : list byte) : string :=
  (string_of_list_ascii (map char_of (sextets_of_bytes bs))
     ++ padding (List.length bs))%string.

(** The 6-bit values a decoder reads: characters outside the alphabet
    are skipped, ['='] ends the input. *)
Fixpoint sextets (s : string) : list N :=
  match s with
  | EmptyString => []
  | String c s' =>
      if Ascii.eqb c "=" then []
      else match value_of c with
           | Some v => v :: sextets s'
           | None => sextets s'
           end
  end.

Fixpoint bytes_of_sextets (vs : list N) : list byte :=
  match vs with
  | a :: b :: c :: d :: rest =>
      byte_of_N (a * 4 + b / 16)
        :: byte_of_N ((b mod 16) * 16 + c / 4)
        :: byte_of_N ((c mod 4) * 64 + d)
        :: bytes_of_sextets rest
  | [a; b; c] =>
      [byte_of_N (a * 4 + b / 16); byte_of_N ((b mod 16) * 16 + c / 4)]
  | [a; b] => [byte_of_N (a * 4 + b / 16)]
  | _ => []
  end.

(** [Buffer.from(s, 'base64')] *)
Definition decode (s : string) : list byte := bytes_of_sextets (sextets s).

End Base64.

(** A [PublicKey] holds the 256-bit number [_bn] of its 32 bytes. *)
Record PublicKey := mkPublicKey { _bn : N }.

Definition PUBLIC_KEY_LENGTH : N := 32.

(** [new PublicKey(value)] for a string [value]: base-58 decode, then
    the length check. *)
Definition new_PublicKey (value : string) : result PublicKey :=
  match Base58.decode value with
  | None => Throw (Error "Non-base58 character")
  | Some (len, v) =>
      if negb (len =? PUBLIC_KEY_LENGTH)%N
      then Throw (Error "Invalid public key input")
      else Ok (mkPublicKey v)
  end.

(** [a.equals(b)] *)
Definition equals (a b : PublicKey) : bool := (_bn a =? _bn b)%N.

(** [k.toBase58()] *)
Definition toBase58 (k : PublicKey) : string :=
  Base58.encode PUBLIC_KEY_LENGTH (_bn k).

(** A thrown [TypeError] for a property read on [undefined]. *)
Definition TypeError_undefined (prop : string) : JSError :=
  Error ("Cannot read properties of undefined (reading '" ++ prop ++ "')")%string.

(** [a.equals(b)] where [b] may be [undefined]: reading [b._bn] throws. *)
Definition equals_opt (a : PublicKey) (b : option PublicKey) : result bool :=
  match b with
  | Some b' => Ok (equals a b')
  | None => Throw (TypeError_undefined "_bn")
  end.

(** Value of [x] once a constructor call known to succeed has run. *)
Definition key_of_result (r : result PublicKey) : PublicKey :=
  match r with
  | Ok k => k
  | Throw _ => mkPublicKey 0
  end.

(** [TOKEN_PROGRAM_ID] of [@solana/spl-token]. *)
Definition TOKEN_PROGRAM_ID : PublicKey :=
  Eval vm_compute in
    key_of_result (new_PublicKey "TokenkegQfeZyiNwAJbNbGKPFXCWuBvf9Ss623VQ5DA").

(** ** JSON values

    The values [JSON.parse] produces and [JSON.stringify] consumes. *)
#[local] Unset Elimination Schemes.
Inductive json :=
| JNull
| JBool (b : bool)
| JNumber (n : number)
| JString (s : string)
| JArray (items : list json)
| JObject (fields : list (string * json)).
#[local] Set Elimination Schemes.

(** ** Data model ([types.ts]) *)

Inductive TokenType := SOL | USDC | SPL.

Definition TokenType_eqb (a b : TokenType) : bool :=
  match a, b with
  | SOL, SOL | USDC, USDC | SPL, SPL => true
  | _, _ => false
  end.

(** [amount: number | string] *)
Inductive Amount :=
| AmountNum (n : number)
| AmountStr (s : string).

(** [PublicKey | string] *)
Inductive Address :=
| AddrKey (k : PublicKey)
| AddrStr (s : string).

(** JS truthiness of an optional address: [undefined] and the empty
    string are falsy. *)
Definition truthy_address (a : option Address) : bool :=
  match a with
  | None => false
  | Some (AddrStr "") => false
  | Some _ => true
  end.

(** [PaymentConfig] as the code meets it at run time: the checks of
    [build] and [validateConfig] test every field for absence, so each
    field may be [undefined] ([None]).  [decimals] is a natural number. *)
Record PaymentConfig := mkPaymentConfig {
  tokenType : option TokenType;
  amount : option Amount;
  recipient : option Address;
  mintAddress : option Address;
  decimals : option N;
  createAccountIfNeeded : option bool
}.

Record AccountMeta := mkAccountMeta {
  pubkey : PublicKey;
  isSigner : bool;
  isWritable : bool
}.

(** [TransactionInstruction] *)
Record TransactionInstruction := mkInstruction {
  programId : PublicKey;
  keys : list AccountMeta;
  data : list byte
}.

Record Transaction := mkTransaction {
  instructions : list TransactionInstruction
}.

Record VerificationDetails := mkDetails {
  details_amount : number;
  details_recipient : string;
  details_tokenType : option TokenType;
  details_mintAddress : option string
}.

Record PaymentVerificationResult := mkVerification {
  isValid : bool;
  error : option string;
  details : option VerificationDetails
}.

(** ** Collaborators outside the repository

    [parseFloat], number printing and the JSON codec belong to the JS
    runtime, the derivation of an associated token account to
    [@solana/spl-token] (it throws when the owner is off the curve). *)
Class Runtime := {
  parseFloat : string -> number;
  Number_toString : number -> string;
  JSON_stringify : json -> string;
  JSON_parse : string -> result json;
  getAssociatedTokenAddress : PublicKey -> PublicKey -> result PublicKey
}.

(** The ledger RPC client ([Connection]) and transaction
    deserialisation ([Transaction.from]) of [@solana/web3.js], for the
    network a connection was opened on.  [simulateTransaction] and
    [confirmTransaction] answer with the JSON text of [value.err] when
    it is set. *)
Class Ledger := {
  Transaction_from : list byte -> result Transaction;
  simulateTransaction : string -> Transaction -> result (option string);
  sendRawTransaction : string -> list byte -> result string;
  confirmTransaction : string -> string -> result (option string)
}.

(** ** Buffers *)

(** Little-endian value of a byte sequence. *)
Fixpoint le_value (bs : list byte) : N :=
  match bs with
  | [] => 0%N
  | b :: rest => (Byte.to_N b + 256 * le_value rest)%N
  end.

(** [buf.readBigUInt64LE(offset)] *)
Definition readBigUInt64LE (buf : list byte) (offset : nat) : result Z :=
  if (offset + 8 <=? List.length buf)%nat
  then Ok (Z.of_N (le_value (firstn 8 (skipn offset buf))))
  else Throw (Error "Attempt to access memory outside buffer bounds").

(** [buf[i] === v] ([undefined] out of range, which equals no number). *)
Definition byte_at_is (buf : list byte) (i : nat) (v : N) : bool :=
  match nth_error buf i with
  | Some b => (Byte.to_N b =? v)%N
  | None => false
  end.

Section WithRuntime.
Context {RT : Runtime}.

Local Open Scope js_scope.

(** ** Unit converter ([token-utils]) *)

(** [BigInt(x)] for a number [x]: a [RangeError] unless [x] is an integer. *)
Definition BigInt_RangeError (x : number) : JSError :=
  Error ("The number " ++ Number_toString x ++
         " cannot be converted to a BigInt because it is not an integer")%string.

Definition BigInt (x : number) : result Z :=
  match to_integer x with
  | Some z => Ok z
  | None => Throw (BigInt_RangeError x)
  end.

(** The number an amount denotes in arithmetic: a string goes through
    [parseFloat], [undefined] becomes [NaN]. *)
Definition amountNumber (amount : option Amount) : number :=
  match amount with
  | Some (AmountStr s) => parseFloat s
  | Some (AmountNum n) => n
  | None => NaN
  end.

(** [toTokenUnits(amount, decimals)] *)
Definition toTokenUnits (amount : option Amount) (decimals : N) : result Z :=
  BigInt (Math_floor (mul (amountNumber amount) (Math_pow10 decimals))).

(** [Number(b)] for a bigint [b] *)
Definition Number_of_BigInt (b : Z) : number := of_Z b.

(** ** Instruction codec ([token-utils]) *)

(** [verifySOLTransferInstruction(instruction, expectedRecipient, expectedAmount)] *)
Definition verifySOLTransferInstruction_body
    (instruction : TransactionInstruction)
    (expectedRecipient : option PublicKey) (expectedAmount : Z)
  : result bool :=
  SYSTEM_PROGRAM <- new_PublicKey "11111111111111111111111111111111" ;;
  if negb (equals (programId instruction) SYSTEM_PROGRAM) then Ok false
  else if (List.length (data instruction) =? 12)%nat
          && byte_at_is (data instruction) 0 2
  then
    transferAmount <- readBigUInt64LE (data instruction) 4 ;;
    if transferAmount <? expectedAmount then Ok false
    else if (2 <=? List.length (keys instruction))%nat then
      match nth_error (keys instruction) 1 with
      | Some meta =>
          let toAccount := pubkey meta in
          same <- equals_opt toAccount expectedRecipient ;;
          Ok (same && (expectedAmount <=? transferAmount))
      | None => Throw (TypeError_undefined "pubkey")
      end
    else Ok false
  else Ok false.

Definition verifySOLTransferInstruction
    (instruction : TransactionInstruction)
    (expectedRecipient : option PublicKey) (expectedAmount : Z) : bool :=
  match verifySOLTransferInstruction_body instruction expectedRecipient expectedAmount with
  | Ok b => b
  | Throw _ => false
  end.

(** [getAssociatedTokenAddress(mint, owner)] with an owner that may be
    [undefined]. *)
Definition getAssociatedTokenAddress_opt
    (mint : PublicKey) (owner : option PublicKey) : result PublicKey :=
  match owner with
  | Some o => getAssociatedTokenAddress mint o
  | None => Throw (TypeError_undefined "toBuffer")
  end.

(** [verifySPLTransferInstruction(instruction, expectedRecipient, expectedAmount, expectedMint)] *)
Definition verifySPLTransferInstruction_body
    (instruction : TransactionInstruction)
    (expectedRecipient : option PublicKey) (expectedAmount : Z)
    (expectedMint : option PublicKey) : result bool :=
  if negb (equals (programId instruction) TOKEN_PROGRAM_ID) then Ok false
  else if (9 <=? List.length (data instruction))%nat
          && byte_at_is (data instruction) 0 3
  then
    transferAmount <- readBigUInt64LE (data instruction) 1 ;;
    if transferAmount <? expectedAmount then Ok false
    else if (2 <=? List.length (keys instruction))%nat then
      match nth_error (keys instruction) 1 with
      | Some meta =>
          let destinationAccount := pubkey meta in
          match expectedMint with
          | Some mint =>
              match getAssociatedTokenAddress_opt mint expectedRecipient with
              | Ok expectedTokenAccount =>
                  if negb (equals destinationAccount expectedTokenAccount)
                  then Ok false
                  else Ok (expectedAmount <=? transferAmount)
              | Throw _ => Ok false
              end
          | None => Ok false
          end
      | None => Throw (TypeError_undefined "pubkey")
      end
    else Ok false
  else Ok false.

Definition verifySPLTransferInstruction
    (instruction : TransactionInstruction)
    (expectedRecipient : option PublicKey) (expectedAmount : Z)
    (expectedMint : option PublicKey) : bool :=
  match verifySPLTransferInstruction_body instruction expectedRecipient
          expectedAmount expectedMint with
  | Ok b => b
  | Throw _ => false
  end.

(** ** Payment specification builder ([payment-builder.ts]) *)

(** [s.includes(sub)] *)
Fixpoint includes (sub s : string) : bool :=
  if String.prefix sub s then true
  else match s with
       | EmptyString => false
       | String _ s' => includes sub s'
       end.

Definition USDC_DEVNET_MINT : PublicKey :=
  Eval vm_compute in
    key_of_result (new_PublicKey "4zMMC9srt5Ri5X14GAgXhaHii3GnPAEERYPJgZJDncDU").
Definition USDC_MAINNET_MINT : PublicKey :=
  Eval vm_compute in
    key_of_result (new_PublicKey "EPjFWdd5AufqSSqeM2qN1xzybapC8G4wEGGkZwyTDt1v").

(** [getUSDCMint(network)] *)
Definition getUSDCMint (network : string) : PublicKey :=
  if includes "mainnet" network then USDC_MAINNET_MINT else USDC_DEVNET_MINT.

(** [new PaymentBuilder()]: the empty draft. *)
Definition new_PaymentBuilder : PaymentConfig :=
  mkPaymentConfig None None None None None None.

Definition setTokenType (t : TokenType) (c : PaymentConfig) : PaymentConfig :=
  mkPaymentConfig (Some t) (amount c) (recipient c) (mintAddress c)
                  (decimals c) (createAccountIfNeeded c).
Definition setAmount (a : Amount) (c : PaymentConfig) : PaymentConfig :=
  mkPaymentConfig (tokenType c) (Some a) (recipient c) (mintAddress c)
                  (decimals c) (createAccountIfNeeded c).
Definition setRecipient (r : Address) (c : PaymentConfig) : PaymentConfig :=
  mkPaymentConfig (tokenType c) (amount c) (Some r) (mintAddress c)
                  (decimals c) (createAccountIfNeeded c).
Definition setMintAddress (m : Address) (c : PaymentConfig) : PaymentConfig :=
  mkPaymentConfig (tokenType c) (amount c) (recipient c) (Some m)
                  (decimals c) (createAccountIfNeeded c).
Definition setDecimals (d : N) (c : PaymentConfig) : PaymentConfig :=
  mkPaymentConfig (tokenType c) (amount c) (recipient c) (mintAddress c)
                  (Some d) (createAccountIfNeeded c).
Definition setCreateAccountIfNeeded (b : bool) (c : PaymentConfig) : PaymentConfig :=
  mkPaymentConfig (tokenType c) (amount c) (recipient c) (mintAddress c)
                  (decimals c) (Some b).

(** [tokenType !== 'SOL'] *)
Definition not_SOL (t : option TokenType) : bool :=
  match t with
  | Some SOL => false
  | _ => true
  end.

(** [PaymentBuilder.build()] *)
Definition build (config : PaymentConfig) : result PaymentConfig :=
  match tokenType config with
  | None => Throw (Error "Token type is required")
  | Some _ =>
      match amount config with
      | None => Throw (Error "Amount is required")
      | Some _ =>
          if negb (truthy_address (recipient config))
          then Throw (Error "Recipient is required")
          else if not_SOL (tokenType config)
                  && negb (truthy_address (mintAddress config))
          then Throw (Error "Mint address is required for SPL token payments")
          else Ok config
      end
  end.

(** [PaymentBuilder.sol], [.usdc], [.spl] *)
Definition PaymentBuilder_sol (a : Amount) (r : Address) : PaymentConfig :=
  setDecimals 9 (setRecipient r (setAmount a (setTokenType SOL new_PaymentBuilder))).
Definition PaymentBuilder_usdc (a : Amount) (r : Address) (network : string)
  : PaymentConfig :=
  setCreateAccountIfNeeded true
    (setDecimals 6
       (setMintAddress (AddrKey (getUSDCMint network))
          (setRecipient r (setAmount a (setTokenType USDC new_PaymentBuilder))))).
Definition PaymentBuilder_spl (a : Amount) (r m : Address) (d : N) : PaymentConfig :=
  setCreateAccountIfNeeded true
    (setDecimals d
       (setMintAddress m
          (setRecipient r (setAmount a (setTokenType SPL new_PaymentBuilder))))).

(** [config.decimals || (config.tokenType === 'SOL' ? 9 : 6)] *)
Definition decimals_or_default (config : PaymentConfig) : N :=
  match decimals config with
  | Some d => if (d =? 0)%N then (if not_SOL (tokenType config) then 6 else 9)%N else d
  | None => (if not_SOL (tokenType config) then 6 else 9)%N
  end.

(** [new PublicKey(a)] when [a] is a string, [a] itself otherwise. *)
Definition resolve_address (a : option Address) : result (option PublicKey) :=
  match a with
  | Some (AddrStr s) => k <- new_PublicKey s ;; Ok (Some k)
  | Some (AddrKey k) => Ok (Some k)
  | None => Ok None
  end.

(** [typeof a === 'string' ? a : a.toBase58()] *)
Definition address_string (a : option Address) : result string :=
  match a with
  | Some (AddrStr s) => Ok s
  | Some (AddrKey k) => Ok (toBase58 k)
  | None => Throw (TypeError_undefined "toBase58")
  end.

(** [a ? (typeof a === 'string' ? a : a.toBase58()) : undefined] *)
Definition address_string_opt (a : option Address) : option string :=
  if truthy_address a then
    match a with
    | Some (AddrStr s) => Some s
    | Some (AddrKey k) => Some (toBase58 k)
    | None => None
    end
  else None.

(** The template text of an optional token type. *)
Definition TokenType_text (t : option TokenType) : string :=
  match t with
  | Some SOL => "SOL"
  | Some USDC => "USDC"
  | Some SPL => "SPL"
  | None => "undefined"
  end.

(** ** Instruction verifier ([payment-builder.ts]) *)

(** The [for (const instruction of transaction.instructions)] loop of
    [verifyPaymentInstructions]. *)
Fixpoint verify_loop (expectedConfig : PaymentConfig)
    (recipient : option PublicKey) (expectedAmount : Z)
    (ixs : list TransactionInstruction) : result PaymentVerificationResult :=
  match ixs with
  | [] =>
      Ok (mkVerification false
            (Some ("No valid " ++ TokenType_text (tokenType expectedConfig)
                   ++ " transfer instruction found")%string)
            None)
  | instruction :: rest =>
      isValid <-
        (if negb (not_SOL (tokenType expectedConfig))
         then Ok (verifySOLTransferInstruction instruction recipient expectedAmount)
         else
           mint <- (if truthy_address (mintAddress expectedConfig)
                    then resolve_address (mintAddress expectedConfig)
                    else Ok None) ;;
           Ok (verifySPLTransferInstruction instruction recipient expectedAmount mint)) ;;
      if (isValid : bool) then
        match recipient with
        | Some r =>
            Ok (mkVerification true None
                  (Some (mkDetails (Number_of_BigInt expectedAmount)
                           (toBase58 r)
                           (tokenType expectedConfig)
                           (address_string_opt (mintAddress expectedConfig)))))
        | None => Throw (TypeError_undefined "toBase58")
        end
      else verify_loop expectedConfig recipient expectedAmount rest
  end.

(** The [try] block of [verifyPaymentInstructions]. *)
Definition verifyPaymentInstructions_try
    (transaction : Transaction) (expectedConfig : PaymentConfig)
  : result PaymentVerificationResult :=
  recipient <- resolve_address (recipient expectedConfig) ;;
  let decimals := decimals_or_default expectedConfig in
  expectedAmount <- toTokenUnits (amount expectedConfig) decimals ;;
  verify_loop expectedConfig recipient expectedAmount (instructions transaction).

(** [PaymentVerifier.verifyPaymentInstructions(transaction, expectedConfig)] *)
Definition verifyPaymentInstructions
    (transaction : Transaction) (expectedConfig : PaymentConfig)
  : result PaymentVerificationResult :=
  try_catch (verifyPaymentInstructions_try transaction expectedConfig)
    (fun error =>
       Ok (mkVerification false
             (Some ("Verification failed: " ++
                    (if instanceofError error then message error
                     else "Unknown error"))%string)
             None)).

(** ** Payment utilities ([payment-builder.ts]) *)

Record PaymentPayload := mkPaymentPayload {
  payload_recipient : string;
  payload_tokenType : option TokenType;
  payload_mintAddress : option string;
  payload_decimals : N;
  payload_network : string
}.

Record X402PaymentRequirements := mkRequirements {
  req_amount : string;
  req_currency : option TokenType;
  req_scheme : string;
  req_payment_payload : PaymentPayload;
  req_tokenType : option TokenType;
  req_mintAddress : option string;
  req_createAccountIfNeeded : option bool
}.

(** [b.toString()] for a bigint [b] *)
Definition BigInt_toString (b : Z) : string :=
  NilZero.string_of_int (Z.to_int b).

(** [PaymentUtils.toX402Requirements(config, network)] *)
Definition toX402Requirements (config : PaymentConfig) (network : string)
  : result X402PaymentRequirements :=
  let decimals := decimals_or_default config in
  amountInTokenUnits <- toTokenUnits (amount config) decimals ;;
  recipient <- address_string (recipient config) ;;
  Ok (mkRequirements
        (BigInt_toString amountInTokenUnits)
        (tokenType config)
        "exact"
        (mkPaymentPayload recipient (tokenType config)
           (address_string_opt (mintAddress config)) decimals network)
        (tokenType config)
        (address_string_opt (mintAddress config))
        (createAccountIfNeeded config)).

(** The [try { if (typeof a === 'string') new PublicKey(a) } catch]
    of [validateConfig]: whether the constructor threw. *)
Definition address_throws (a : option Address) : bool :=
  match a with
  | Some (AddrStr s) =>
      match new_PublicKey s with
      | Ok _ => false
      | Throw _ => true
      end
  | _ => false
  end.

(** [PaymentUtils.validateConfig(config)]: the list [errors]. *)
Definition validateConfig_errors (config : PaymentConfig) : list string :=
  ((match tokenType config with
    | None => ["Token type is required"]
    | Some _ => []
    end)
   ++ (match amount config with
       | None => ["Amount is required"]
       | Some _ =>
           let amount := amountNumber (amount config) in
           if isNaN amount || leb amount (of_Z 0)
           then ["Amount must be a positive number"]
           else []
       end)
   ++ (if negb (truthy_address (recipient config))
       then ["Recipient is required"]
       else if address_throws (recipient config)
            then ["Invalid recipient address"]
            else [])
   ++ (if not_SOL (tokenType config)
          && negb (truthy_address (mintAddress config))
       then ["Mint address is required for SPL token payments"]
       else [])
   ++ (if truthy_address (mintAddress config)
          && address_throws (mintAddress config)
       then ["Invalid mint address"]
       else []))%list.

Record Validation := mkValidation {
  validation_isValid : bool;
  validation_errors : list string
}.

Definition validateConfig (config : PaymentConfig) : Validation :=
  let errors := validateConfig_errors config in
  mkValidation (List.length errors =? 0)%nat errors.

(** A payload is JSON-serializable when [JSON.parse] reads it back
    from the text [JSON.stringify] gives it. *)
Definition JSON_serializable (data : json) : Prop :=
  JSON_parse (JSON_stringify data) = Ok data.

(** [Buffer.from(s)] and [buf.toString('utf-8')]: a string is kept as
    the bytes of its UTF-8 text, which are the bytes of the buffer. *)
Definition Buffer_from (s : string) : list byte := list_byte_of_string s.
Definition Buffer_toString (buf : list byte) : string := string_of_list_byte buf.

(** [PaymentUtils.createX402Header(data)] *)
Definition createX402Header (data : json) : string :=
  Base64.encode (Buffer_from (JSON_stringify data)).

(** [PaymentUtils.parseX402Header(header)] *)
Definition parseX402Header (header : string) : result json :=
  try_catch
    (let decoded := Buffer_toString (Base64.decode header) in
     JSON_parse decoded)
    (fun _ => Throw (Error "Invalid x402 payment header format")).

(** ** Settlement router ([index.ts]) *)

Inductive PaymentMethod := facilitator_method | onchain_method | auto_method.

Record SDKConfig := mkSDKConfig {
  network : string;
  defaultFacilitator : option string;
  preferOnChain : option bool;
  defaultPaymentMethod : option PaymentMethod
}.

Record FacilitatorClient := mkFacilitatorClient {
  baseUrl : string;
  facilitator_network : string
}.

(** [baseUrl.replace(/\/$/, '')] *)
Fixpoint strip_trailing_slash (s : string) : string :=
  match s with
  | EmptyString => EmptyString
  | String "/"%char EmptyString => EmptyString
  | String c s' => String c (strip_trailing_slash s')
  end.

Definition new_FacilitatorClient (url network : string) : FacilitatorClient :=
  mkFacilitatorClient (strip_trailing_slash url) network.

Record X402SDK := mkSDK {
  cfg : SDKConfig;
  facilitator : option FacilitatorClient
}.

(** [new X402SDK(cfg)] *)
Definition new_X402SDK (cfg : SDKConfig) : X402SDK :=
  mkSDK cfg
    (match defaultFacilitator cfg with
     | Some "" | None => None
     | Some url => Some (new_FacilitatorClient url (network cfg))
     end).

(** [sdk.setFacilitator(url)] *)
Definition setFacilitator (url : string) (sdk : X402SDK) : X402SDK :=
  mkSDK (mkSDKConfig (network (cfg sdk)) (Some url) (preferOnChain (cfg sdk))
           (defaultPaymentMethod (cfg sdk)))
        (Some (new_FacilitatorClient url (network (cfg sdk)))).

Record Keypair := mkKeypair {
  publicKey : PublicKey;
  secretKey : list byte
}.

Record PayOpts := mkPayOpts {
  payerKeypair : option Keypair;
  method : option PaymentMethod;
  simulateFirst : option bool
}.

(** The network call [pay] ends with: [submitPaymentOnChain] or
    [facilitator.submitPayment], with their arguments. *)
Inductive PayCall :=
| SubmitPaymentOnChain (config : PaymentConfig) (payer : Keypair)
    (network : string) (simulateFirst : option bool)
| FacilitatorSubmitPayment (client : FacilitatorClient)
    (paymentReq : X402PaymentRequirements).

(** [opts?.method || this.cfg.defaultPaymentMethod || 'auto'] *)
Definition resolved_method (sdk : X402SDK) (opts : option PayOpts) : PaymentMethod :=
  match opts with
  | Some {| method := Some m |} => m
  | _ =>
      match defaultPaymentMethod (cfg sdk) with
      | Some m => m
      | None => auto_method
      end
  end.

(** [opts?.payerKeypair] *)
Definition opts_payerKeypair (opts : option PayOpts) : option Keypair :=
  match opts with
  | Some o => payerKeypair o
  | None => None
  end.

(** [opts?.simulateFirst] *)
Definition opts_simulateFirst (opts : option PayOpts) : option bool :=
  match opts with
  | Some o => simulateFirst o
  | None => None
  end.

(** The local [useOnChain] of [pay]. *)
Definition useOnChain (sdk : X402SDK) (opts : option PayOpts) : bool :=
  match resolved_method sdk opts with
  | onchain_method => true
  | facilitator_method => false
  | auto_method =>
      match preferOnChain (cfg sdk), opts_payerKeypair opts with
      | Some true, Some _ => true
      | _, _ => false
      end
  end.

Definition no_facilitator_message : string :=
  "No facilitator configured. Call setFacilitator(url) or provide defaultFacilitator in SDKConfig.".

(** [sdk.pay(config, opts)] up to its network call: a [Throw] is
    raised before any call is made. *)
Definition pay (sdk : X402SDK) (config : PaymentConfig) (opts : option PayOpts)
  : result PayCall :=
  let validation := validateConfig config in
  if negb (validation_isValid validation)
  then Throw (Error ("Invalid payment configuration: "
                     ++ String.concat ", " (validation_errors validation))%string)
  else
    if useOnChain sdk opts then
      match opts_payerKeypair opts with
      | None => Throw (Error "Payer keypair is required for on-chain payments")
      | Some payerKeypair =>
          Ok (SubmitPaymentOnChain config payerKeypair (network (cfg sdk))
                (opts_simulateFirst opts))
      end
    else
      match facilitator sdk with
      | None => Throw (Error no_facilitator_message)
      | Some client =>
          paymentReq <- toX402Requirements config (network (cfg sdk)) ;;
          Ok (FacilitatorSubmitPayment client paymentReq)
      end.

(** ** Challenge-response protocol handler ([server.ts]) *)

Context {LG : Ledger}.

Record SubmitResult := mkSubmitResult {
  success : bool;
  signature : option string;
  explorerUrl : option string;
  submit_error : option string
}.

(** [e?.message || String(e)] *)
Definition error_text (e : JSError) : string :=
  match e with
  | Error "" => "Error"
  | Error msg => msg
  | Thrown text => text
  end.

(** [s || fallback] for an optional string *)
Definition string_or (s : option string) (fallback : string) : string :=
  match s with
  | Some "" | None => fallback
  | Some text => text
  end.

(** The cluster [getConnection(network)] connects to. *)
Definition connection_cluster (network : string) : string :=
  if String.eqb network "solana-mainnet" then "mainnet-beta" else "devnet".

(** [verifyAndSubmitSerializedTransaction(serializedTxBase64, expectedConfig, network)] *)
Definition verifyAndSubmitSerializedTransaction
    (serializedTxBase64 : string) (expectedConfig : PaymentConfig)
    (network : string) : result SubmitResult :=
  let conn := connection_cluster network in
  try_catch
    (let txBuffer := Base64.decode serializedTxBase64 in
     tx <- Transaction_from txBuffer ;;
     verification <- verifyPaymentInstructions tx expectedConfig ;;
     if negb (isValid verification)
     then Ok (mkSubmitResult false None None
                (Some (string_or (error verification)
                         "Instruction verification failed")))
     else
       simulation <- simulateTransaction conn tx ;;
       match simulation with
       | Some err =>
           Ok (mkSubmitResult false None None
                 (Some ("Simulation failed: " ++ err)%string))
       | None =>
           signature <- sendRawTransaction conn txBuffer ;;
           confirmation <- confirmTransaction conn signature ;;
           match confirmation with
           | Some err =>
               Ok (mkSubmitResult false None None
                     (Some ("Transaction failed: " ++ err)%string))
           | None =>
               let cluster :=
                 if includes "mainnet" network then "mainnet-beta" else "devnet" in
               let explorerUrl :=
                 ("https://explorer.solana.com/tx/" ++ signature
                    ++ "?cluster=" ++ cluster)%string in
               Ok (mkSubmitResult true (Some signature) (Some explorerUrl) None)
           end
       end)
    (fun e => Ok (mkSubmitResult false None None (Some (error_text e)))).

Record MiddlewareOpts := mkMiddlewareOpts {
  price : number;
  opts_tokenType : TokenType;
  opts_recipient : string;
  opts_mintAddress : option string;
  opts_network : option string
}.

Record ChallengePayment := mkChallengePayment {
  payment_recipient : string;
  payment_amount : number;
  payment_cluster : string;
  payment_tokenType : TokenType;
  payment_mintAddress : option string
}.

Inductive ResponseBody :=
| ErrorBody (error : option string)
| ChallengeBody (error : string) (payment : ChallengePayment)
| VerifiedBody (message : string) (signature explorerUrl : option string).

(** What the handler does with a request: [res.status(s).json(body)]
    or [next(err)]. *)
Inductive Response :=
| Json (status : N) (body : ResponseBody)
| Next (err : JSError).

(** [v.name] for a parsed JSON value [v]; reading a property of
    [null] throws. *)
Definition json_get (v : json) (name : string) : result (option json) :=
  match v with
  | JNull => Throw (Error ("Cannot read properties of null (reading '"
                           ++ name ++ "')")%string)
  | JObject fields =>
      Ok (match find (fun kv => String.eqb (fst kv) name) fields with
          | Some kv => Some (snd kv)
          | None => None
          end)
  | _ => Ok None
  end.

(** [v?.name] for an optional value *)
Definition json_get_opt (v : option json) (name : string) : option json :=
  match v with
  | Some (JObject fields) =>
      match find (fun kv => String.eqb (fst kv) name) fields with
      | Some kv => Some (snd kv)
      | None => None
      end
  | _ => None
  end.

(** JS truthiness of an optional JSON value *)
Definition json_truthy (v : option json) : bool :=
  match v with
  | None | Some JNull | Some (JBool false) | Some (JString "") => false
  | Some (JNumber n) => truthy n
  | Some _ => true
  end.

(** [opts.network || 'solana-devnet'] *)
Definition middleware_network (opts : MiddlewareOpts) : string :=
  string_or (opts_network opts) "solana-devnet".

(** The [expected] configuration the handler verifies against. *)
Definition middleware_expected (opts : MiddlewareOpts) : PaymentConfig :=
  let network := middleware_network opts in
  mkPaymentConfig
    (Some (opts_tokenType opts))
    (Some (AmountNum (price opts)))
    (Some (AddrStr (opts_recipient opts)))
    (match opts_mintAddress opts with
     | Some "" | None =>
         if TokenType_eqb (opts_tokenType opts) USDC
         then Some (AddrKey (getUSDCMint network))
         else None
     | Some m => Some (AddrStr m)
     end)
    (Some (if TokenType_eqb (opts_tokenType opts) SOL then 9 else 6)%N)
    (Some true).

(** The body of the 402 challenge. *)
Definition challenge (opts : MiddlewareOpts) : ChallengePayment :=
  let network := middleware_network opts in
  mkChallengePayment
    (opts_recipient opts)
    (Math_round (mul (price opts)
                   (if TokenType_eqb (opts_tokenType opts) SOL
                    then of_Z 1 else Math_pow10 6)))
    (if includes "mainnet" network then "mainnet" else "devnet")
    (opts_tokenType opts)
    (opts_mintAddress opts).

(** The handler [createPaymentMiddleware(opts)] returns, applied to a
    request whose [X-Payment] header is [xPaymentHeader].  A
    [serialized] value that is not a string makes [Buffer.from] throw
    inside [verifyAndSubmitSerializedTransaction]. *)
Definition createPaymentMiddleware (opts : MiddlewareOpts)
    (xPaymentHeader : option string) : Response :=
  let network := middleware_network opts in
  match xPaymentHeader with
  | Some (String _ _ as header) =>
      let handled :=
        try_catch
          (payload <- parseX402Header header ;;
           inner <- json_get payload "payload" ;;
           let serialized :=
             if json_truthy (json_get_opt inner "serializedTransaction")
             then json_get_opt inner "serializedTransaction"
             else json_get_opt inner "serialized" in
           if negb (json_truthy serialized)
           then Ok (Json 402 (ErrorBody (Some "Missing serialized transaction in X-Payment")))
           else
             let expected := middleware_expected opts in
             result <-
               match serialized with
               | Some (JString text) =>
                   verifyAndSubmitSerializedTransaction text expected network
               | _ =>
                   Ok (mkSubmitResult false None None
                         (Some "The first argument must be of type string or an instance of Buffer, ArrayBuffer, or Array or an Array-like Object."))
               end ;;
             if negb (success result)
             then Ok (Json 402 (ErrorBody (submit_error result)))
             else Ok (Json 200 (VerifiedBody "Payment verified"
                                  (signature result) (explorerUrl result))))
          (fun e => Ok (Json 402 (ErrorBody (Some (error_text e))))) in
      match handled with
      | Ok response => response
      | Throw err => Next err
      end
  | _ =>
      Json 402 (ChallengeBody "Payment Required" (challenge opts))
  end.

End WithRuntime.

(** ** Instruction encodings of the ledger libraries

    What [SystemProgram.transfer] ([@solana/web3.js]) and
    [createTransferInstruction], [createTransferCheckedInstruction]
    ([@solana/spl-token]) produce; the assembler of [token-utils] and
    the wallet path call them. *)

(** The [len] low bytes of [n], least significant first. *)
Fixpoint le_bytes (len : nat) (n : N) : list byte :=
  match len with
  | O => []
  | S len' => byte_of_N n :: le_bytes len' (n / 256)%N
  end.

Definition SYSTEM_PROGRAM_ID : PublicKey := mkPublicKey 0.

Definition SystemProgram_transfer (fromPubkey toPubkey : PublicKey) (lamports : N)
  : TransactionInstruction :=
  mkInstruction SYSTEM_PROGRAM_ID
    [mkAccountMeta fromPubkey true true; mkAccountMeta toPubkey false true]
    (le_bytes 4 2 ++ le_bytes 8 lamports).

Definition createTransferInstruction (source destination owner : PublicKey)
    (amount : N) : TransactionInstruction :=
  mkInstruction TOKEN_PROGRAM_ID
    [mkAccountMeta source false true; mkAccountMeta destination false true;
     mkAccountMeta owner true false]
    (le_bytes 1 3 ++ le_bytes 8 amount).

Definition createTransferCheckedInstruction (source mint destination owner : PublicKey)
    (amount : N) (decimals : N) : TransactionInstruction :=
  mkInstruction TOKEN_PROGRAM_ID
    [mkAccountMeta source false true; mkAccountMeta mint false false;
     mkAccountMeta destination false true; mkAccountMeta owner true false]
    (le_bytes 1 12 ++ le_bytes 8 amount ++ le_bytes 1 decimals).

(** The instruction-kind tag of a native transfer as the layout
    [u32 instruction_type, u64 lamports] gives it: the little-endian
    value of the first four bytes. *)
Definition layout_native_tag (data : list byte) : N :=
  le_value (firstn 4 data).

(** The amount a native transfer carries: the 8 bytes at offset 4. *)
Definition native_amount (ix : TransactionInstruction) : Z :=
  Z.of_N (le_value (firstn 8 (skipn 4 (data ix)))).

(** The amount a token transfer carries: the 8 bytes at offset 1. *)
Definition token_amount (ix : TransactionInstruction) : Z :=
  Z.of_N (le_value (firstn 8 (skipn 1 (data ix)))).

(** The presence rules of a draft, in the order [build] tests them,
    each with the message of its violation. *)
Definition violated_presence_rules (config : PaymentConfig) : list string :=
  ((match tokenType config with
    | None => ["Token type is required"]
    | Some _ => []
    end)
   ++ (match amount config with
       | None => ["Amount is required"]
       | Some _ => []
       end)
   ++ (if truthy_address (recipient config) then []
       else ["Recipient is required"])
   ++ (if not_SOL (tokenType config)
          && negb (truthy_address (mintAddress config))
       then ["Mint address is required for SPL token payments"]
       else []))%list.

(** An error message lists a rule when the rule's text occurs in it. *)
Definition lists_rule (message rule : string) : bool := includes rule message.

(** ** A reference runtime

    An executable instance of the collaborators, used to run the
    embedding on concrete inputs: [parseFloat] on plain decimal
    literals, a JSON codec for integers and strings without escapes,
    a ledger with no reachable endpoint.  Every theorem below holds for
    all instances. *)
Module Reference.

Definition digit_of (c : ascii) : option Z :=
  let n := Z.of_N (N_of_ascii c) in
  if (48 <=? n) && (n <=? 57) then Some (n - 48) else None.

(** Reads leading digits: accumulated value, digit count, rest. *)
Fixpoint read_digits (s : string) (acc : Z) (count : N) : Z * N * string :=
  match s with
  | EmptyString => (acc, count, s)
  | String c s' =>
      match digit_of c with
      | Some d => read_digits s' (acc * 10 + d) (count + 1)%N
      | None => (acc, count, s)
      end
  end.

Definition parse_unsigned (s : string) : number :=
  let '(int_part, int_count, rest) := read_digits s 0 0%N in
  match rest with
  | String "."%char rest' =>
      let '(all, frac_count, _) := read_digits rest' int_part 0%N in
      if ((int_count + frac_count)%N =? 0)%N then NaN
      else decimal all frac_count
  | _ => if (int_count =? 0)%N then NaN else of_Z int_part
  end.

Definition parse_float (s : string) : number :=
  match s with
  | String "-"%char s' => SFopp (parse_unsigned s')
  | String "+"%char s' => parse_unsigned s'
  | _ => parse_unsigned s
  end.

Definition number_text (x : number) : string :=
  match x with
  | S754_nan => "NaN"
  | S754_infinity false => "Infinity"
  | S754_infinity true => "-Infinity"
  | _ =>
      match to_integer x with
      | Some z => NilZero.string_of_int (Z.to_int z)
      | None => "a fraction"
      end
  end.

(** The double quote character. *)
Definition dquote : ascii := ascii_of_nat 34.

Definition quote (s : string) : string :=
  String dquote (s ++ String dquote EmptyString).

Fixpoint stringify (v : json) : string :=
  match v with
  | JNull => "null"
  | JBool true => "true"
  | JBool false => "false"
  | JNumber n =>
      match to_integer n with
      | Some z => NilZero.string_of_int (Z.to_int z)
      | None => "null"
      end
  | JString s => quote s
  | JArray items =>
      ("[" ++ String.concat "," (map stringify items) ++ "]")%string
  | JObject fields =>
      ("{" ++ String.concat ","
         (map (fun kv => (quote (fst kv) ++ ":" ++ stringify (snd kv))%string)
            fields) ++ "}")%string
  end.

(** Reads up to the closing quote. *)
Fixpoint read_string (s : string) : option (string * string) :=
  match s with
  | EmptyString => None
  | String c s' =>
      if Ascii.eqb c dquote then Some (EmptyString, s')
      else match read_string s' with
           | Some (text, rest) => Some (String c text, rest)
           | None => None
           end
  end.

Fixpoint parse_value (fuel : nat) (s : string) : option (json * string) :=
  match fuel with
  | O => None
  | S fuel' =>
      match s with
      | String "n" (String "u" (String "l" (String "l" rest))) => Some (JNull, rest)
      | String "t" (String "r" (String "u" (String "e" rest))) => Some (JBool true, rest)
      | String "f" (String "a" (String "l" (String "s" (String "e" rest)))) =>
          Some (JBool false, rest)
      | String "[" (String "]" rest) => Some (JArray [], rest)
      | String "[" rest =>
          match parse_items fuel' rest with
          | Some (items, rest') => Some (JArray items, rest')
          | None => None
          end
      | String "{" (String "}" rest) => Some (JObject [], rest)
      | String "{" rest =>
          match parse_fields fuel' rest with
          | Some (fields, rest') => Some (JObject fields, rest')
          | None => None
          end
      | String "-" rest =>
          let '(v, count, rest') := read_digits rest 0 0%N in
          if (count =? 0)%N then None else Some (JNumber (of_Z (- v)), rest')
      | String c rest =>
          if Ascii.eqb c dquote then
            match read_string rest with
            | Some (text, rest') => Some (JString text, rest')
            | None => None
            end
          else
            let '(v, count, rest') := read_digits s 0 0%N in
            if (count =? 0)%N then None else Some (JNumber (of_Z v), rest')
      | EmptyString => None
      end
  end
with parse_items (fuel : nat) (s : string) : option (list json * string) :=
  match fuel with
  | O => None
  | S fuel' =>
      match parse_value fuel' s with
      | Some (v, String "," rest) =>
          match parse_items fuel' rest with
          | Some (items, rest') => Some (v :: items, rest')
          | None => None
          end
      | Some (v, String "]" rest) => Some ([v], rest)
      | _ => None
      end
  end
with parse_fields (fuel : nat) (s : string)
  : option (list (string * json) * string) :=
  match fuel with
  | O => None
  | S fuel' =>
      match s with
      | String c rest =>
          if Ascii.eqb c dquote then
            match read_string rest with
            | Some (name, String ":" rest') =>
                match parse_value fuel' rest' with
                | Some (v, String "," rest'') =>
                    match parse_fields fuel' rest'' with
                    | Some (fields, rest3) => Some ((name, v) :: fields, rest3)
                    | None => None
                    end
                | Some (v, String "}" rest'') => Some ([(name, v)], rest'')
                | _ => None
                end
            | _ => None
            end
          else None
      | EmptyString => None
      end
  end.

Definition parse (s : string) : result json :=
  match parse_value (S (String.length s)) s with
  | Some (v, EmptyString) => Ok v
  | _ => Throw (Error "Unexpected token in JSON")
  end.

(** A stand-in for the program-derived address: some key determined
    by the mint and the owner. *)
Definition derive_address (mint owner : PublicKey) : result PublicKey :=
  Ok (mkPublicKey ((2 * _bn mint + 3 * _bn owner + 1) mod 2 ^ 256)%N).

#[export] Instance runtime : Runtime := {|
  parseFloat := parse_float;
  Number_toString := number_text;
  JSON_stringify := stringify;
  JSON_parse := parse;
  getAssociatedTokenAddress := derive_address
|}.

(** A ledger none of whose endpoints answers. *)
#[export] Instance offline : Ledger := {|
  Transaction_from := fun _ => Throw (Error "Reached end of buffer unexpectedly");
  simulateTransaction := fun _ _ => Throw (Error "fetch failed");
  sendRawTransaction := fun _ _ => Throw (Error "fetch failed");
  confirmTransaction := fun _ _ => Throw (Error "fetch failed")
|}.

End Reference.

(** ** Sample inputs *)
Module Samples.
Import Reference.

Definition payer : PublicKey := mkPublicKey 9.
Definition R : PublicKey := mkPublicKey 7.
Definition R2 : PublicKey := mkPublicKey 8.
Definition mint : PublicKey := mkPublicKey 11.

(** 0.001 SOL to [R]: 1_000_000 base units. *)
Definition native_spec : PaymentConfig :=
  PaymentBuilder_sol (AmountNum (decimal 1 3)) (AddrKey R).

(** One token of [mint] (6 decimals) to [R]: 1_000_000 base units. *)
Definition token_spec : PaymentConfig :=
  PaymentBuilder_spl (AmountNum (of_Z 1)) (AddrKey R) (AddrKey mint) 6.

(** The same without a mint. *)
Definition token_spec_without_mint : PaymentConfig :=
  mkPaymentConfig (Some SPL) (Some (AmountNum (of_Z 1))) (Some (AddrKey R))
    None (Some 6%N) (Some true).

(** Token accounts of the payer and of [R] under the reference
    derivation. *)
Definition payer_account : PublicKey :=
  key_of_result (derive_address mint payer).
Definition R_account : PublicKey :=
  key_of_result (derive_address mint R).

(** A 12-byte system-program instruction to [R] whose first byte is 2
    and whose second byte is 1, carrying 1_000_000. *)
Definition odd_tag_transfer : TransactionInstruction :=
  mkInstruction SYSTEM_PROGRAM_ID
    [mkAccountMeta payer true true; mkAccountMeta R false true]
    ([x02; x01; x00; x00] ++ le_bytes 8 1000000).

(** The result of a native verification that found 1_000_000 to [R],
    and of one that found nothing. *)
Definition valid_result : PaymentVerificationResult :=
  mkVerification true None
    (Some (mkDetails (of_Z 1000000) (toBase58 R) (Some SOL) None)).
Definition invalid_result : PaymentVerificationResult :=
  mkVerification false (Some "No valid SOL transfer instruction found") None.

(** A configuration whose recipient is no base-58 text. *)
Definition malformed_recipient_spec : PaymentConfig :=
  PaymentBuilder_sol (AmountNum (decimal 1 3)) (AddrStr "not-an-address!").

(** An SDK on devnet that prefers the chain and has no facilitator. *)
Definition sdk_without_facilitator : X402SDK :=
  new_X402SDK (mkSDKConfig "solana-devnet" None (Some true) None).

(** The middleware of the README: 0.001 SOL to ["Rxyz"]. *)
Definition native_middleware : MiddlewareOpts :=
  mkMiddlewareOpts (decimal 1 3) SOL "Rxyz" None None.

(** 0.01 USDC to ["Rxyz"]. *)
Definition usdc_middleware : MiddlewareOpts :=
  mkMiddlewareOpts (decimal 1 2) USDC "Rxyz" None None.

(** The payment proof [createSignedTransaction] wraps. *)
Definition payment_proof : json :=
  JObject [("x402Version", JNumber (of_Z 1));
           ("scheme", JString "exact");
           ("network", JString "solana-devnet");
           ("payload", JObject [("serializedTransaction", JString "AQID")])].

End Samples.

(** ** Further collaborators

    What the assembler and the legacy path ask of the ledger library
    and the JS runtime: the RPC queries of a [Connection] (the [n]-th
    request for the latest blockhash answers with the blockhash and the
    last valid block height), the bytes the [u64] layout writes for a
    value outside [0, 2^64), [Number(s)] and [String(e)], signing and
    serialisation of a transaction. *)
Record AssembledTransaction := mkAssembled {
  feePayer : PublicKey;
  recentBlockhash : string;
  lastValidBlockHeight : N;
  assembled_instructions : list TransactionInstruction
}.

Class Chain := {
  getLatestBlockhash : nat -> result (string * N);
  getAccount : PublicKey -> result unit;
  getMint : PublicKey -> result N;
  u64_outside_range : Z -> list byte;
  Number_of_string : string -> number;
  String_of_error : JSError -> string;
  Transaction_sign : AssembledTransaction -> Keypair -> result (option (list byte));
  Transaction_serialize : AssembledTransaction -> Keypair -> result (list byte)
}.

(** Zero, finite or infinite, with the sign [s]. *)
Definition signed (s : bool) (x : number) : Prop :=
  x = S754_zero s \/ x = S754_infinity s \/ exists m e, x = S754_finite s m e.

(** [Math.max(a, b)]: NaN when either is NaN, [+0] above [-0]. *)
Definition Math_max (a b : number) : number :=
  match SFcompare a b with
  | None => NaN
  | Some Lt => b
  | Some Gt => a
  | Some Eq =>
      match a, b with
      | S754_zero true, S754_zero false => b
      | _, _ => a
      end
  end.

(** [ASSOCIATED_TOKEN_PROGRAM_ID] of [@solana/spl-token]. *)
Definition ASSOCIATED_TOKEN_PROGRAM_ID : PublicKey :=
  Eval vm_compute in
    key_of_result (new_PublicKey "ATokenGPvbdGVxr1b2hvZbsiqW5xWH25efTNsLJA8knL").

(** [createAssociatedTokenAccountInstruction(payer, associatedToken, owner, mint)] *)
Definition createAssociatedTokenAccountInstruction
    (payer associatedToken owner mint : PublicKey) : TransactionInstruction :=
  mkInstruction ASSOCIATED_TOKEN_PROGRAM_ID
    [mkAccountMeta payer true true; mkAccountMeta associatedToken false true;
     mkAccountMeta owner false false; mkAccountMeta mint false false;
     mkAccountMeta SYSTEM_PROGRAM_ID false false;
     mkAccountMeta TOKEN_PROGRAM_ID false false]
    [].

Section WithChain.
Context {RT : Runtime} {LG : Ledger} {CH : Chain}.

Local Open Scope js_scope.

(** The 8 bytes of the [u64] layout. *)
Definition u64_layout (v : Z) : list byte :=
  if (0 <=? v) && (v <? 2 ^ 64) then le_bytes 8 (Z.to_N v)
  else u64_outside_range v.

(** [SystemProgram.transfer({fromPubkey, toPubkey, lamports})] for a
    number of lamports, which the library converts with [BigInt]. *)
Definition SystemProgram_transfer_number (fromPubkey toPubkey : PublicKey)
    (lamports : number) : result TransactionInstruction :=
  value <- BigInt lamports ;;
  Ok (mkInstruction SYSTEM_PROGRAM_ID
        [mkAccountMeta fromPubkey true true; mkAccountMeta toPubkey false true]
        (le_bytes 4 2 ++ u64_layout value)).

(** [createSPLTransferInstruction(sourceTokenAccount, destinationTokenAccount, owner, amount)] *)
Definition createSPLTransferInstruction
    (sourceTokenAccount destinationTokenAccount owner : PublicKey) (amount : Z)
  : TransactionInstruction :=
  mkInstruction TOKEN_PROGRAM_ID
    [mkAccountMeta sourceTokenAccount false true;
     mkAccountMeta destinationTokenAccount false true;
     mkAccountMeta owner true false]
    (le_bytes 1 3 ++ u64_layout amount).

(** [createSOLPaymentTransaction(connection, payer, config)].  An
    [undefined] recipient, which the type of [config] excludes, makes
    the transaction fail when it is compiled for signing; the model
    fails where the transfer is built. *)
Definition createSOLPaymentTransaction (payer : Keypair) (config : PaymentConfig)
  : result AssembledTransaction :=
  recipient <- resolve_address (recipient config) ;;
  lamports <- toTokenUnits (amount config) 9 ;;
  first <- getLatestBlockhash 0 ;;
  second <- getLatestBlockhash 1 ;;
  transferInstruction <-
    match recipient with
    | Some toPubkey =>
        SystemProgram_transfer_number (publicKey payer) toPubkey
          (Number_of_BigInt lamports)
    | None => Throw (TypeError_undefined "toBase58")
    end ;;
  Ok (mkAssembled (publicKey payer) (fst first) (snd second)
        [transferInstruction]).

(** [getMintInfo(connection, mint)]: the decimals of the mint. *)
Definition getMintInfo (mint : PublicKey) : result N :=
  try_catch (getMint mint)
    (fun error =>
       Throw (Error ("Failed to get mint info for " ++ toBase58 mint ++ ": "
                     ++ String_of_error error)%string)).

(** [getOrCreateTokenAccount(connection, payer, mint, owner)]: the
    address, and the creating instruction when the account is absent.
    The derivation throws on an [undefined] owner. *)
Definition getOrCreateTokenAccount (payer : Keypair) (mint : PublicKey)
    (owner : option PublicKey)
  : result (PublicKey * option TransactionInstruction) :=
  associatedTokenAccount <- getAssociatedTokenAddress_opt mint owner ;;
  match getAccount associatedTokenAccount, owner with
  | Throw _, Some o =>
      Ok (associatedTokenAccount,
          Some (createAssociatedTokenAccountInstruction (publicKey payer)
                  associatedTokenAccount o mint))
  | _, _ => Ok (associatedTokenAccount, None)
  end.

(** [tokenAccountExists(connection, tokenAccount)] *)
Definition tokenAccountExists (tokenAccount : PublicKey) : bool :=
  match getAccount tokenAccount with
  | Ok _ => true
  | Throw _ => false
  end.

(** [config.decimals || mintInfo.decimals] *)
Definition decimals_or_mint (config : PaymentConfig) (mintDecimals : N) : N :=
  match decimals config with
  | Some d => if (d =? 0)%N then mintDecimals else d
  | None => mintDecimals
  end.

(** The instructions a list of optional ones adds, in order. *)
Definition added (ixs : list (option TransactionInstruction))
  : list TransactionInstruction :=
  flat_map (fun ix => match ix with Some i => [i] | None => [] end) ixs.

(** [createSPLPaymentTransaction(connection, payer, config)] *)
Definition createSPLPaymentTransaction (payer : Keypair) (config : PaymentConfig)
  : result AssembledTransaction :=
  if negb (truthy_address (mintAddress config))
  then Throw (Error "Mint address is required for SPL token payments")
  else
    mint_opt <- resolve_address (mintAddress config) ;;
    match mint_opt with
    | None => Throw (Error "Mint address is required for SPL token payments")
    | Some mint =>
        recipient <- resolve_address (recipient config) ;;
        mintDecimals <- getMintInfo mint ;;
        let decimals := decimals_or_mint config mintDecimals in
        amount <- toTokenUnits (amount config) decimals ;;
        first <- getLatestBlockhash 0 ;;
        second <- getLatestBlockhash 1 ;;
        payerAccount <- getOrCreateTokenAccount payer mint
                          (Some (publicKey payer)) ;;
        recipientAccount <- getOrCreateTokenAccount payer mint recipient ;;
        let createRecipientAccountIx :=
          match createAccountIfNeeded config with
          | Some true => snd recipientAccount
          | _ => None
          end in
        let transferInstruction :=
          createSPLTransferInstruction (fst payerAccount) (fst recipientAccount)
            (publicKey payer) amount in
        Ok (mkAssembled (publicKey payer) (fst first) (snd second)
              (added [snd payerAccount; createRecipientAccountIx;
                      Some transferInstruction]))
    end.

(** ** On-chain submission ([onchain]) *)

(** The configuration [submitPaymentOnChain] and
    [createSignedPaymentTransaction] assemble from: for USDC without a
    mint the mint of the network is written into [config]; another
    token without a mint is refused. *)
Definition with_default_mint (config : PaymentConfig) (network : string)
  : result PaymentConfig :=
  if truthy_address (mintAddress config) then Ok config
  else
    match tokenType config with
    | Some USDC => Ok (setMintAddress (AddrKey (getUSDCMint network)) config)
    | t => Throw (Error ("Mint address is required for " ++ TokenType_text t
                         ++ " payments")%string)
    end.

(** The transaction both functions build, by token type. *)
Definition assemble (payer : Keypair) (config : PaymentConfig) (network : string)
  : result AssembledTransaction :=
  if negb (not_SOL (tokenType config))
  then createSOLPaymentTransaction payer config
  else
    config' <- with_default_mint config network ;;
    createSPLPaymentTransaction payer config'.

Record SignedPayment := mkSignedPayment {
  serializedTransaction : string;
  signed_signature : string;
  signed_transaction : AssembledTransaction
}.

(** [createSignedPaymentTransaction(config, {payerKeypair, network})] *)
Definition createSignedPaymentTransaction (config : PaymentConfig)
    (payer : Keypair) (network : string) : result SignedPayment :=
  transaction <- assemble payer config network ;;
  sig <- Transaction_sign transaction payer ;;
  let signature :=
    string_or (option_map Base64.encode sig) "" in
  wire <- Transaction_serialize transaction payer ;;
  Ok (mkSignedPayment (Base64.encode wire) signature transaction).

(** What [submitPaymentOnChain] returns: the signature, the explorer
    address, the [paymentDetails] and the transaction. *)
Record OnChainReceipt := mkReceipt {
  txSignature : string;
  receipt_explorerUrl : string;
  receipt_amount : number;
  receipt_tokenType : option TokenType;
  receipt_recipient : string;
  receipt_mintAddress : option string;
  receipt_transaction : AssembledTransaction
}.

(** [submitPaymentOnChain(config, {payerKeypair, network, simulateFirst})].
    The default mint is written into [config], so [paymentDetails]
    reads it from there. *)
Definition submitPaymentOnChain (config : PaymentConfig) (payer : Keypair)
    (network : string) (simulateFirst : option bool) : result OnChainReceipt :=
  let connection := connection_cluster network in
  try_catch
    (built <-
       (if negb (not_SOL (tokenType config))
        then
          transaction <- createSOLPaymentTransaction payer config ;;
          Ok (config, transaction)
        else
          config' <- with_default_mint config network ;;
          transaction <- createSPLPaymentTransaction payer config' ;;
          Ok (config', transaction)) ;;
     let config := fst built in
     let transaction := snd built in
     _ <- Transaction_sign transaction payer ;;
     _ <- match simulateFirst with
          | Some false => Ok tt
          | _ =>
              simulation <-
                simulateTransaction connection
                  (mkTransaction (assembled_instructions transaction)) ;;
              match simulation with
              | Some err =>
                  Throw (Error ("Transaction simulation failed: " ++ err)%string)
              | None => Ok tt
              end
          end ;;
     wire <- Transaction_serialize transaction payer ;;
     signature <- sendRawTransaction connection wire ;;
     confirmation <- confirmTransaction connection signature ;;
     match confirmation with
     | Some err =>
         Throw (Error ("Transaction failed on-chain: " ++ err)%string)
     | None =>
         let cluster :=
           if includes "mainnet" network then "mainnet-beta" else "devnet" in
         let explorerUrl :=
           ("https://explorer.solana.com/tx/" ++ signature
              ++ "?cluster=" ++ cluster)%string in
         recipient <- address_string (recipient config) ;;
         Ok (mkReceipt signature explorerUrl (amountNumber (amount config))
               (tokenType config) recipient
               (address_string_opt (mintAddress config)) transaction)
     end)
    (fun error =>
       Throw (Error ("On-chain payment failed: " ++
                     (if instanceofError error then message error
                      else "Unknown error"))%string)).

(** The payment proof [createSignedTransaction] puts in the header. *)
Definition paymentProof (network serialized : string) : json :=
  JObject [("x402Version", JNumber (of_Z 1));
           ("scheme", JString "exact");
           ("network", JString network);
           ("payload", JObject [("serializedTransaction", JString serialized)])].

(** [sdk.createSignedTransaction(config, payerKeypair)]: the signed
    payment and its [x402Header]. *)
Definition createSignedTransaction (sdk : X402SDK) (config : PaymentConfig)
    (payer : Keypair) : result (SignedPayment * string) :=
  let validation := validateConfig config in
  if negb (validation_isValid validation)
  then Throw (Error ("Invalid payment configuration: "
                     ++ String.concat ", " (validation_errors validation))%string)
  else
    result <- createSignedPaymentTransaction config payer (network (cfg sdk)) ;;
    Ok (result,
        createX402Header
          (paymentProof (network (cfg sdk)) (serializedTransaction result))).

(** [sdk.verifyPayment(transaction, expectedConfig)], for a transaction
    object or its base64 text. *)
Definition verifyPayment (transaction : Transaction + string)
    (expectedConfig : PaymentConfig) : result PaymentVerificationResult :=
  try_catch
    (tx <- match transaction with
           | inr text => Transaction_from (Base64.decode text)
           | inl tx => Ok tx
           end ;;
     verifyPaymentInstructions tx expectedConfig)
    (fun error =>
       Ok (mkVerification false
             (Some ("Verification failed: " ++
                    (if instanceofError error then message error
                     else "Unknown error"))%string)
             None)).

(** ** The legacy path ([onchain], [index.ts]) *)

(** [Math.max(1, Math.floor(Number(amount) * 1e9 || 1))] *)
Definition direct_lamports (amount : string) : number :=
  let scaled := mul (Number_of_string amount) (of_Z (10 ^ 9)) in
  Math_max (of_Z 1) (Math_floor (if truthy scaled then scaled else of_Z 1)).

(** What [submitOnChainDirect] sends: the cluster and the transfer. *)
Record DirectSubmission := mkDirectSubmission {
  direct_cluster : string;
  direct_to : PublicKey;
  direct_amount : number;
  direct_instruction : TransactionInstruction
}.

(** [submitOnChainDirect(paymentReq, {payerKeypair, network, toPubkey})]
    up to [conn.sendTransaction]. *)
Definition submitOnChainDirect (paymentReq : X402PaymentRequirements)
    (payer : Keypair) (network : string) (toPubkey : option string)
  : result DirectSubmission :=
  let cluster := connection_cluster network in
  to <- match toPubkey with
        | Some "" | None => Ok (publicKey payer)
        | Some text => new_PublicKey text
        end ;;
  let lamports := direct_lamports (req_amount paymentReq) in
  instruction <- SystemProgram_transfer_number (publicKey payer) to lamports ;;
  Ok (mkDirectSubmission cluster to lamports instruction).

(** The network call [payForResource] ends with. *)
Inductive ResourceCall :=
| DirectOnChain (submission : DirectSubmission)
| FacilitatorCall (client : FacilitatorClient)
    (paymentReq : X402PaymentRequirements).

(** [sdk.payForResource(paymentReq, opts)] up to its network call. *)
Definition payForResource (sdk : X402SDK) (paymentReq : X402PaymentRequirements)
    (payer : option Keypair) : result ResourceCall :=
  match preferOnChain (cfg sdk), payer with
  | Some true, Some payerKeypair =>
      submission <- submitOnChainDirect paymentReq payerKeypair
                      (network (cfg sdk)) None ;;
      Ok (DirectOnChain submission)
  | _, _ =>
      match facilitator sdk with
      | None => Throw (Error no_facilitator_message)
      | Some client => Ok (FacilitatorCall client paymentReq)
      end
  end.

(** [PaymentUtils.fromX402Requirements(requirements)] *)
Definition fromX402Requirements (requirements : X402PaymentRequirements)
  : PaymentConfig :=
  let payload := req_payment_payload requirements in
  mkPaymentConfig
    (match req_tokenType requirements with
     | Some t => Some t
     | None => req_currency requirements
     end)
    (Some (AmountStr (req_amount requirements)))
    (Some (AddrStr (payload_recipient payload)))
    (match req_mintAddress requirements with
     | Some "" | None => option_map AddrStr (payload_mintAddress payload)
     | Some m => Some (AddrStr m)
     end)
    (Some (payload_decimals payload))
    (req_createAccountIfNeeded requirements).

(** [Payments.sol], [Payments.usdc], [Payments.spl] *)
Definition Payments_sol (a : Amount) (r : Address) : result PaymentConfig :=
  build (PaymentBuilder_sol a r).
Definition Payments_usdc (a : Amount) (r : Address) (network : string)
  : result PaymentConfig :=
  build (PaymentBuilder_usdc a r network).
Definition Payments_spl (a : Amount) (r m : Address) (d : N)
  : result PaymentConfig :=
  build (PaymentBuilder_spl a r m d).

End WithChain.

(** ** A reference chain

    An executable instance of the further collaborators: a ledger on
    which the token accounts with an even key exist and every mint has
    6 decimals, and a stand-in for signing and serialisation. *)
Module ReferenceChain.

Definition number_of_string (s : string) : number :=
  match s with
  | EmptyString => of_Z 0
  | _ => Reference.parse_float s
  end.

Definition string_of_error (e : JSError) : string :=
  match e with
  | Error msg => ("Error: " ++ msg)%string
  | Thrown text => text
  end.

#[export] Instance chain : Chain := {|
  getLatestBlockhash :=
    fun n => Ok ("EETubP5AKHgjPAhzPAFcb8BAY1hMH639CWCFTqi3hq1k",
                 (1000 + N.of_nat n)%N);
  getAccount :=
    fun k => if N.even (_bn k) then Ok tt
             else Throw (Error "TokenAccountNotFoundError");
  getMint := fun _ => Ok 6%N;
  u64_outside_range := fun _ => le_bytes 8 0;
  Number_of_string := number_of_string;
  String_of_error := string_of_error;
  Transaction_sign := fun _ _ => Ok (Some [x01; x02; x03]);
  Transaction_serialize := fun _ _ => Ok [x01; x02; x03]
|}.

End ReferenceChain.

(** ** Further sample inputs *)
Module MoreSamples.

Definition payer_keypair : Keypair := mkKeypair Samples.payer [].

(** An SDK on devnet without facilitator that does not prefer the chain. *)
Definition sdk_off_chain : X402SDK :=
  new_X402SDK (mkSDKConfig "solana-devnet" None None None).

(** USDC without a mint address. *)
Definition usdc_without_mint : PaymentConfig :=
  mkPaymentConfig (Some USDC) (Some (AmountNum (of_Z 1)))
    (Some (AddrKey Samples.R)) None (Some 6%N) (Some true).

(** Requirements as a facilitator would receive them for 0.5 SOL. *)
Definition legacy_requirements : X402PaymentRequirements :=
  mkRequirements "0.5" (Some SOL) "exact"
    (mkPaymentPayload (toBase58 Samples.R) (Some SOL) None 9 "solana-devnet")
    (Some SOL) None None.

(** The middleware for 0.001 SOL to [R], named by its base-58 text. *)
Definition paid_middleware : MiddlewareOpts :=
  mkMiddlewareOpts (decimal 1 3) SOL (toBase58 Samples.R) None None.


(** The transfer of 1_000_000 lamports from the payer to [R]. *)
Definition transfer_to_R : TransactionInstruction :=
  SystemProgram_transfer Samples.payer Samples.R 1000000.

(** An SDK on devnet that prefers the chain. *)
Definition sdk_on_chain : X402SDK :=
  new_X402SDK (mkSDKConfig "solana-devnet" None (Some true) None).

End MoreSamples.

(** [PaymentUtils.getExplorerUrl(signature, network)] *)
Definition getExplorerUrl (signature network : string) : string :=
  let cluster := if includes "mainnet" network then "mainnet-beta" else "devnet" in
  ("https://explorer.solana.com/tx/" ++ signature ++ "?cluster=" ++ cluster)%string.

(** ** A reference ledger that answers

    Every buffer deserialises to the transfer of 1_000_000 lamports
    from the sample payer to [R]; simulation, submission and
    confirmation succeed. *)
Module ReferenceLedger.

#[export] Instance online : Ledger := {|
  Transaction_from :=
    fun _ => Ok (mkTransaction
                   [SystemProgram_transfer Samples.payer Samples.R 1000000]);
  simulateTransaction := fun _ _ => Ok None;
  sendRawTransaction := fun _ _ => Ok "5VERv8NMvzbJMEkV8xnrLkEaWRtSz9CosKDYjCJjBRnb";
  confirmTransaction := fun _ _ => Ok None
|}.

End ReferenceLedger.

(** * Properties *)

(** ** Numbers: integers below [2^53] are represented exactly *)
Module NumberFacts.

Lemma digits2_iter_xO (p d : positive) :
  digits2_pos (Pos.iter xO p d) = (digits2_pos p + d)%positive.
Proof.
  induction d using Pos.peano_ind.
  - simpl. lia.
  - rewrite Pos.iter_succ. simpl. rewrite IHd. lia.
Qed.

Lemma iter_xO_value (p d : positive) :
  Z.pos (Pos.iter xO p d) = Z.pos p * 2 ^ Z.pos d.
Proof.
  induction d using Pos.peano_ind.
  - simpl. lia.
  - rewrite Pos.iter_succ, Pos2Z.inj_xO, IHd, Pos2Z.inj_succ.
    rewrite Z.pow_succ_r by lia. lia.
Qed.

Lemma digits2_size (p : positive) : digits2_pos p = Pos.size p.
Proof. induction p; simpl; congruence. Qed.

Lemma digits2_bound (p : positive) (k : Z) :
  0 <= k -> Z.pos p < 2 ^ k -> Z.pos (digits2_pos p) <= k.
Proof.
  intros Hk Hp. rewrite digits2_size.
  pose proof (Pos.size_le p) as Hs.
  apply Pos2Z.pos_le_pos in Hs.
  rewrite Pos2Z.inj_pow, (Pos2Z.inj_xO p) in Hs.
  destruct (Z_le_gt_dec (Z.pos (Pos.size p)) k) as [L|G]; [exact L|].
  assert (2 ^ (k + 1) <= 2 ^ Z.pos (Pos.size p))
    by (apply Z.pow_le_mono_r; lia).
  rewrite Z.pow_add_r, Z.pow_1_r in H by lia. lia.
Qed.

(** A mantissa of full width needs no shift and no rounding. *)
Lemma shr_fexp_normal (m : positive) (e : Z) :
  Z.pos (digits2_pos m) = 53 -> -1074 <= e ->
  shr_fexp prec emax (Z.pos m) e loc_Exact
  = ({| shr_m := Z.pos m; shr_r := false; shr_s := false |}, e).
Proof.
  intros Hd He. unfold shr_fexp.
  replace (fexp prec emax (Zdigits2 (Z.pos m) + e) - e) with 0.
  - reflexivity.
  - unfold fexp, emin, prec, emax, Zdigits2. rewrite Hd. lia.
Qed.

Lemma binary_round_aux_normal (s : bool) (m : positive) (e : Z) :
  Z.pos (digits2_pos m) = 53 -> -1074 <= e <= 971 ->
  binary_round_aux prec emax s (Z.pos m) e loc_Exact = S754_finite s m e.
Proof.
  intros Hd He. unfold binary_round_aux.
  rewrite shr_fexp_normal by (assumption || lia).
  cbn [shr_m loc_of_shr_record shr_r shr_s round_nearest_even].
  rewrite shr_fexp_normal by (assumption || lia).
  cbn [shr_m].
  replace (e <=? emax - prec) with true; [reflexivity|].
  symmetry. apply Z.leb_le. unfold emax, prec. lia.
Qed.

Lemma binary_round_small (s : bool) (p : positive) :
  Z.pos (digits2_pos p) <= 53 ->
  exists q d, binary_round prec emax s p 0 = S754_finite s q (- d)
              /\ 0 <= d /\ Z.pos q = Z.pos p * 2 ^ d.
Proof.
  intros Hk. unfold binary_round, shl_align.
  assert (Hf : fexp prec emax (Z.pos (digits2_pos p) + 0)
               = Z.pos (digits2_pos p) - 53)
    by (unfold fexp, emin, prec, emax; lia).
  rewrite Hf.
  destruct (Z.pos (digits2_pos p) - 53 - 0) as [|d|d] eqn:D; try lia.
  - exists p, 0. rewrite binary_round_aux_normal by lia.
    split; [reflexivity | lia].
  - exists (Pos.iter xO p d), (Z.pos d).
    rewrite binary_round_aux_normal.
    + replace (Z.pos (digits2_pos p) - 53) with (- Z.pos d) by lia.
      split; [reflexivity | split; [lia | apply iter_xO_value]].
    + rewrite digits2_iter_xO. lia.
    + lia.
Qed.

Lemma to_integer_scaled (s : bool) (q p : positive) (d : Z) :
  0 <= d -> Z.pos q = Z.pos p * 2 ^ d ->
  to_integer (S754_finite s q (- d))
  = Some (if s then Z.neg p else Z.pos p).
Proof.
  intros Hd Hq. unfold to_integer.
  assert (Hpow : 2 ^ d <> 0) by (apply Z.pow_nonzero; lia).
  assert (Hv : (if s then Z.neg q else Z.pos q)
               = (if s then Z.neg p else Z.pos p) * 2 ^ d).
  { destruct s; [|exact Hq].
    change (Z.neg q) with (- Z.pos q). change (Z.neg p) with (- Z.pos p).
    rewrite Hq. ring. }
  rewrite Hv.
  destruct (0 <=? - d) eqn:L.
  - apply Z.leb_le in L. assert (d = 0) by lia. subst d.
    f_equal. change (- 0) with 0. rewrite Z.pow_0_r. ring.
  - rewrite Z.opp_involutive, Z.mod_mul by exact Hpow.
    rewrite Z.eqb_refl, Z.div_mul by exact Hpow. reflexivity.
Qed.

(** [of_Z] loses nothing on an integer below [2^53], whatever the
    sign given to a zero. *)
Lemma to_integer_normalize (z : Z) (szero : bool) :
  Z.abs z < 2 ^ 53 ->
  to_integer (binary_normalize prec emax z 0 szero) = Some z.
Proof.
  intros Hz. unfold binary_normalize.
  destruct z as [|p|p]; [reflexivity| |].
  - destruct (binary_round_small false p) as (q & d & E & Hd & Hq).
    { apply digits2_bound; [lia | exact Hz]. }
    rewrite E. apply (to_integer_scaled false); assumption.
  - destruct (binary_round_small true p) as (q & d & E & Hd & Hq).
    { apply digits2_bound; [lia | exact Hz]. }
    rewrite E. apply (to_integer_scaled true); assumption.
Qed.

Lemma to_integer_of_Z (z : Z) :
  Z.abs z < 2 ^ 53 -> to_integer (of_Z z) = Some z.
Proof. apply to_integer_normalize. Qed.

(** [floorZ] is the floor of the value [v * 2^e]. *)
Lemma floorZ_spec (s : bool) (m : positive) (e : Z) :
  e < 0 ->
  let v := if s then Z.neg m else Z.pos m in
  floorZ s m e * 2 ^ (- e) <= v < (floorZ s m e + 1) * 2 ^ (- e).
Proof.
  intros He v. unfold floorZ. fold v.
  replace (0 <=? e) with false by (symmetry; apply Z.leb_gt; exact He).
  assert (Hpow : 0 < 2 ^ (- e)) by (apply Z.pow_pos_nonneg; lia).
  pose proof (Z.div_mod v (2 ^ (- e)) ltac:(lia)) as Hdm.
  pose proof (Z.mod_pos_bound v (2 ^ (- e)) Hpow) as Hb.
  nia.
Qed.

(** For a positive number the floor is the truncation towards zero. *)
Lemma floorZ_nonneg_quot (m : positive) (e : Z) :
  e < 0 -> floorZ false m e = Z.quot (Z.pos m) (2 ^ (- e)).
Proof.
  intros He. unfold floorZ.
  replace (0 <=? e) with false by (symmetry; apply Z.leb_gt; exact He).
  symmetry. apply Z.quot_div_nonneg; [lia|].
  apply Z.pow_pos_nonneg; lia.
Qed.

Lemma floorZ_abs_le (s : bool) (m : positive) (e : Z) :
  e < 0 -> Z.abs (floorZ s m e) <= Z.pos m.
Proof.
  intros He. pose proof (floorZ_spec s m e He) as H. cbv zeta in H.
  assert (Hpow : 1 <= 2 ^ (- e)).
  { change 1 with (2 ^ 0). apply Z.pow_le_mono_r; lia. }
  destruct s; nia.
Qed.

(** [BigInt(Math.floor(x))] of a finite number with a mantissa of at
    most 53 bits is the floor of its value. *)
Lemma to_integer_floor (s : bool) (m : positive) (e : Z) :
  Z.pos m < 2 ^ 53 ->
  to_integer (Math_floor (S754_finite s m e)) = Some (floorZ s m e).
Proof.
  intros Hm. unfold Math_floor.
  destruct (0 <=? e) eqn:L.
  - unfold to_integer, floorZ. rewrite L. reflexivity.
  - apply Z.leb_gt in L. apply to_integer_normalize.
    pose proof (floorZ_abs_le s m e L). lia.
Qed.

(** *** The mantissa of a rounded product has at most 53 bits *)

Lemma shr_1_m (mrs : shr_record) :
  0 <= shr_m mrs -> shr_m (shr_1 mrs) = shr_m mrs / 2.
Proof.
  destruct mrs as [m r s]. cbn [shr_m]. intros Hm.
  rewrite <- Z.div2_div. unfold shr_1.
  destruct m as [|[p|p|]|p]; try reflexivity; lia.
Qed.

Lemma iter_shr_1_m (p : positive) :
  forall mrs, 0 <= shr_m mrs ->
    shr_m (iter_pos shr_1 p mrs) = shr_m mrs / 2 ^ Z.pos p.
Proof.
  assert (Hpos : forall q, 0 < 2 ^ Z.pos q)
    by (intros q; apply Z.pow_pos_nonneg; lia).
  induction p as [p IH|p IH|]; intros mrs Hm; cbn [iter_pos].
  - assert (H1 : 0 <= shr_m (shr_1 mrs)).
    { rewrite shr_1_m by exact Hm. apply Z.div_pos; lia. }
    assert (H2 : 0 <= shr_m (iter_pos shr_1 p (shr_1 mrs))).
    { rewrite IH by exact H1. apply Z.div_pos; [exact H1 | apply Hpos]. }
    rewrite IH, IH, shr_1_m by assumption.
    pose proof (Hpos p).
    rewrite !Z.div_div by lia.
    f_equal. replace (Z.pos p~1) with (Z.succ (2 * Z.pos p)) by lia.
    rewrite Z.pow_succ_r, Z.pow_twice_r by lia. reflexivity.
  - assert (H2 : 0 <= shr_m (iter_pos shr_1 p mrs)).
    { rewrite IH by exact Hm. apply Z.div_pos; [exact Hm | apply Hpos]. }
    rewrite IH, IH by assumption.
    pose proof (Hpos p).
    rewrite !Z.div_div by lia.
    f_equal. replace (Z.pos p~0) with (2 * Z.pos p) by lia.
    rewrite Z.pow_twice_r. reflexivity.
  - rewrite shr_1_m by exact Hm. reflexivity.
Qed.

Lemma Zdigits2_bound (m : Z) : 0 <= m -> m < 2 ^ Zdigits2 m.
Proof.
  intros Hm. destruct m as [|p|p]; [reflexivity| |lia].
  unfold Zdigits2. rewrite digits2_size.
  pose proof (Pos.size_gt p) as H. 
  apply Pos2Z.pos_lt_pos in H. rewrite Pos2Z.inj_pow in H. exact H.
Qed.

Lemma Zdigits2_nonneg (m : Z) : 0 <= m -> 0 <= Zdigits2 m.
Proof. destruct m; simpl; lia. Qed.

Lemma shr_record_of_loc_m m l : shr_m (shr_record_of_loc m l) = m.
Proof. destruct l as [|[| |]]; reflexivity. Qed.

Lemma shr_fexp_bounded (m e : Z) (l : location) :
  0 <= m ->
  0 <= shr_m (fst (shr_fexp prec emax m e l)) < 2 ^ 53.
Proof.
  intros Hm. unfold shr_fexp, shr.
  pose proof (Zdigits2_bound m Hm) as Hb.
  pose proof (Zdigits2_nonneg m Hm) as Hn.
  set (d := Zdigits2 m) in *.
  destruct (fexp prec emax (d + e) - e) as [|n|n] eqn:En; cbn [fst].
  - rewrite shr_record_of_loc_m. split; [exact Hm|].
    assert (d <= 53) by (unfold fexp, emin, prec, emax in En; lia).
    eapply Z.lt_le_trans; [exact Hb|]. apply Z.pow_le_mono_r; lia.
  - rewrite iter_shr_1_m by (rewrite shr_record_of_loc_m; exact Hm).
    rewrite shr_record_of_loc_m.
    assert (Hpow : 0 < 2 ^ Z.pos n) by (apply Z.pow_pos_nonneg; lia).
    split; [apply Z.div_pos; lia|].
    apply Z.div_lt_upper_bound; [exact Hpow|].
    assert (d <= 53 + Z.pos n) by (unfold fexp, emin, prec, emax in En; lia).
    rewrite <- Z.pow_add_r by lia.
    eapply Z.lt_le_trans; [exact Hb|]. apply Z.pow_le_mono_r; lia.
  - rewrite shr_record_of_loc_m. split; [exact Hm|].
    assert (d <= 53) by (unfold fexp, emin, prec, emax in En; lia).
    eapply Z.lt_le_trans; [exact Hb|]. apply Z.pow_le_mono_r; lia.
Qed.

Lemma round_nearest_even_nonneg m l : 0 <= m -> 0 <= round_nearest_even m l.
Proof.
  intros Hm. unfold round_nearest_even.
  destruct l as [|[| |]]; try lia. destruct (Z.even m); lia.
Qed.

Lemma binary_round_aux_bounded (s : bool) (m e : Z) (l : location) :
  0 <= m ->
  match binary_round_aux prec emax s m e l with
  | S754_finite _ q _ => Z.pos q < 2 ^ 53
  | _ => True
  end.
Proof.
  intros Hm. unfold binary_round_aux.
  destruct (shr_fexp prec emax m e l) as [mrs' e'] eqn:E1.
  pose proof (shr_fexp_bounded m e l Hm) as H1. rewrite E1 in H1. cbn [fst] in H1.
  set (m' := round_nearest_even (shr_m mrs') (loc_of_shr_record mrs')).
  assert (Hm' : 0 <= m') by (apply round_nearest_even_nonneg; lia).
  destruct (shr_fexp prec emax m' e' loc_Exact) as [mrs'' e''] eqn:E2.
  pose proof (shr_fexp_bounded m' e' loc_Exact Hm') as H2.
  rewrite E2 in H2. cbn [fst] in H2.
  destruct (shr_m mrs'') as [|q|q]; [exact I| |exact I].
  destruct (e'' <=? emax - prec); [apply H2 | exact I].
Qed.

Lemma mul_mantissa_bounded (x y : number) (s : bool) (m : positive) (e : Z) :
  mul x y = S754_finite s m e -> Z.pos m < 2 ^ 53.
Proof.
  unfold mul, SFmul.
  destruct x as [sx|sx| |sx mx ex], y as [sy|sy| |sy my ey]; try discriminate.
  intros E.
  pose proof (binary_round_aux_bounded (xorb sx sy) (Z.pos (mx * my)) (ex + ey)
                loc_Exact ltac:(lia)) as H.
  rewrite E in H. exact H.
Qed.

End NumberFacts.

(** ** The instruction codec *)
Section CodecFacts.

Lemma equals_eq (a b : PublicKey) : equals a b = true <-> a = b.
Proof.
  unfold equals. destruct a as [x], b as [y]. cbn [_bn]. rewrite N.eqb_eq.
  split; [intros -> | intros [= ->]]; reflexivity.
Qed.

Lemma equals_refl (a : PublicKey) : equals a a = true.
Proof. apply equals_eq. reflexivity. Qed.

Lemma system_program_decodes :
  new_PublicKey "11111111111111111111111111111111" = Ok SYSTEM_PROGRAM_ID.
Proof. reflexivity. Qed.

Lemma byte_at_is_spec (buf : list byte) (i : nat) (b : byte) :
  byte_at_is buf i (Byte.to_N b) = true <-> nth_error buf i = Some b.
Proof.
  unfold byte_at_is. destruct (nth_error buf i) as [c|]; [|split; discriminate].
  rewrite N.eqb_eq. split.
  - intros E. f_equal.
    pose proof (Byte.of_to_N c) as Hc. rewrite E, Byte.of_to_N in Hc.
    congruence.
  - intros [= ->]. reflexivity.
Qed.

Lemma readBigUInt64LE_in_range (buf : list byte) (offset : nat) :
  (offset + 8 <= List.length buf)%nat ->
  readBigUInt64LE buf offset
  = Ok (Z.of_N (le_value (firstn 8 (skipn offset buf)))).
Proof.
  intros H. unfold readBigUInt64LE.
  replace (offset + 8 <=? List.length buf)%nat with true; [reflexivity|].
  symmetry. apply Nat.leb_le. exact H.
Qed.

(** What [verifySOLTransferInstruction] accepts: the system program,
    12 bytes of data whose first byte is 2, an amount at offset 4 of
    at least the expected one, and the expected recipient as second
    account. *)
Lemma verifySOL_true_iff (ix : TransactionInstruction)
    (expectedRecipient : option PublicKey) (expectedAmount : Z) :
  verifySOLTransferInstruction ix expectedRecipient expectedAmount = true
  <-> programId ix = SYSTEM_PROGRAM_ID
      /\ List.length (data ix) = 12%nat
      /\ nth_error (data ix) 0 = Some x02
      /\ expectedAmount <= native_amount ix
      /\ exists meta, nth_error (keys ix) 1 = Some meta
                      /\ expectedRecipient = Some (pubkey meta).
Proof.
  unfold verifySOLTransferInstruction, verifySOLTransferInstruction_body.
  rewrite system_program_decodes. cbn [bind].
  rewrite <- (byte_at_is_spec (data ix) 0 x02).
  change (Byte.to_N x02) with 2%N.
  destruct (equals (programId ix) SYSTEM_PROGRAM_ID) eqn:Ep; cbn [negb].
  2:{ split; [discriminate|]. intros (Hp & _).
      apply equals_eq in Hp. congruence. }
  apply equals_eq in Ep.
  destruct (List.length (data ix) =? 12)%nat eqn:El; cbn [andb].
  2:{ split; [discriminate|]. intros (_ & Hl & _).
      apply Nat.eqb_neq in El. contradiction. }
  apply Nat.eqb_eq in El.
  destruct (byte_at_is (data ix) 0 2) eqn:Eb.
  2:{ split; [discriminate|]. intros (_ & _ & Hb & _). discriminate. }
  rewrite readBigUInt64LE_in_range by lia. cbn [bind].
  fold (native_amount ix).
  destruct (native_amount ix <? expectedAmount) eqn:Ea.
  { split; [discriminate|]. intros (_ & _ & _ & Ha & _).
    apply Z.ltb_lt in Ea. lia. }
  apply Z.ltb_ge in Ea.
  destruct (2 <=? List.length (keys ix))%nat eqn:Ek.
  2:{ split; [discriminate|]. intros (_ & _ & _ & _ & meta & Hm & _).
      apply Nat.leb_gt in Ek.
      assert (1 < List.length (keys ix))%nat
        by (apply nth_error_Some; congruence). lia. }
  destruct (nth_error (keys ix) 1) as [meta|] eqn:Em.
  2:{ split; [discriminate|]. intros (_ & _ & _ & _ & meta & Hm & _).
      discriminate. }
  destruct expectedRecipient as [R|]; cbn [equals_opt bind].
  2:{ split; [discriminate|]. intros (_ & _ & _ & _ & m' & _ & Hr).
      discriminate. }
  replace (expectedAmount <=? native_amount ix) with true
    by (symmetry; apply Z.leb_le; exact Ea).
  rewrite andb_true_r. rewrite equals_eq. split.
  - intros E. repeat split; try assumption. exists meta. split; congruence.
  - intros (_ & _ & _ & _ & m' & Hm & Hr). congruence.
Qed.

Context {RT : Runtime}.

(** What [verifySPLTransferInstruction] accepts when a mint is
    expected: the token program, at least 9 bytes of data whose first
    byte is 3, an amount at offset 1 of at least the expected one, and
    the derived token account as second account. *)
Lemma verifySPL_true_iff (ix : TransactionInstruction)
    (expectedRecipient : option PublicKey) (expectedAmount : Z)
    (mint : PublicKey) :
  verifySPLTransferInstruction ix expectedRecipient expectedAmount (Some mint)
  = true
  <-> programId ix = TOKEN_PROGRAM_ID
      /\ (9 <= List.length (data ix))%nat
      /\ nth_error (data ix) 0 = Some x03
      /\ expectedAmount <= token_amount ix
      /\ exists meta, nth_error (keys ix) 1 = Some meta
           /\ getAssociatedTokenAddress_opt mint expectedRecipient
              = Ok (pubkey meta).
Proof.
  unfold verifySPLTransferInstruction, verifySPLTransferInstruction_body.
  rewrite <- (byte_at_is_spec (data ix) 0 x03).
  change (Byte.to_N x03) with 3%N.
  destruct (equals (programId ix) TOKEN_PROGRAM_ID) eqn:Ep; cbn [negb].
  2:{ split; [discriminate|]. intros (Hp & _).
      apply equals_eq in Hp. congruence. }
  apply equals_eq in Ep.
  destruct (9 <=? List.length (data ix))%nat eqn:El; cbn [andb].
  2:{ split; [discriminate|]. intros (_ & Hl & _).
      apply Nat.leb_gt in El. lia. }
  apply Nat.leb_le in El.
  destruct (byte_at_is (data ix) 0 3) eqn:Eb.
  2:{ split; [discriminate|]. intros (_ & _ & Hb & _). discriminate. }
  rewrite readBigUInt64LE_in_range by lia. cbn [bind].
  fold (token_amount ix).
  destruct (token_amount ix <? expectedAmount) eqn:Ea.
  { split; [discriminate|]. intros (_ & _ & _ & Ha & _).
    apply Z.ltb_lt in Ea. lia. }
  apply Z.ltb_ge in Ea.
  destruct (2 <=? List.length (keys ix))%nat eqn:Ek.
  2:{ split; [discriminate|]. intros (_ & _ & _ & _ & meta & Hm & _).
      apply Nat.leb_gt in Ek.
      assert (1 < List.length (keys ix))%nat
        by (apply nth_error_Some; congruence). lia. }
  destruct (nth_error (keys ix) 1) as [meta|] eqn:Em.
  2:{ split; [discriminate|]. intros (_ & _ & _ & _ & meta & Hm & _).
      discriminate. }
  destruct (getAssociatedTokenAddress_opt mint expectedRecipient)
    as [ata|e] eqn:Ed.
  2:{ split; [discriminate|]. intros (_ & _ & _ & _ & m' & _ & Hr).
      discriminate. }
  destruct (equals (pubkey meta) ata) eqn:Eq; cbn [negb].
  - apply equals_eq in Eq.
    replace (expectedAmount <=? token_amount ix) with true
      by (symmetry; apply Z.leb_le; exact Ea).
    split; [|reflexivity]. intros _. repeat split; try assumption.
    exists meta. split; congruence.
  - split; [discriminate|]. intros (_ & _ & _ & _ & m' & Hm & Hr).
    assert (pubkey meta = ata) by congruence.
    apply equals_eq in H. congruence.
Qed.

(** Without an expected mint no instruction is accepted. *)
Lemma verifySPL_no_mint (ix : TransactionInstruction)
    (expectedRecipient : option PublicKey) (expectedAmount : Z) :
  verifySPLTransferInstruction ix expectedRecipient expectedAmount None = false.
Proof.
  unfold verifySPLTransferInstruction, verifySPLTransferInstruction_body.
  destruct (negb (equals (programId ix) TOKEN_PROGRAM_ID)); [reflexivity|].
  destruct ((9 <=? List.length (data ix))%nat && byte_at_is (data ix) 0 3);
    [|reflexivity].
  destruct (readBigUInt64LE (data ix) 1) as [ta|e]; cbn [bind]; [|reflexivity].
  destruct (ta <? expectedAmount); [reflexivity|].
  destruct (2 <=? List.length (keys ix))%nat; [|reflexivity].
  destruct (nth_error (keys ix) 1); reflexivity.
Qed.

End CodecFacts.

(** ** The instruction verifier *)
Section VerifierFacts.
Context {RT : Runtime}.

(** A successful scan reports the expected amount, whatever the
    matching instruction carries. *)
Lemma verify_loop_valid_details (cfg : PaymentConfig)
    (recipient : option PublicKey) (expectedAmount : Z)
    (ixs : list TransactionInstruction) (r : PaymentVerificationResult) :
  verify_loop cfg recipient expectedAmount ixs = Ok r ->
  isValid r = true ->
  exists d, details r = Some d
            /\ details_amount d = Number_of_BigInt expectedAmount.
Proof.
  induction ixs as [|ix rest IH]; cbn [verify_loop].
  - intros [= <-]. discriminate.
  - set (step := if negb (not_SOL (tokenType cfg)) then _ else _).
    destruct step as [[|]|e]; cbn [bind].
    + destruct recipient as [R|]; [|discriminate].
      intros [= <-] _. eexists. split; reflexivity.
    + exact IH.
    + discriminate.
Qed.

(** Without a mint on the expected side a fungible scan finds nothing. *)
Lemma verify_loop_without_mint (cfg : PaymentConfig)
    (recipient : option PublicKey) (expectedAmount : Z)
    (ixs : list TransactionInstruction) :
  not_SOL (tokenType cfg) = true ->
  truthy_address (mintAddress cfg) = false ->
  exists r, verify_loop cfg recipient expectedAmount ixs = Ok r
            /\ isValid r = false.
Proof.
  intros Ht Hm. induction ixs as [|ix rest IH]; cbn [verify_loop].
  - eexists. split; reflexivity.
  - rewrite Ht, Hm. cbn [negb bind]. rewrite verifySPL_no_mint. exact IH.
Qed.

(** A native scan succeeds exactly when some instruction is accepted
    by [verifySOLTransferInstruction]. *)
Lemma verify_loop_native (cfg : PaymentConfig)
    (recipient : option PublicKey) (expectedAmount : Z)
    (ixs : list TransactionInstruction) :
  tokenType cfg = Some SOL ->
  exists r, verify_loop cfg recipient expectedAmount ixs = Ok r
            /\ isValid r
               = existsb (fun ix => verifySOLTransferInstruction ix recipient
                                      expectedAmount) ixs.
Proof.
  intros Ht. induction ixs as [|ix rest IH]; cbn [verify_loop existsb].
  - eexists. split; reflexivity.
  - rewrite Ht. cbn [not_SOL negb bind].
    destruct (verifySOLTransferInstruction ix recipient expectedAmount) eqn:E.
    + apply verifySOL_true_iff in E.
      destruct E as (_ & _ & _ & _ & meta & _ & ->).
      eexists. split; reflexivity.
    + exact IH.
Qed.

(** Native verification, end to end: when the recipient and the
    amount of the expected configuration are well formed, the result
    is valid exactly when some instruction is accepted. *)
Lemma verify_native_iff (tx : Transaction) (cfg : PaymentConfig)
    (R : PublicKey) (expectedAmount : Z) :
  tokenType cfg = Some SOL ->
  resolve_address (recipient cfg) = Ok (Some R) ->
  toTokenUnits (amount cfg) (decimals_or_default cfg) = Ok expectedAmount ->
  exists r, verifyPaymentInstructions tx cfg = Ok r
            /\ (isValid r = true
                <-> exists ix, In ix (instructions tx)
                      /\ verifySOLTransferInstruction ix (Some R)
                           expectedAmount = true).
Proof.
  intros Ht Hr Ha.
  unfold verifyPaymentInstructions, verifyPaymentInstructions_try.
  rewrite Hr. cbn [bind]. rewrite Ha. cbn [bind].
  destruct (verify_loop_native cfg (Some R) expectedAmount (instructions tx) Ht)
    as (r & E & Hv).
  rewrite E. cbn [try_catch]. exists r. split; [reflexivity|].
  rewrite Hv. apply existsb_exists.
Qed.

(** C3.  A fungible verification whose expected configuration has no
    [mintAddress] returns [isValid = false], whatever instructions the
    transaction holds. *)
Theorem fungible_without_mint_never_valid
    (tx : Transaction) (cfg : PaymentConfig) :
  tokenType cfg <> Some SOL ->
  mintAddress cfg = None ->
  exists r, verifyPaymentInstructions tx cfg = Ok r /\ isValid r = false.
Proof.
  intros Ht Hm.
  unfold verifyPaymentInstructions, verifyPaymentInstructions_try.
  destruct (resolve_address (recipient cfg)) as [rec|e]; cbn [bind try_catch].
  2:{ eexists. split; reflexivity. }
  destruct (toTokenUnits (amount cfg) (decimals_or_default cfg)) as [ea|e];
    cbn [bind try_catch].
  2:{ eexists. split; reflexivity. }
  destruct (verify_loop_without_mint cfg rec ea (instructions tx))
    as (r & E & Hv).
  - destruct (tokenType cfg) as [[| |]|]; try reflexivity. congruence.
  - rewrite Hm. reflexivity.
  - rewrite E. exists r. split; [reflexivity | exact Hv].
Qed.

(** C6.  [verifyPaymentInstructions] never throws: it always returns
    a result, and when its body raises an exception (a malformed
    address string, an amount that is no number) the result is
    [isValid = false] with the exception's message in [error]. *)
Theorem verifier_never_throws (tx : Transaction) (cfg : PaymentConfig) :
  exists r, verifyPaymentInstructions tx cfg = Ok r
    /\ forall e, verifyPaymentInstructions_try tx cfg = Throw e ->
         isValid r = false
         /\ error r = Some ("Verification failed: " ++
                            (if instanceofError e then message e
                             else "Unknown error"))%string
         /\ details r = None.
Proof.
  unfold verifyPaymentInstructions.
  destruct (verifyPaymentInstructions_try tx cfg) as [r|e0]; cbn [try_catch].
  - exists r. split; [reflexivity | discriminate].
  - eexists. split; [reflexivity|].
    intros e [= <-]. repeat split.
Qed.

(** A malformed recipient string is such an exception. *)
Lemma malformed_recipient_is_reported (tx : Transaction) (cfg : PaymentConfig)
    (s : string) (e : JSError) :
  recipient cfg = Some (AddrStr s) ->
  new_PublicKey s = Throw e ->
  verifyPaymentInstructions_try tx cfg = Throw e.
Proof.
  intros Hr He. unfold verifyPaymentInstructions_try, resolve_address.
  rewrite Hr, He. reflexivity.
Qed.

(** C10.  On success [details.amount] is the expected amount in base
    units, computed from the expected configuration alone: what the
    matching instruction transfers above it is not reported. *)
Theorem details_amount_is_expected_amount
    (tx : Transaction) (cfg : PaymentConfig) (r : PaymentVerificationResult) :
  verifyPaymentInstructions tx cfg = Ok r ->
  isValid r = true ->
  exists expectedAmount d,
    toTokenUnits (amount cfg) (decimals_or_default cfg) = Ok expectedAmount
    /\ details r = Some d
    /\ details_amount d = Number_of_BigInt expectedAmount.
Proof.
  unfold verifyPaymentInstructions, verifyPaymentInstructions_try.
  destruct (resolve_address (recipient cfg)) as [rec|e]; cbn [bind try_catch].
  2:{ intros [= <-]. discriminate. }
  destruct (toTokenUnits (amount cfg) (decimals_or_default cfg)) as [ea|e];
    cbn [bind try_catch].
  2:{ intros [= <-]. discriminate. }
  destruct (verify_loop cfg rec ea (instructions tx)) as [r'|e] eqn:E;
    cbn [try_catch].
  2:{ intros [= <-]. discriminate. }
  intros [= <-] Hv.
  destruct (verify_loop_valid_details cfg rec ea _ r' E Hv) as (d & Hd & Ha).
  exists ea, d. repeat split; assumption.
Qed.

End VerifierFacts.

(** ** Native verification on concrete transactions *)
Section NativeExamples.
Import Samples.
Context {RT : Runtime}.

(** A transfer of exactly the expected 1_000_000 to [R] is valid. *)
Example native_exact_amount_valid :
  verifyPaymentInstructions
    (mkTransaction [SystemProgram_transfer payer R 1000000]) native_spec
  = Ok valid_result.
Proof. reflexivity. Qed.

(** A transfer of 999_999 to [R] is not. *)
Example native_short_amount_invalid :
  verifyPaymentInstructions
    (mkTransaction [SystemProgram_transfer payer R 999999]) native_spec
  = Ok invalid_result.
Proof. reflexivity. Qed.

(** A transfer of 1_000_000 to another recipient is not. *)
Example native_other_recipient_invalid :
  verifyPaymentInstructions
    (mkTransaction [SystemProgram_transfer payer R2 1000000]) native_spec
  = Ok invalid_result.
Proof. reflexivity. Qed.

(** C1.  Evaluation of the verifier on an instruction whose data is
    [02 01 00 00] followed by the amount 1_000_000: its 4-byte
    little-endian instruction-kind tag is 258, not 2, and it is
    accepted all the same, because only the first byte is compared
    with 2. *)
Theorem native_tag_compared_on_first_byte_only :
  layout_native_tag (data odd_tag_transfer) = 258%N
  /\ verifySOLTransferInstruction odd_tag_transfer (Some R) 1000000 = true
  /\ verifyPaymentInstructions (mkTransaction [odd_tag_transfer]) native_spec
     = Ok valid_result.
Proof. repeat split. Qed.

End NativeExamples.

(** ** Token transfers: the basic form only *)

(** C4 (as the code has it).  The verifier accepts a token-program
    instruction exactly when it has the basic transfer form: at least 9
    bytes of data whose first byte is 3, an amount at offset 1 of at
    least the expected one, and the token account derived from the
    expected mint and recipient as second account.  No other first byte,
    that of the checked transfer (12) included, is accepted. *)
Theorem token_transfer_accepted_iff_basic_form {RT : Runtime}
    (ix : TransactionInstruction) (expectedRecipient : option PublicKey)
    (expectedAmount : Z) (expectedMint : PublicKey) :
  verifySPLTransferInstruction ix expectedRecipient expectedAmount
    (Some expectedMint) = true
  <-> programId ix = TOKEN_PROGRAM_ID
      /\ (9 <= List.length (data ix))%nat
      /\ nth_error (data ix) 0 = Some x03
      /\ expectedAmount <= token_amount ix
      /\ exists meta, nth_error (keys ix) 1 = Some meta
           /\ getAssociatedTokenAddress_opt expectedMint expectedRecipient
              = Ok (pubkey meta).
Proof. apply verifySPL_true_iff. Qed.

(** A checked transfer is rejected, whatever it carries. *)
Lemma checked_form_never_accepted {RT : Runtime}
    (source mint destination owner : PublicKey) (amount decimals : N)
    (expectedRecipient : option PublicKey) (expectedAmount : Z)
    (expectedMint : option PublicKey) :
  verifySPLTransferInstruction
    (createTransferCheckedInstruction source mint destination owner amount decimals)
    expectedRecipient expectedAmount expectedMint = false.
Proof.
  destruct expectedMint as [m|]; [|apply verifySPL_no_mint].
  destruct (verifySPLTransferInstruction _ _ _ _) eqn:E; [|reflexivity].
  apply verifySPL_true_iff in E. destruct E as (_ & _ & Hb & _).
  discriminate Hb.
Qed.

Section VerifierExamples.
Existing Instance Reference.runtime.

(** C4, refuted as stated: a checked transfer under the token program,
    carrying the expected 1_000_000 to the token account derived for
    [R], does not verify, while the basic transfer of the same amount
    to the same account does. *)
Lemma checked_transfer_rejected :
  let checked :=
    createTransferCheckedInstruction Samples.payer_account Samples.mint
      Samples.R_account Samples.payer 1000000 6 in
  let basic :=
    createTransferInstruction Samples.payer_account Samples.R_account
      Samples.payer 1000000 in
  programId checked = TOKEN_PROGRAM_ID
  /\ token_amount checked = 1000000
  /\ getAssociatedTokenAddress Samples.mint Samples.R = Ok Samples.R_account
  /\ verifySPLTransferInstruction basic (Some Samples.R) 1000000
       (Some Samples.mint) = true
  /\ verifySPLTransferInstruction checked (Some Samples.R) 1000000
       (Some Samples.mint) = false
  /\ verifyPaymentInstructions (mkTransaction [checked]) Samples.token_spec
     = Ok (mkVerification false
             (Some "No valid SPL transfer instruction found") None).
Proof. repeat split. Qed.

(** C3 on a concrete input: a transfer that matches in every other
    respect is not valid when the expected mint is absent. *)
Lemma fungible_without_mint_never_valid_witness :
  (tokenType Samples.token_spec_without_mint <> Some SOL
   /\ mintAddress Samples.token_spec_without_mint = None)
  /\ exists r,
       verifyPaymentInstructions
         (mkTransaction
            [createTransferInstruction Samples.payer_account Samples.R_account
               Samples.payer 1000000])
         Samples.token_spec_without_mint = Ok r
       /\ isValid r = false.
Proof.
  split.
  - split; [discriminate | reflexivity].
  - apply (fungible_without_mint_never_valid
             (mkTransaction
                [createTransferInstruction Samples.payer_account
                   Samples.R_account Samples.payer 1000000])
             Samples.token_spec_without_mint);
      [discriminate | reflexivity].
Defined.

(** C10 on a concrete input: a transfer of 2_000_000 against an
    expected 1_000_000 is valid and reported as 1_000_000. *)
Lemma details_amount_is_expected_amount_witness :
  let tx := mkTransaction
              [SystemProgram_transfer Samples.payer Samples.R 2000000] in
  let r := mkVerification true None
             (Some (mkDetails (of_Z 1000000) (toBase58 Samples.R)
                      (Some SOL) None)) in
  (verifyPaymentInstructions tx Samples.native_spec = Ok r
   /\ isValid r = true)
  /\ exists expectedAmount d,
       toTokenUnits (amount Samples.native_spec)
         (decimals_or_default Samples.native_spec) = Ok expectedAmount
       /\ details r = Some d
       /\ details_amount d = Number_of_BigInt expectedAmount.
Proof.
  split.
  - split; reflexivity.
  - apply (details_amount_is_expected_amount
             (mkTransaction
                [SystemProgram_transfer Samples.payer Samples.R 2000000])
             Samples.native_spec); reflexivity.
Defined.

(** The transfer of the witness carries 2_000_000; the report says
    1_000_000. *)
Example overpayment_not_reported :
  native_amount (SystemProgram_transfer Samples.payer Samples.R 2000000)
  = 2000000
  /\ to_integer (of_Z 1000000) = Some 1000000.
Proof. split; reflexivity. Qed.

End VerifierExamples.

(** ** The specification builder *)

(** C7 (as the code has it).  [build] fails with the message of the
    first violated presence rule, in the order token type, amount,
    recipient, mint address, and with that message alone; a draft that
    violates no rule is returned as it is. *)
Theorem build_fails_with_first_violated_rule (config : PaymentConfig) :
  build config
  = match violated_presence_rules config with
    | [] => Ok config
    | first :: _ => Throw (Error first)
    end.
Proof.
  unfold build, violated_presence_rules.
  destruct (tokenType config) as [t|]; [|reflexivity].
  destruct (amount config) as [a|]; [|reflexivity].
  destruct (truthy_address (recipient config)); [|reflexivity].
  cbn [negb app].
  destruct (not_SOL (Some t) && negb (truthy_address (mintAddress config)));
    reflexivity.
Qed.

(** C7, refuted as stated: the empty draft violates four rules and
    [build] names the first only. *)
Lemma build_names_one_rule_of_four :
  violated_presence_rules new_PaymentBuilder
  = ["Token type is required"; "Amount is required"; "Recipient is required";
     "Mint address is required for SPL token payments"]
  /\ build new_PaymentBuilder = Throw (Error "Token type is required")
  /\ lists_rule "Token type is required" "Amount is required" = false
  /\ lists_rule "Token type is required" "Recipient is required" = false.
Proof. repeat split. Qed.

(** [validateConfig] is the function that collects every violation. *)
Example validateConfig_lists_all {RT : Runtime} :
  validation_errors (validateConfig new_PaymentBuilder)
  = ["Token type is required"; "Amount is required"; "Recipient is required";
     "Mint address is required for SPL token payments"].
Proof. reflexivity. Qed.

(** ** The settlement router *)
Section RouterFacts.
Context {RT : Runtime}.

(** An SDK has a facilitator client exactly when it was constructed
    with a non-empty [defaultFacilitator]. *)
Lemma new_X402SDK_facilitator (c : SDKConfig) :
  facilitator (new_X402SDK c) = None
  <-> defaultFacilitator c = None \/ defaultFacilitator c = Some "".
Proof.
  unfold new_X402SDK. cbn [facilitator].
  destruct (defaultFacilitator c) as [[|a u]|].
  - split; [intros _; right; reflexivity | reflexivity].
  - split; [discriminate | intros [H|H]; discriminate].
  - split; [intros _; left; reflexivity | reflexivity].
Qed.

(** C5.  In [auto] mode the on-chain path is taken exactly when
    [preferOnChain] is [true] and a payer keypair is supplied, and the
    facilitator path otherwise.  On the facilitator path without a
    facilitator client, [pay] throws the no-facilitator error; as a
    [Throw] it precedes every network call. *)
Theorem auto_mode_routing (sdk : X402SDK) (config : PaymentConfig)
    (opts : option PayOpts) :
  resolved_method sdk opts = auto_method ->
  validation_isValid (validateConfig config) = true ->
  (useOnChain sdk opts = true
   <-> preferOnChain (cfg sdk) = Some true
       /\ exists payer, opts_payerKeypair opts = Some payer)
  /\ (forall payer,
        preferOnChain (cfg sdk) = Some true ->
        opts_payerKeypair opts = Some payer ->
        pay sdk config opts
        = Ok (SubmitPaymentOnChain config payer (network (cfg sdk))
                (opts_simulateFirst opts)))
  /\ (useOnChain sdk opts = false ->
      match facilitator sdk with
      | None => pay sdk config opts = Throw (Error no_facilitator_message)
      | Some client =>
          pay sdk config opts
          = bind (toX402Requirements config (network (cfg sdk)))
              (fun paymentReq => Ok (FacilitatorSubmitPayment client paymentReq))
      end).
Proof.
  intros Hm Hv.
  assert (Hu : useOnChain sdk opts
               = match preferOnChain (cfg sdk), opts_payerKeypair opts with
                 | Some true, Some _ => true
                 | _, _ => false
                 end)
    by (unfold useOnChain; rewrite Hm; reflexivity).
  split; [|split].
  - rewrite Hu.
    destruct (preferOnChain (cfg sdk)) as [[|]|];
      destruct (opts_payerKeypair opts) as [k|];
      split; try discriminate; try (intros (H1 & k' & H2); discriminate).
    + intros _. split; [reflexivity | exists k; reflexivity].
    + reflexivity.
  - intros payer Hp Hk. unfold pay. rewrite Hv, Hu, Hp, Hk. reflexivity.
  - intros Hoff. unfold pay. rewrite Hv, Hoff. cbn [negb].
    destruct (facilitator sdk); reflexivity.
Qed.

(** The same failure in [facilitator] mode. *)
Lemma facilitator_mode_without_client (sdk : X402SDK) (config : PaymentConfig)
    (opts : option PayOpts) :
  resolved_method sdk opts = facilitator_method ->
  validation_isValid (validateConfig config) = true ->
  facilitator sdk = None ->
  pay sdk config opts = Throw (Error no_facilitator_message).
Proof.
  intros Hm Hv Hf. unfold pay, useOnChain. rewrite Hv, Hm, Hf. reflexivity.
Qed.

(** An invalid configuration fails before any routing. *)
Lemma invalid_configuration_fails_first (sdk : X402SDK)
    (config : PaymentConfig) (opts : option PayOpts) :
  validation_isValid (validateConfig config) = false ->
  exists msg, pay sdk config opts = Throw (Error msg).
Proof.
  intros Hv. unfold pay. rewrite Hv. eexists. reflexivity.
Qed.

End RouterFacts.

Section RouterWitness.
Existing Instance Reference.runtime.

(** C5 on a concrete input: no keypair, no facilitator, default method. *)
Lemma auto_mode_routing_witness :
  let sdk := Samples.sdk_without_facilitator in
  let config := Samples.native_spec in
  (resolved_method sdk None = auto_method
   /\ validation_isValid (validateConfig config) = true)
  /\ useOnChain sdk None = false
  /\ pay sdk config None = Throw (Error no_facilitator_message).
Proof.
  split; [split; reflexivity|].
  split; [reflexivity|].
  exact (proj2 (proj2 (auto_mode_routing Samples.sdk_without_facilitator
                         Samples.native_spec None eq_refl eq_refl))
           eq_refl).
Defined.

(** With a keypair the same SDK goes to the chain. *)
Example auto_mode_with_keypair_goes_on_chain :
  let payer := mkKeypair Samples.payer [] in
  let opts := Some (mkPayOpts (Some payer) None None) in
  pay Samples.sdk_without_facilitator Samples.native_spec opts
  = Ok (SubmitPaymentOnChain Samples.native_spec payer "solana-devnet" None).
Proof. reflexivity. Qed.

End RouterWitness.

(** ** The challenge of the middleware *)
Section ChallengeFacts.
Context {RT : Runtime} {LG : Ledger}.

(** A request without the [X-Payment] header, or with an empty one, is
    answered with status 402 and the challenge body. *)
Lemma request_without_header_is_challenged (opts : MiddlewareOpts) :
  createPaymentMiddleware opts None
  = Json 402 (ChallengeBody "Payment Required" (challenge opts))
  /\ createPaymentMiddleware opts (Some "")
     = Json 402 (ChallengeBody "Payment Required" (challenge opts)).
Proof. split; reflexivity. Qed.

(** The challenge names the configured recipient. *)
Lemma challenge_recipient (opts : MiddlewareOpts) :
  payment_recipient (challenge opts) = opts_recipient opts.
Proof. reflexivity. Qed.

(** For a token other than SOL the amount is the price scaled by
    [10^6] and rounded; for SOL it is the price itself, rounded. *)
Lemma challenge_amount (opts : MiddlewareOpts) :
  payment_amount (challenge opts)
  = match opts_tokenType opts with
    | SOL => Math_round (mul (price opts) (of_Z 1))
    | _ => Math_round (mul (price opts) (Math_pow10 6))
    end.
Proof. unfold challenge. destruct (opts_tokenType opts); reflexivity. Qed.

(** C2.  Evaluation of the middleware configured with price 0.001,
    token SOL and recipient ["Rxyz"] on a request without header: the
    response is a 402 whose [payment.recipient] is ["Rxyz"] and whose
    [payment.amount] is 0, where the price in base units, which the
    same middleware verifies payments against, is 1_000_000. *)
Theorem native_challenge_amount_is_zero :
  createPaymentMiddleware Samples.native_middleware None
  = Json 402
      (ChallengeBody "Payment Required"
         (mkChallengePayment "Rxyz" (of_Z 0) "devnet" SOL None))
  /\ to_integer (payment_amount (challenge Samples.native_middleware)) = Some 0
  /\ toTokenUnits (amount (middleware_expected Samples.native_middleware))
       (decimals_or_default (middleware_expected Samples.native_middleware))
     = Ok 1000000.
Proof. repeat split. Qed.

(** For USDC the amount is in base units: 0.01 gives 10_000. *)
Example usdc_challenge_amount :
  to_integer (payment_amount (challenge Samples.usdc_middleware)) = Some 10000
  /\ toTokenUnits (amount (middleware_expected Samples.usdc_middleware))
       (decimals_or_default (middleware_expected Samples.usdc_middleware))
     = Ok 10000.
Proof. split; reflexivity. Qed.

End ChallengeFacts.

(** ** The unit converter *)
Section ConverterFacts.
Context {RT : Runtime}.

Lemma mul_NaN_l (y : number) : mul NaN y = NaN.
Proof. destruct y; reflexivity. Qed.

(** An amount that is no number (a string [parseFloat] cannot read,
    [undefined], [NaN]) makes [toTokenUnits] throw. *)
Lemma toTokenUnits_not_a_number (amount : option Amount) (d : N) :
  isNaN (amountNumber amount) = true ->
  toTokenUnits amount d = Throw (BigInt_RangeError NaN).
Proof.
  unfold toTokenUnits. destruct (amountNumber amount); try discriminate.
  intros _. pose proof (mul_NaN_l (Math_pow10 d)) as H. unfold NaN in H.
  rewrite H. reflexivity.
Qed.

(** C8 (as the code has it).  [toTokenUnits] throws exactly when the
    binary64 product of the amount's number and [10^decimals] is NaN
    or infinite, and then the [RangeError] of [BigInt]; a product that
    is NaN is what every amount that is no number gives.  Otherwise it
    returns the floor of the product, negative amounts included; for a
    product that is not negative the floor is its truncation towards
    zero. *)
Theorem toTokenUnits_floor_of_product (amount : option Amount) (d : N) :
  toTokenUnits amount d
  = match mul (amountNumber amount) (Math_pow10 d) with
    | S754_nan => Throw (BigInt_RangeError NaN)
    | S754_infinity s => Throw (BigInt_RangeError (S754_infinity s))
    | S754_zero _ => Ok 0
    | S754_finite s m e => Ok (floorZ s m e)
    end
  /\ mul NaN (Math_pow10 d) = NaN
  /\ forall m e, floorZ false m e = truncZ false m e.
Proof.
  split; [|split].
  - unfold toTokenUnits.
    destruct (mul (amountNumber amount) (Math_pow10 d)) as [s|s| |s m e] eqn:E;
      try reflexivity.
    unfold BigInt.
    rewrite NumberFacts.to_integer_floor; [reflexivity|].
    exact (NumberFacts.mul_mantissa_bounded _ _ s m e E).
  - apply mul_NaN_l.
  - intros m e. unfold truncZ. destruct (0 <=? e) eqn:L.
    + unfold floorZ. rewrite L. reflexivity.
    + apply NumberFacts.floorZ_nonneg_quot. apply Z.leb_gt. exact L.
Qed.

End ConverterFacts.

Section ConverterExamples.
Existing Instance Reference.runtime.

(** C8, refuted as stated: the negative amount -1.5, as a number and as
    a string, is not rejected; with 0 decimals it gives -2, the floor,
    where truncation towards zero would give -1. *)
Lemma negative_amount_is_floored :
  toTokenUnits (Some (AmountNum (decimal (-15) 1))) 0 = Ok (-2)
  /\ toTokenUnits (Some (AmountStr "-1.5")) 0 = Ok (-2)
  /\ (exists m e, decimal (-15) 1 = S754_finite true m e
                  /\ truncZ true m e = -1).
Proof.
  split; [reflexivity|]. split; [reflexivity|].
  eexists. eexists. split; reflexivity.
Qed.

(** A string that is no number fails, with the error of [BigInt]. *)
Example non_numeric_amount_fails :
  toTokenUnits (Some (AmountStr "abc")) 9 = Throw (BigInt_RangeError NaN).
Proof. reflexivity. Qed.

(** The product is computed in binary64: 4.35 scaled by [10^2] is
    434.99999999999994 and gives 434. *)
Example product_is_binary64 :
  toTokenUnits (Some (AmountNum (decimal 435 2))) 2 = Ok 434.
Proof. reflexivity. Qed.

End ConverterExamples.

(** ** The payment-proof header *)
Module Base64Facts.
Import Base64.

(** Linear arithmetic with division and remainder by constants. *)
Ltac div_lia := zify; Z.to_euclidean_division_equations; lia.

Lemma list_ind3 {A} (P : list A -> Prop) :
  P [] -> (forall a, P [a]) -> (forall a b, P [a; b]) ->
  (forall a b c l, P l -> P (a :: b :: c :: l)) ->
  forall l, P l.
Proof.
  intros H0 H1 H2 H3. fix IH 1.
  intros [|a [|b [|c l]]]; [exact H0 | apply H1 | apply H2 |].
  apply H3. apply IH.
Qed.

(** Each of the 64 values is read back from its character, which is
    not the padding character. *)
Lemma value_of_char_of (v : N) :
  (v < 64)%N ->
  value_of (char_of v) = Some v /\ Ascii.eqb (char_of v) "=" = false.
Proof.
  intros Hv.
  assert (Hall : forallb
            (fun n =>
               let w := N.of_nat n in
               match value_of (char_of w) with
               | Some u => (u =? w)%N
               | None => false
               end && negb (Ascii.eqb (char_of w) "="))
            (seq 0 64) = true) by (vm_compute; reflexivity).
  rewrite forallb_forall in Hall.
  specialize (Hall (N.to_nat v)).
  rewrite N2Nat.id in Hall. cbv zeta in Hall.
  assert (Hin : In (N.to_nat v) (seq 0 64)) by (apply in_seq; lia).
  apply Hall in Hin. apply andb_true_iff in Hin. destruct Hin as [H1 H2].
  destruct (value_of (char_of v)) as [u|]; [|discriminate].
  apply N.eqb_eq in H1. subst u.
  split; [reflexivity|]. destruct (Ascii.eqb (char_of v) "="); [discriminate|reflexivity].
Qed.

Lemma sextets_of_bytes_bound (bs : list byte) :
  Forall (fun v => (v < 64)%N) (sextets_of_bytes bs).
Proof.
  induction bs as [|a|a b|a b c l IH] using list_ind3.
  - constructor.
  - pose proof (Byte.to_N_bounded a). cbn [sextets_of_bytes].
    repeat (constructor; [div_lia|]). constructor.
  - pose proof (Byte.to_N_bounded a). pose proof (Byte.to_N_bounded b).
    cbn [sextets_of_bytes]. repeat (constructor; [div_lia|]). constructor.
  - pose proof (Byte.to_N_bounded a). pose proof (Byte.to_N_bounded b).
    pose proof (Byte.to_N_bounded c).
    cbn [sextets_of_bytes app]. repeat (constructor; [div_lia|]). exact IH.
Qed.

Lemma sextets_padding (len : nat) : sextets (padding len) = [].
Proof.
  unfold padding. destruct (Nat.modulo len 3) as [|[|[|k]]]; reflexivity.
Qed.

(** The decoder reads back the values the encoder wrote. *)
Lemma sextets_written (vs : list N) (pad : string) :
  Forall (fun v => (v < 64)%N) vs ->
  sextets (string_of_list_ascii (map char_of vs) ++ pad) = (vs ++ sextets pad)%list.
Proof.
  induction 1 as [|v vs Hv _ IH]; [reflexivity|].
  cbn [map string_of_list_ascii String.append sextets app].
  destruct (value_of_char_of v Hv) as [-> ->]. rewrite IH. reflexivity.
Qed.

Lemma byte_of_to_N (b : byte) : byte_of_N (Byte.to_N b) = b.
Proof.
  unfold byte_of_N. pose proof (Byte.to_N_bounded b).
  rewrite N.mod_small by lia. rewrite Byte.of_to_N. reflexivity.
Qed.

Lemma byte_of_N_eq (n : N) (b : byte) : n = Byte.to_N b -> byte_of_N n = b.
Proof. intros ->. apply byte_of_to_N. Qed.

(** Regrouping three bytes into four 6-bit values and back. *)
Lemma bytes_of_sextets_of_bytes (bs : list byte) :
  bytes_of_sextets (sextets_of_bytes bs) = bs.
Proof.
  induction bs as [|a|a b|a b c l IH] using list_ind3.
  - reflexivity.
  - cbn [sextets_of_bytes bytes_of_sextets].
    f_equal. apply byte_of_N_eq. div_lia.
  - pose proof (Byte.to_N_bounded b).
    cbn [sextets_of_bytes bytes_of_sextets].
    f_equal; [|f_equal]; apply byte_of_N_eq; div_lia.
  - pose proof (Byte.to_N_bounded b). pose proof (Byte.to_N_bounded c).
    cbn [sextets_of_bytes bytes_of_sextets app].
    rewrite IH.
    f_equal; [|f_equal; [|f_equal]]; apply byte_of_N_eq; div_lia.
Qed.

(** Decoding an encoded buffer gives the buffer back. *)
Lemma decode_encode (bs : list byte) : decode (encode bs) = bs.
Proof.
  unfold decode, encode.
  rewrite sextets_written by apply sextets_of_bytes_bound.
  rewrite sextets_padding, app_nil_r. apply bytes_of_sextets_of_bytes.
Qed.

End Base64Facts.

Section HeaderFacts.
Context {RT : Runtime}.

(** C9.  For a JSON-serializable payload, parsing the header created
    from it gives the payload back. *)
Theorem header_roundtrip (p : json) :
  JSON_serializable p ->
  parseX402Header (createX402Header p) = Ok p.
Proof.
  unfold JSON_serializable, parseX402Header, createX402Header. intros Hp.
  unfold Buffer_toString, Buffer_from.
  rewrite Base64Facts.decode_encode, string_of_list_byte_of_string, Hp.
  reflexivity.
Qed.

End HeaderFacts.

Section HeaderWitness.
Existing Instance Reference.runtime.

(** C9 on the payment proof of the x402 flow. *)
Lemma header_roundtrip_witness :
  JSON_serializable Samples.payment_proof
  /\ parseX402Header (createX402Header Samples.payment_proof)
     = Ok Samples.payment_proof.
Proof.
  split; [reflexivity|].
  apply (header_roundtrip Samples.payment_proof). reflexivity.
Defined.

End HeaderWitness.

(** ** The boundary of the protocol handler *)
Section BoundaryFacts.
Context {RT : Runtime} {LG : Ledger}.

(** [verifyAndSubmitSerializedTransaction] answers every failure of
    deserialisation, verification, simulation, submission and
    confirmation with [success = false] and never throws. *)
Lemma submission_never_throws (serialized : string) (cfg : PaymentConfig)
    (network : string) :
  exists r, verifyAndSubmitSerializedTransaction serialized cfg network = Ok r.
Proof.
  unfold verifyAndSubmitSerializedTransaction.
  match goal with
  | |- exists r, try_catch ?body _ = _ => destruct body as [r|e]
  end; cbn [try_catch]; eexists; reflexivity.
Qed.

(** The handler answers a request that carries a header with a status
    and a body; it hands nothing to [next]. *)
Lemma handler_answers_directly (opts : MiddlewareOpts)
    (xPaymentHeader : option string) :
  exists status body, createPaymentMiddleware opts xPaymentHeader = Json status body.
Proof.
  unfold createPaymentMiddleware.
  destruct xPaymentHeader as [[|c header]|]; try (eexists; eexists; reflexivity).
  destruct (parseX402Header (String c header)) as [payload|e];
    cbn [bind try_catch]; [|eexists; eexists; reflexivity].
  destruct (json_get payload "payload") as [inner|e];
    cbn [bind try_catch]; [|eexists; eexists; reflexivity].
  match goal with
  | |- context [negb (json_truthy ?v)] =>
      destruct (negb (json_truthy v)); cbn [try_catch];
      [eexists; eexists; reflexivity|];
      set (serialized := v)
  end.
  assert (Hr : exists r,
             match serialized with
             | Some (JString text) =>
                 verifyAndSubmitSerializedTransaction text
                   (middleware_expected opts) (middleware_network opts)
             | _ =>
                 Ok (mkSubmitResult false None None
                       (Some "The first argument must be of type string or an instance of Buffer, ArrayBuffer, or Array or an Array-like Object."))
             end = Ok r).
  { destruct serialized as [[| | |text| |]|]; try (eexists; reflexivity).
    apply submission_never_throws. }
  destruct Hr as (r & ->). cbn [bind].
  destruct (negb (success r)); cbn [try_catch]; eexists; eexists; reflexivity.
Qed.

End BoundaryFacts.

Section VerifierWitness.
Existing Instance Reference.runtime.

(** C6 on a concrete input: a recipient that is no base-58 text makes
    the body throw, and the verifier returns the failure as a result. *)
Lemma verifier_never_throws_witness :
  let tx := mkTransaction
              [SystemProgram_transfer Samples.payer Samples.R 1000000] in
  verifyPaymentInstructions_try tx Samples.malformed_recipient_spec
  = Throw (Error "Non-base58 character")
  /\ exists r,
       verifyPaymentInstructions tx Samples.malformed_recipient_spec = Ok r
       /\ isValid r = false
       /\ error r = Some "Verification failed: Non-base58 character"
       /\ details r = None.
Proof.
  split; [reflexivity|].
  destruct (verifier_never_throws
              (mkTransaction
                 [SystemProgram_transfer Samples.payer Samples.R 1000000])
              Samples.malformed_recipient_spec) as (r & E & H).
  exists r. split; [exact E|].
  exact (H (Error "Non-base58 character") eq_refl).
Defined.

End VerifierWitness.

(** * Further properties *)

(** ** Numbers: sign and shape of rounded results *)
Module ShapeFacts.
Import NumberFacts.

Lemma binary_round_aux_signed (s : bool) (m e : Z) (l : location) :
  0 <= m -> signed s (binary_round_aux prec emax s m e l).
Proof.
  intros Hm. unfold binary_round_aux.
  destruct (shr_fexp prec emax m e l) as [mrs' e'] eqn:E1.
  pose proof (shr_fexp_bounded m e l Hm) as H1. rewrite E1 in H1. cbn [fst] in H1.
  set (m' := round_nearest_even (shr_m mrs') (loc_of_shr_record mrs')).
  assert (Hm' : 0 <= m') by (apply round_nearest_even_nonneg; lia).
  destruct (shr_fexp prec emax m' e' loc_Exact) as [mrs'' e''] eqn:E2.
  pose proof (shr_fexp_bounded m' e' loc_Exact Hm') as H2.
  rewrite E2 in H2. cbn [fst] in H2.
  destruct (shr_m mrs'') as [|q|q]; [left; reflexivity| |lia].
  destruct (e'' <=? emax - prec);
    [right; right; eexists; eexists; reflexivity | right; left; reflexivity].
Qed.

Lemma binary_round_signed (s : bool) (p : positive) (e : Z) :
  signed s (binary_round prec emax s p e).
Proof.
  unfold binary_round.
  destruct (shl_align p e _) as [mz ez].
  apply binary_round_aux_signed. lia.
Qed.



(** A positive integer becomes a number that is not negative. *)
Lemma of_Z_positive_signed (z : Z) : 0 < z -> signed false (of_Z z).
Proof.
  intros Hz. unfold of_Z, binary_normalize.
  destruct z as [|p|p]; try lia. apply binary_round_signed.
Qed.


(** The product of two numbers that are not negative is not negative. *)
Lemma mul_finite_sign (x y : number) (s : bool) (m : positive) (e : Z) :
  signed false x -> signed false y ->
  mul x y = S754_finite s m e -> s = false.
Proof.
  intros [->|[->|(mx & ex & ->)]] [->|[->|(my & ey & ->)]]; try discriminate.
  unfold mul, SFmul. cbn [xorb]. intros E.
  destruct (binary_round_aux_signed false (Z.pos (mx * my)) (ex + ey) loc_Exact
              ltac:(lia)) as [H|[H|(m' & e' & H)]];
    rewrite H in E; congruence.
Qed.

Lemma floorZ_nonneg (m : positive) (e : Z) : 0 <= floorZ false m e.
Proof.
  unfold floorZ. destruct (0 <=? e) eqn:L.
  - apply Z.leb_le in L. apply Z.mul_nonneg_nonneg; [lia|].
    apply Z.pow_nonneg. lia.
  - apply Z.leb_gt in L. apply Z.div_pos; [lia|].
    apply Z.pow_pos_nonneg; lia.
Qed.

(** A number that is neither NaN nor at most zero is positive. *)
Lemma positive_signed (x : number) :
  isNaN x = false -> leb x (of_Z 0) = false -> signed false x.
Proof.
  destruct x as [s|s| |s m e]; intros Hn H.
  - compute in H. discriminate H.
  - destruct s; [compute in H; discriminate H|].
    right; left; reflexivity.
  - discriminate Hn.
  - destruct s; [compute in H; discriminate H|].
    right; right; eexists; eexists; reflexivity.
Qed.

End ShapeFacts.

(** ** Validation, builder and converter together *)
Section ValidationFacts.
Context {RT : Runtime}.

Lemma length_zero_nil {A} (l : list A) : (List.length l =? 0)%nat = true -> l = [].
Proof. destruct l; [reflexivity | discriminate]. Qed.

(** What a configuration accepted by [validateConfig] satisfies. *)
Lemma validateConfig_valid (c : PaymentConfig) :
  validation_isValid (validateConfig c) = true ->
  (exists t, tokenType c = Some t)
  /\ (exists a, amount c = Some a)
  /\ isNaN (amountNumber (amount c)) = false
  /\ leb (amountNumber (amount c)) (of_Z 0) = false
  /\ truthy_address (recipient c) = true
  /\ address_throws (recipient c) = false
  /\ (not_SOL (tokenType c) = true -> truthy_address (mintAddress c) = true)
  /\ (truthy_address (mintAddress c) = true -> address_throws (mintAddress c) = false).
Proof.
  unfold validateConfig. cbn [validation_isValid]. intros H.
  apply length_zero_nil in H. unfold validateConfig_errors in H.
  apply app_eq_nil in H. destruct H as [H1 H].
  apply app_eq_nil in H. destruct H as [H2 H].
  apply app_eq_nil in H. destruct H as [H3 H].
  apply app_eq_nil in H. destruct H as [H4 H5].
  destruct (tokenType c) as [t|] eqn:Et; [|discriminate H1].
  destruct (amount c) as [a|] eqn:Ea; [|discriminate H2].
  destruct (isNaN (amountNumber (Some a))) eqn:En; [discriminate H2|].
  destruct (leb (amountNumber (Some a)) (of_Z 0)) eqn:El; [discriminate H2|].
  destruct (truthy_address (recipient c)) eqn:Er; [|discriminate H3].
  destruct (address_throws (recipient c)) eqn:Ex; [discriminate H3|].
  destruct (truthy_address (mintAddress c)) eqn:Em.
  - destruct (address_throws (mintAddress c)) eqn:Ey; [discriminate H5|].
    repeat split; eauto.
  - destruct (not_SOL (Some t)) eqn:Es; [discriminate H4|].
    repeat split; eauto; discriminate.
Qed.

(** [validateConfig] reports every presence rule a configuration
    violates: token type, amount, recipient, and mint address for a
    token other than SOL. *)
Theorem validateConfig_reports_every_violated_rule (c : PaymentConfig) :
  incl (violated_presence_rules c) (validation_errors (validateConfig c)).
Proof.
  unfold validateConfig, violated_presence_rules, validateConfig_errors.
  cbn [validation_errors].
  repeat apply incl_app_app.
  - apply incl_refl.
  - destruct (amount c); [apply incl_nil_l | apply incl_refl].
  - destruct (truthy_address (recipient c)); [apply incl_nil_l | apply incl_refl].
  - apply incl_appl. apply incl_refl.
Qed.

(** X2.  A configuration that [validateConfig] accepts is one that [build]
    returns unchanged. *)
Theorem valid_configuration_builds (c : PaymentConfig) :
  validation_isValid (validateConfig c) = true -> build c = Ok c.
Proof.
  intros H. apply validateConfig_valid in H.
  destruct H as ((t & Ht) & (a & Ha) & _ & _ & Hr & _ & Hm & _).
  unfold build. rewrite Ht, Ha, Hr. cbn [negb].
  rewrite <- Ht.
  destruct (not_SOL (tokenType c)); [rewrite (Hm eq_refl)|]; reflexivity.
Qed.

(** X3.  For a configuration that [validateConfig] accepts, [toTokenUnits]
    never yields a negative amount, whatever the decimals. *)
Theorem valid_amount_is_never_negative (c : PaymentConfig) (d : N) (units : Z) :
  validation_isValid (validateConfig c) = true ->
  toTokenUnits (amount c) d = Ok units ->
  0 <= units.
Proof.
  intros H. apply validateConfig_valid in H.
  destruct H as (_ & _ & Hn & Hl & _).
  pose proof (ShapeFacts.positive_signed _ Hn Hl) as Hpos.
  assert (Hpow : signed false (Math_pow10 d)).
  { apply ShapeFacts.of_Z_positive_signed. apply Z.pow_pos_nonneg; lia. }
  unfold toTokenUnits.
  destruct (mul (amountNumber (amount c)) (Math_pow10 d)) as [s|s| |s m e] eqn:E.
  - intros [= <-]. lia.
  - discriminate.
  - discriminate.
  - pose proof (ShapeFacts.mul_finite_sign _ _ s m e Hpos Hpow E) as ->.
    unfold BigInt.
    rewrite NumberFacts.to_integer_floor
      by exact (NumberFacts.mul_mantissa_bounded _ _ _ _ _ E).
    intros [= <-]. apply ShapeFacts.floorZ_nonneg.
Qed.

(** X4.  [pay] refuses every configuration for a token other than SOL that
    has no mint address, USDC included, although the on-chain assembler
    it would call supplies the USDC mint of the network. *)
Theorem pay_requires_mint_even_for_usdc (sdk : X402SDK) (c : PaymentConfig)
    (opts : option PayOpts) (network : string) :
  not_SOL (tokenType c) = true ->
  truthy_address (mintAddress c) = false ->
  (exists msg, pay sdk c opts = Throw (Error msg))
  /\ In "Mint address is required for SPL token payments"
       (validation_errors (validateConfig c))
  /\ (tokenType c = Some USDC ->
      with_default_mint c network
      = Ok (setMintAddress (AddrKey (getUSDCMint network)) c)).
Proof.
  intros Hs Hm.
  assert (Hin : In "Mint address is required for SPL token payments"
                  (validation_errors (validateConfig c))).
  { unfold validateConfig, validateConfig_errors. cbn [validation_errors].
    rewrite Hs, Hm. cbn [negb andb].
    apply in_or_app; right. apply in_or_app; right. apply in_or_app; right.
    left. reflexivity. }
  split; [|split].
  - unfold pay.
    destruct (validation_isValid (validateConfig c)) eqn:Hv.
    + unfold validateConfig in Hv. cbn [validation_isValid] in Hv.
      apply length_zero_nil in Hv. unfold validateConfig in Hin.
      cbn [validation_errors] in Hin. rewrite Hv in Hin. destruct Hin.
    + cbn [negb]. eexists. reflexivity.
  - exact Hin.
  - intros Ht. unfold with_default_mint. rewrite Hm, Ht. reflexivity.
Qed.

(** X5.  An explicit method overrides the preference of the SDK.  With
    ['onchain'], [pay] goes to the chain whenever a keypair is supplied
    and fails otherwise; it never turns to the facilitator, configured
    or not.  With ['facilitator'], every call [pay] makes is a
    submission of the requirements of the configuration to the
    configured facilitator; it never goes to the chain, whatever
    [preferOnChain] says and whether or not a keypair is supplied. *)
Theorem explicit_method_overrides_preference (sdk : X402SDK)
    (c : PaymentConfig) (opts : option PayOpts) :
  validation_isValid (validateConfig c) = true ->
  (resolved_method sdk opts = onchain_method ->
   pay sdk c opts
   = match opts_payerKeypair opts with
     | Some payer =>
         Ok (SubmitPaymentOnChain c payer (network (cfg sdk))
               (opts_simulateFirst opts))
     | None => Throw (Error "Payer keypair is required for on-chain payments")
     end)
  /\ (resolved_method sdk opts = facilitator_method ->
      forall call, pay sdk c opts = Ok call ->
      exists client paymentReq,
        facilitator sdk = Some client
        /\ toX402Requirements c (network (cfg sdk)) = Ok paymentReq
        /\ call = FacilitatorSubmitPayment client paymentReq).
Proof.
  intros Hv. split; intros Hm.
  - unfold pay, useOnChain. rewrite Hv, Hm. reflexivity.
  - intros call. unfold pay, useOnChain. rewrite Hv, Hm. cbn [negb].
    destruct (facilitator sdk) as [client|]; [|discriminate].
    destruct (toX402Requirements c (network (cfg sdk))) as [req|e];
      cbn [bind]; [|discriminate].
    intros [= <-]. exists client, req. repeat split.
Qed.

(** X6.  [Payments.sol], [Payments.usdc] and [Payments.spl] succeed
    exactly when the recipient is not the empty string and, for
    [spl], neither is the mint; SOL gets 9 decimals and no mint, USDC 6
    decimals and the mint of the network, and both token forms ask for
    account creation.  The amount is not inspected. *)
Theorem named_constructors_build (a : Amount) (r m : Address)
    (network : string) (d : N) :
  Payments_sol a r
  = (if truthy_address (Some r)
     then Ok (mkPaymentConfig (Some SOL) (Some a) (Some r) None (Some 9%N) None)
     else Throw (Error "Recipient is required"))
  /\ Payments_usdc a r network
     = (if truthy_address (Some r)
        then Ok (mkPaymentConfig (Some USDC) (Some a) (Some r)
                   (Some (AddrKey (getUSDCMint network))) (Some 6%N) (Some true))
        else Throw (Error "Recipient is required"))
  /\ Payments_spl a r m d
     = (if truthy_address (Some r)
        then if truthy_address (Some m)
             then Ok (mkPaymentConfig (Some SPL) (Some a) (Some r) (Some m)
                        (Some d) (Some true))
             else Throw (Error "Mint address is required for SPL token payments")
        else Throw (Error "Recipient is required")).
Proof.
  unfold Payments_sol, Payments_usdc, Payments_spl, build,
    PaymentBuilder_sol, PaymentBuilder_usdc, PaymentBuilder_spl.
  cbn [setTokenType setAmount setRecipient setMintAddress setDecimals
       setCreateAccountIfNeeded new_PaymentBuilder tokenType amount recipient
       mintAddress decimals createAccountIfNeeded not_SOL andb].
  destruct (truthy_address (Some r)); cbn [negb]; [|repeat split].
  split; [reflexivity|]. split; [reflexivity|].
  destruct (truthy_address (Some m)); reflexivity.
Qed.

End ValidationFacts.

(** ** The 64-bit amounts of transfer instructions *)
Section AmountFacts.

Lemma le_value_le_bytes (len : nat) (n : N) :
  le_value (le_bytes len n) = (n mod 256 ^ N.of_nat len)%N.
Proof.
  revert n. induction len as [|len IH]; intros n.
  - cbn [le_bytes le_value]. change (256 ^ N.of_nat 0)%N with 1%N.
    rewrite N.mod_1_r. reflexivity.
  - cbn [le_bytes le_value]. rewrite IH.
    unfold byte_of_N.
    destruct (Byte.of_N (n mod 256)) as [b|] eqn:Eb.
    + apply Byte.to_of_N in Eb. rewrite Eb.
      rewrite Nat2N.inj_succ, N.pow_succ_r'.
      rewrite N.Div0.mod_mul_r. reflexivity.
    + exfalso. pose proof (N.mod_upper_bound n 256 ltac:(discriminate)) as Hlt.
      pose proof (Byte.of_N_None_iff (n mod 256)) as [Hb _].
      specialize (Hb Eb). lia.
Qed.

Lemma le_bytes_length (len : nat) (n : N) : List.length (le_bytes len n) = len.
Proof.
  revert n. induction len as [|len IH]; intros n; cbn [le_bytes List.length];
    [reflexivity | rewrite IH; reflexivity].
Qed.

(** The amount written by [SystemProgram.transfer] is the amount the
    verifier reads. *)
Lemma native_amount_transfer (fromPubkey toPubkey : PublicKey) (lamports : N) :
  (lamports < 2 ^ 64)%N ->
  native_amount (SystemProgram_transfer fromPubkey toPubkey lamports)
  = Z.of_N lamports.
Proof.
  intros H. unfold native_amount, SystemProgram_transfer. cbn [data].
  change (le_bytes 4 2) with [x02; x00; x00; x00].
  cbn [app skipn].
  rewrite <- (le_bytes_length 8 lamports) at 1. rewrite firstn_all.
  rewrite le_value_le_bytes. f_equal. apply N.mod_small. exact H.
Qed.

Lemma token_amount_transfer (source destination owner : PublicKey) (amount : N) :
  (amount < 2 ^ 64)%N ->
  token_amount (createTransferInstruction source destination owner amount)
  = Z.of_N amount.
Proof.
  intros H. unfold token_amount, createTransferInstruction. cbn [data].
  change (le_bytes 1 3) with [x03].
  cbn [app skipn].
  rewrite <- (le_bytes_length 8 amount) at 1. rewrite firstn_all.
  rewrite le_value_le_bytes. f_equal. apply N.mod_small. exact H.
Qed.

(** X7.  A transfer built by [SystemProgram.transfer] is accepted exactly
    for its own destination and for every expected amount up to the
    lamports it carries. *)
Theorem system_transfer_accepted_iff (fromPubkey toPubkey : PublicKey)
    (lamports : N) (expectedRecipient : PublicKey) (expectedAmount : Z) :
  (lamports < 2 ^ 64)%N ->
  verifySOLTransferInstruction
    (SystemProgram_transfer fromPubkey toPubkey lamports)
    (Some expectedRecipient) expectedAmount = true
  <-> expectedRecipient = toPubkey /\ expectedAmount <= Z.of_N lamports.
Proof.
  intros H. rewrite verifySOL_true_iff.
  rewrite native_amount_transfer by exact H.
  split.
  - intros (_ & _ & _ & Ha & meta & Hm & Hr).
    cbn in Hm. injection Hm as <-. injection Hr as ->. split; [reflexivity | exact Ha].
  - intros [-> Ha]. split; [reflexivity|].
    split; [reflexivity|].
    split; [reflexivity|]. split; [exact Ha|].
    eexists. split; reflexivity.
Qed.

Context {RT : Runtime}.

(** X8.  A basic token transfer is accepted exactly when its destination is
    the token account derived for the expected recipient and the
    expected amount is at most the amount it carries. *)
Theorem token_transfer_accepted_iff (source destination owner : PublicKey)
    (amount : N) (expectedRecipient mint : PublicKey) (expectedAmount : Z) :
  (amount < 2 ^ 64)%N ->
  verifySPLTransferInstruction
    (createTransferInstruction source destination owner amount)
    (Some expectedRecipient) expectedAmount (Some mint) = true
  <-> getAssociatedTokenAddress mint expectedRecipient = Ok destination
      /\ expectedAmount <= Z.of_N amount.
Proof.
  intros H. rewrite verifySPL_true_iff.
  rewrite token_amount_transfer by exact H.
  split.
  - intros (_ & _ & _ & Ha & meta & Hm & Hr).
    cbn in Hm. injection Hm as <-. split; [exact Hr | exact Ha].
  - intros [Hd Ha]. split; [reflexivity|].
    split; [cbn; lia|].
    split; [reflexivity|]. split; [exact Ha|].
    eexists. split; [reflexivity | exact Hd].
Qed.

(** X9.  The acceptance policy is "at least": an instruction accepted for an
    expected amount is accepted for every smaller one. *)
Theorem accepted_for_every_smaller_amount (ix : TransactionInstruction)
    (expectedRecipient : option PublicKey) (mint : option PublicKey)
    (expectedAmount smaller : Z) :
  smaller <= expectedAmount ->
  (verifySOLTransferInstruction ix expectedRecipient expectedAmount = true ->
   verifySOLTransferInstruction ix expectedRecipient smaller = true)
  /\ (verifySPLTransferInstruction ix expectedRecipient expectedAmount mint = true ->
      verifySPLTransferInstruction ix expectedRecipient smaller mint = true).
Proof.
  intros Hle. split.
  - rewrite !verifySOL_true_iff.
    intros (H1 & H2 & H3 & H4 & H5). repeat split; try assumption. lia.
  - destruct mint as [m|]; [|rewrite verifySPL_no_mint; discriminate].
    rewrite !verifySPL_true_iff.
    intros (H1 & H2 & H3 & H4 & H5). repeat split; try assumption. lia.
Qed.

End AmountFacts.

(** ** Verification of whole transactions *)
Section TransactionFacts.
Context {RT : Runtime}.

(** The scan as a search: when every instruction is judged without an
    exception by [accepts], the result is valid exactly when some
    instruction is accepted. *)
Lemma verify_loop_search (cfg : PaymentConfig) (recipient : option PublicKey)
    (expectedAmount : Z) (accepts : TransactionInstruction -> bool) :
  (forall ix,
      (if negb (not_SOL (tokenType cfg))
       then Ok (verifySOLTransferInstruction ix recipient expectedAmount)
       else
         bind (if truthy_address (mintAddress cfg)
               then resolve_address (mintAddress cfg)
               else Ok None)
           (fun mint =>
              Ok (verifySPLTransferInstruction ix recipient expectedAmount mint)))
      = Ok (accepts ix)) ->
  (forall ix, accepts ix = true -> exists R, recipient = Some R) ->
  forall ixs,
  exists r, verify_loop cfg recipient expectedAmount ixs = Ok r
            /\ isValid r = existsb accepts ixs.
Proof.
  intros Hstep Hrec. induction ixs as [|ix rest IH]; cbn [verify_loop existsb].
  - eexists. split; reflexivity.
  - rewrite Hstep. cbn [bind].
    destruct (accepts ix) eqn:E; cbn [orb].
    + destruct (Hrec ix E) as (R & ->). eexists. split; reflexivity.
    + exact IH.
Qed.

(** A valid scan has a judge of that kind. *)
Lemma valid_scan_has_judge (cfg : PaymentConfig) (recipient : option PublicKey)
    (expectedAmount : Z) (ixs : list TransactionInstruction)
    (r : PaymentVerificationResult) :
  verify_loop cfg recipient expectedAmount ixs = Ok r ->
  isValid r = true ->
  exists accepts,
    (forall l, exists r', verify_loop cfg recipient expectedAmount l = Ok r'
                          /\ isValid r' = existsb accepts l).
Proof.
  intros E Hv.
  destruct (negb (not_SOL (tokenType cfg))) eqn:Es.
  - exists (fun ix => verifySOLTransferInstruction ix recipient expectedAmount).
    apply verify_loop_search.
    + intros ix. rewrite Es. reflexivity.
    + intros ix H. apply verifySOL_true_iff in H.
      destruct H as (_ & _ & _ & _ & meta & _ & ->). eexists. reflexivity.
  - destruct (if truthy_address (mintAddress cfg)
              then resolve_address (mintAddress cfg) else Ok None)
      as [mint|e] eqn:Em.
    + exists (fun ix => verifySPLTransferInstruction ix recipient expectedAmount mint).
      apply verify_loop_search.
      * intros ix. rewrite Es, Em. reflexivity.
      * intros ix H. destruct mint as [m|]; [|rewrite verifySPL_no_mint in H; discriminate].
        apply verifySPL_true_iff in H.
        destruct H as (_ & _ & _ & _ & meta & _ & Hd).
        destruct recipient as [R|]; [eexists; reflexivity | discriminate Hd].
    + exfalso. destruct ixs as [|ix rest]; cbn [verify_loop] in E.
      * injection E as <-. discriminate Hv.
      * rewrite Es, Em in E. discriminate E.
Qed.

(** X10.  Instructions added before or after those of a valid transaction
    never make it invalid: the verifier asks for one matching
    instruction and ignores every other. *)
Theorem added_instructions_keep_validity (tx : Transaction) (cfg : PaymentConfig)
    (r : PaymentVerificationResult) (before after : list TransactionInstruction) :
  verifyPaymentInstructions tx cfg = Ok r ->
  isValid r = true ->
  exists r',
    verifyPaymentInstructions
      (mkTransaction (before ++ instructions tx ++ after)%list) cfg = Ok r'
    /\ isValid r' = true.
Proof.
  unfold verifyPaymentInstructions, verifyPaymentInstructions_try.
  destruct (resolve_address (recipient cfg)) as [rec|e]; cbn [bind try_catch].
  2:{ intros [= <-]. discriminate. }
  destruct (toTokenUnits (amount cfg) (decimals_or_default cfg)) as [ea|e];
    cbn [bind try_catch].
  2:{ intros [= <-]. discriminate. }
  destruct (verify_loop cfg rec ea (instructions tx)) as [r0|e] eqn:E;
    cbn [try_catch]; [|intros [= <-]; discriminate].
  intros [= <-] Hv. cbn [instructions].
  destruct (valid_scan_has_judge cfg rec ea _ r0 E Hv) as (accepts & Hj).
  destruct (Hj (instructions tx)) as (r1 & E1 & H1).
  rewrite E in E1. injection E1 as <-.
  destruct (Hj (before ++ instructions tx ++ after)%list) as (r' & E' & H').
  rewrite E'. cbn [try_catch]. exists r'. split; [reflexivity|].
  rewrite H', !existsb_app, <- H1, Hv. apply orb_true_iff. right. reflexivity.
Qed.

(** X11.  A native verification whose expected recipient and amount are well
    formed is valid exactly when some instruction is under the system
    program, has 12 bytes of data the first of which is 2, carries at
    least the expected amount at offset 4, and names the recipient as
    second account. *)
Theorem native_verification_valid_iff (tx : Transaction) (cfg : PaymentConfig)
    (R : PublicKey) (expectedAmount : Z) :
  tokenType cfg = Some SOL ->
  resolve_address (recipient cfg) = Ok (Some R) ->
  toTokenUnits (amount cfg) (decimals_or_default cfg) = Ok expectedAmount ->
  exists r, verifyPaymentInstructions tx cfg = Ok r
    /\ (isValid r = true
        <-> exists ix, In ix (instructions tx)
              /\ programId ix = SYSTEM_PROGRAM_ID
              /\ List.length (data ix) = 12%nat
              /\ nth_error (data ix) 0 = Some x02
              /\ expectedAmount <= native_amount ix
              /\ exists meta, nth_error (keys ix) 1 = Some meta
                              /\ pubkey meta = R).
Proof.
  intros Ht Hr Ha.
  destruct (verify_native_iff tx cfg R expectedAmount Ht Hr Ha) as (r & E & Hv).
  exists r. split; [exact E|]. rewrite Hv. split.
  - intros (ix & Hin & H). apply verifySOL_true_iff in H.
    destruct H as (H1 & H2 & H3 & H4 & meta & H5 & H6).
    exists ix. repeat split; try assumption. exists meta. split; congruence.
  - intros (ix & Hin & H1 & H2 & H3 & H4 & meta & H5 & H6).
    exists ix. split; [exact Hin|]. apply verifySOL_true_iff.
    repeat split; try assumption. exists meta. split; congruence.
Qed.

End TransactionFacts.

(** ** The assembler and the verifier together *)
Section AssemblerFacts.
Context {RT : Runtime} {CH : Chain}.

(** Unpacks a successful sequence of steps. *)
Ltac unpack H :=
  repeat match type of H with
         | bind ?r _ = Ok _ =>
             let E := fresh "E" in
             destruct r eqn:E; cbn [bind] in H; [|discriminate H]
         end.

Lemma u64_layout_in_range (v : Z) :
  0 <= v < 2 ^ 64 -> u64_layout v = le_bytes 8 (Z.to_N v).
Proof.
  intros [H0 H1]. unfold u64_layout.
  replace (0 <=? v) with true by (symmetry; apply Z.leb_le; exact H0).
  replace (v <? 2 ^ 64) with true by (symmetry; apply Z.ltb_lt; exact H1).
  reflexivity.
Qed.

(** The transfer of an exactly representable number of lamports. *)
Lemma transfer_of_lamports (fromPubkey toPubkey : PublicKey) (lamports : Z) :
  0 <= lamports < 2 ^ 53 ->
  SystemProgram_transfer_number fromPubkey toPubkey (Number_of_BigInt lamports)
  = Ok (SystemProgram_transfer fromPubkey toPubkey (Z.to_N lamports)).
Proof.
  intros H. unfold SystemProgram_transfer_number, BigInt, Number_of_BigInt.
  rewrite NumberFacts.to_integer_of_Z by lia. cbn [bind].
  rewrite u64_layout_in_range; [reflexivity|].
  split; [lia|]. eapply Z.lt_trans; [apply H|]. reflexivity.
Qed.

Lemma token_transfer_in_range (source destination owner : PublicKey) (amount : Z) :
  0 <= amount < 2 ^ 64 ->
  createSPLTransferInstruction source destination owner amount
  = createTransferInstruction source destination owner (Z.to_N amount).
Proof.
  intros H. unfold createSPLTransferInstruction, createTransferInstruction.
  rewrite u64_layout_in_range by exact H. reflexivity.
Qed.

(** The two directions of acceptance the assembler needs. *)
Lemma system_transfer_accepted (fromPubkey toPubkey : PublicKey) (lamports : N)
    (expectedAmount : Z) :
  (lamports < 2 ^ 64)%N ->
  expectedAmount <= Z.of_N lamports ->
  verifySOLTransferInstruction
    (SystemProgram_transfer fromPubkey toPubkey lamports)
    (Some toPubkey) expectedAmount = true.
Proof.
  intros H Ha. apply verifySOL_true_iff.
  rewrite native_amount_transfer by exact H.
  split; [reflexivity|]. split; [reflexivity|].
  split; [reflexivity|]. split; [exact Ha|].
  eexists. split; reflexivity.
Qed.

Lemma token_transfer_accepted (source destination owner : PublicKey)
    (amount : N) (expectedRecipient mint : PublicKey) (expectedAmount : Z) :
  (amount < 2 ^ 64)%N ->
  getAssociatedTokenAddress mint expectedRecipient = Ok destination ->
  expectedAmount <= Z.of_N amount ->
  verifySPLTransferInstruction
    (createTransferInstruction source destination owner amount)
    (Some expectedRecipient) expectedAmount (Some mint) = true.
Proof.
  intros H Hd Ha. apply verifySPL_true_iff.
  rewrite token_amount_transfer by exact H.
  split; [reflexivity|]. split; [cbn; lia|].
  split; [reflexivity|]. split; [exact Ha|].
  eexists. split; [reflexivity | exact Hd].
Qed.

(** X12.  A native payment assembled for a configuration verifies against
    that configuration, provided the verifier scales the amount by the
    9 decimals the assembler uses and the lamports are below [2^53]. *)
Theorem assembled_native_payment_verifies (payer : Keypair) (cfg : PaymentConfig)
    (atx : AssembledTransaction) (lamports : Z) :
  createSOLPaymentTransaction payer cfg = Ok atx ->
  tokenType cfg = Some SOL ->
  decimals_or_default cfg = 9%N ->
  toTokenUnits (amount cfg) 9 = Ok lamports ->
  0 <= lamports < 2 ^ 53 ->
  exists r,
    verifyPaymentInstructions (mkTransaction (assembled_instructions atx)) cfg
    = Ok r
    /\ isValid r = true.
Proof.
  intros Hc Ht Hd Ha Hl. unfold createSOLPaymentTransaction in Hc.
  rewrite Ha in Hc.
  destruct (resolve_address (recipient cfg)) as [[R|]|e] eqn:E;
    cbn [bind] in Hc; try discriminate Hc.
  2:{ unpack Hc. discriminate Hc. }
  rewrite transfer_of_lamports in Hc by exact Hl.
  unpack Hc. injection Hc as <-. cbn [assembled_instructions].
  destruct (verify_native_iff
              (mkTransaction
                 [SystemProgram_transfer (publicKey payer) R (Z.to_N lamports)])
              cfg R lamports Ht E) as (r & Er & Hv).
  { rewrite Hd. exact Ha. }
  exists r. split; [exact Er|]. apply Hv.
  eexists. split; [left; reflexivity|].
  apply system_transfer_accepted.
  - apply N2Z.inj_lt. rewrite Z2N.id by lia.
    eapply Z.lt_trans; [apply Hl|]. reflexivity.
  - rewrite Z2N.id; lia.
Qed.

Lemma getOrCreateTokenAccount_result (payer : Keypair) (mint : PublicKey)
    (owner : option PublicKey) (account : PublicKey * option TransactionInstruction) :
  getOrCreateTokenAccount payer mint owner = Ok account ->
  exists o,
    owner = Some o
    /\ getAssociatedTokenAddress mint o = Ok (fst account)
    /\ snd account
       = (if tokenAccountExists (fst account) then None
          else Some (createAssociatedTokenAccountInstruction
                       (publicKey payer) (fst account) o mint)).
Proof.
  unfold getOrCreateTokenAccount, tokenAccountExists. intros H.
  destruct owner as [o|]; [|discriminate H].
  cbn [getAssociatedTokenAddress_opt] in H.
  destruct (getAssociatedTokenAddress mint o) as [a|e] eqn:E; [|discriminate H].
  cbn [bind] in H. exists o. split; [reflexivity|].
  destruct (getAccount a) as [u|e] eqn:Ea; injection H as <-; cbn [fst snd];
    rewrite Ea; split; reflexivity || exact E.
Qed.

(** What a successful assembly of a token payment went through. *)
Lemma createSPLPaymentTransaction_steps (payer : Keypair) (cfg : PaymentConfig)
    (atx : AssembledTransaction) :
  createSPLPaymentTransaction payer cfg = Ok atx ->
  exists mint rec mintDecimals units (first second : string * N)
         payerAccount recipientAccount,
    truthy_address (mintAddress cfg) = true
    /\ resolve_address (mintAddress cfg) = Ok (Some mint)
    /\ resolve_address (recipient cfg) = Ok rec
    /\ getMintInfo mint = Ok mintDecimals
    /\ toTokenUnits (amount cfg) (decimals_or_mint cfg mintDecimals) = Ok units
    /\ getOrCreateTokenAccount payer mint (Some (publicKey payer))
       = Ok payerAccount
    /\ getOrCreateTokenAccount payer mint rec = Ok recipientAccount
    /\ atx = mkAssembled (publicKey payer) (fst first) (snd second)
               (added [snd payerAccount;
                       match createAccountIfNeeded cfg with
                       | Some true => snd recipientAccount
                       | _ => None
                       end;
                       Some (createSPLTransferInstruction (fst payerAccount)
                               (fst recipientAccount) (publicKey payer) units)]).
Proof.
  unfold createSPLPaymentTransaction. intros H.
  destruct (truthy_address (mintAddress cfg)) eqn:Et; cbn [negb] in H;
    [|discriminate H].
  destruct (resolve_address (mintAddress cfg)) as [[mint|]|e] eqn:Em;
    cbn [bind] in H; try discriminate H.
  destruct (resolve_address (recipient cfg)) as [rec|e] eqn:Er;
    cbn [bind] in H; [|discriminate H].
  destruct (getMintInfo mint) as [md|e] eqn:Ed; cbn [bind] in H; [|discriminate H].
  destruct (toTokenUnits (amount cfg) (decimals_or_mint cfg md)) as [units|e] eqn:Eu;
    cbn [bind] in H; [|discriminate H].
  destruct (getLatestBlockhash 0) as [first|e]; cbn [bind] in H; [|discriminate H].
  destruct (getLatestBlockhash 1) as [second|e]; cbn [bind] in H; [|discriminate H].
  destruct (getOrCreateTokenAccount payer mint (Some (publicKey payer)))
    as [pa|e] eqn:Ep; cbn [bind] in H; [|discriminate H].
  destruct (getOrCreateTokenAccount payer mint rec) as [ra|e] eqn:Ea;
    cbn [bind] in H; [|discriminate H].
  injection H as <-.
  exists mint, rec, md, units, first, second, pa, ra.
  repeat split; reflexivity || assumption.
Qed.

Lemma existsb_added_last (accepts : TransactionInstruction -> bool)
    (ixs : list (option TransactionInstruction)) (ix : TransactionInstruction) :
  accepts ix = true ->
  existsb accepts (added (ixs ++ [Some ix])%list) = true.
Proof.
  intros H. unfold added. rewrite flat_map_app, existsb_app.
  cbn [flat_map app existsb]. rewrite H. apply orb_true_iff. right. reflexivity.
Qed.

(** X13.  A token payment assembled for a configuration verifies against
    that configuration, provided the verifier scales the amount by the
    decimals the assembler uses and the amount fits 64 bits. *)
Theorem assembled_token_payment_verifies (payer : Keypair) (cfg : PaymentConfig)
    (atx : AssembledTransaction) (mint : PublicKey) (mintDecimals : N)
    (units : Z) :
  createSPLPaymentTransaction payer cfg = Ok atx ->
  not_SOL (tokenType cfg) = true ->
  resolve_address (mintAddress cfg) = Ok (Some mint) ->
  getMintInfo mint = Ok mintDecimals ->
  decimals_or_mint cfg mintDecimals = decimals_or_default cfg ->
  toTokenUnits (amount cfg) (decimals_or_default cfg) = Ok units ->
  0 <= units < 2 ^ 64 ->
  exists r,
    verifyPaymentInstructions (mkTransaction (assembled_instructions atx)) cfg
    = Ok r
    /\ isValid r = true.
Proof.
  intros Hc Hn Hm Hd Hdec Hu Hr.
  destruct (createSPLPaymentTransaction_steps payer cfg atx Hc)
    as (mint' & rec & md & units' & first & second & pa & ra
        & Et & Em & Er & Ed & Eu & Ep & Ea & ->).
  rewrite Hm in Em. injection Em as <-.
  rewrite Hd in Ed. injection Ed as <-.
  rewrite Hdec, Hu in Eu. injection Eu as <-.
  destruct (getOrCreateTokenAccount_result _ _ _ _ Ea) as (R & -> & Hdest & _).
  unfold verifyPaymentInstructions, verifyPaymentInstructions_try.
  rewrite Er. cbn [bind]. rewrite Hu. cbn [bind instructions assembled_instructions].
  destruct (verify_loop_search cfg (Some R) units
              (fun ix => verifySPLTransferInstruction ix (Some R) units (Some mint)))
    with (ixs := added
                   [snd pa;
                    match createAccountIfNeeded cfg with
                    | Some true => snd ra
                    | _ => None
                    end;
                    Some (createSPLTransferInstruction (fst pa) (fst ra)
                            (publicKey payer) units)])
    as (r & E & Hv).
  - intros ix. rewrite Hn. cbn [negb]. rewrite Et, Hm. reflexivity.
  - intros ix _. eexists. reflexivity.
  - rewrite E. cbn [try_catch]. exists r. split; [reflexivity|].
    rewrite Hv.
    apply (existsb_added_last _ [snd pa; _]).
    rewrite token_transfer_in_range by exact Hr.
    apply token_transfer_accepted.
    + apply N2Z.inj_lt. rewrite Z2N.id by lia. apply Hr.
    + exact Hdest.
    + rewrite Z2N.id; lia.
Qed.

(** X14.  The transaction assembled for a token payment ends with the basic
    transfer from the payer's token account to the recipient's, signed
    by the payer.  Before it stands the creation of the payer's account
    when that account is absent, then the creation of the recipient's
    account when that one is absent and the configuration asks for
    creation; nothing else is added, and the payer pays the fee. *)
Theorem assembled_token_payment_shape (payer : Keypair) (cfg : PaymentConfig)
    (atx : AssembledTransaction) :
  createSPLPaymentTransaction payer cfg = Ok atx ->
  exists mint R source destination units,
    resolve_address (mintAddress cfg) = Ok (Some mint)
    /\ resolve_address (recipient cfg) = Ok (Some R)
    /\ getAssociatedTokenAddress mint (publicKey payer) = Ok source
    /\ getAssociatedTokenAddress mint R = Ok destination
    /\ feePayer atx = publicKey payer
    /\ assembled_instructions atx
       = ((if tokenAccountExists source then []
           else [createAssociatedTokenAccountInstruction (publicKey payer)
                   source (publicKey payer) mint])
          ++ (match createAccountIfNeeded cfg with
              | Some true =>
                  if tokenAccountExists destination then []
                  else [createAssociatedTokenAccountInstruction
                          (publicKey payer) destination R mint]
              | _ => []
              end)
          ++ [createSPLTransferInstruction source destination
                (publicKey payer) units])%list.
Proof.
  intros Hc.
  destruct (createSPLPaymentTransaction_steps payer cfg atx Hc)
    as (mint & rec & md & units & first & second & pa & ra
        & Et & Em & Er & Ed & Eu & Ep & Ea & ->).
  destruct (getOrCreateTokenAccount_result _ _ _ _ Ea) as (R & -> & Hdest & Hra).
  destruct (getOrCreateTokenAccount_result _ _ _ _ Ep) as (P & HP & Hsrc & Hpa).
  injection HP as <-.
  exists mint, R, (fst pa), (fst ra), units.
  repeat (split; [assumption || reflexivity|]).
  cbn [assembled_instructions]. rewrite Hpa, Hra. unfold added.
  destruct (tokenAccountExists (fst pa)), (createAccountIfNeeded cfg) as [[|]|],
    (tokenAccountExists (fst ra)); reflexivity.
Qed.

End AssemblerFacts.

(** ** The legacy path *)
Section LegacyFacts.
Context {RT : Runtime} {CH : Chain}.




(** X16.  With [preferOnChain] and a keypair, [payForResource] sends a system
    transfer from the payer to the payer itself: neither the recipient
    nor the currency of the requirement is consulted, and the amount
    text is scaled as if it were SOL. *)
Theorem legacy_payment_goes_to_the_payer (sdk : X402SDK)
    (paymentReq : X402PaymentRequirements) (payer : Keypair)
    (call : ResourceCall) :
  preferOnChain (cfg sdk) = Some true ->
  payForResource sdk paymentReq (Some payer) = Ok call ->
  exists submission,
    call = DirectOnChain submission
    /\ direct_to submission = publicKey payer
    /\ direct_amount submission = direct_lamports (req_amount paymentReq)
    /\ programId (direct_instruction submission) = SYSTEM_PROGRAM_ID
    /\ keys (direct_instruction submission)
       = [mkAccountMeta (publicKey payer) true true;
          mkAccountMeta (publicKey payer) false true].
Proof.
  intros Hp. unfold payForResource, submitOnChainDirect. rewrite Hp.
  cbn [bind]. unfold SystemProgram_transfer_number.
  destruct (BigInt (direct_lamports (req_amount paymentReq))) as [value|e];
    cbn [bind]; [|discriminate].
  intros [= <-]. eexists. repeat split.
Qed.

End LegacyFacts.

(** ** The server side *)
Section ServerFacts.
Context {RT : Runtime} {LG : Ledger}.

(** The two outcomes of a submission. *)
Lemma submission_cases (serialized : string) (expected : PaymentConfig)
    (network : string) :
  (exists tx verification sig,
      Transaction_from (Base64.decode serialized) = Ok tx
      /\ verifyPaymentInstructions tx expected = Ok verification
      /\ isValid verification = true
      /\ simulateTransaction (connection_cluster network) tx = Ok None
      /\ sendRawTransaction (connection_cluster network)
           (Base64.decode serialized) = Ok sig
      /\ confirmTransaction (connection_cluster network) sig = Ok None
      /\ verifyAndSubmitSerializedTransaction serialized expected network
         = Ok (mkSubmitResult true (Some sig)
                 (Some (getExplorerUrl sig network)) None))
  \/ (exists msg,
         verifyAndSubmitSerializedTransaction serialized expected network
         = Ok (mkSubmitResult false None None (Some msg))).
Proof.
  unfold verifyAndSubmitSerializedTransaction.
  destruct (Transaction_from (Base64.decode serialized)) as [tx|e] eqn:Et;
    cbn [bind try_catch]; [|right; eexists; reflexivity].
  destruct (verifyPaymentInstructions tx expected) as [v|e] eqn:Ev;
    cbn [bind try_catch]; [|right; eexists; reflexivity].
  destruct (isValid v) eqn:Hv; cbn [negb try_catch];
    [|right; eexists; reflexivity].
  destruct (simulateTransaction (connection_cluster network) tx)
    as [[err|]|e] eqn:Es; cbn [bind try_catch];
    try (right; eexists; reflexivity).
  destruct (sendRawTransaction (connection_cluster network)
              (Base64.decode serialized)) as [sig|e] eqn:Ex;
    cbn [bind try_catch]; [|right; eexists; reflexivity].
  destruct (confirmTransaction (connection_cluster network) sig)
    as [[err|]|e] eqn:Ec; cbn [bind try_catch];
    try (right; eexists; reflexivity).
  left. exists tx, v, sig. repeat (split; [assumption || reflexivity|]).
  reflexivity.
Qed.

(** X17.  [verifyAndSubmitSerializedTransaction] always returns a result.  It
    reports success exactly when the buffer deserialises, the
    instructions verify, the simulation shows no error, the submission
    returns a signature and the confirmation shows no error; it then
    carries that signature and its explorer address.  Every other
    outcome, an exception of the ledger included, is a result without
    success that carries an error text and no signature. *)
Theorem submission_succeeds_iff_every_step_does (serialized : string)
    (expected : PaymentConfig) (network : string) :
  exists r,
    verifyAndSubmitSerializedTransaction serialized expected network = Ok r
    /\ (success r = true
        <-> exists tx verification sig,
              Transaction_from (Base64.decode serialized) = Ok tx
              /\ verifyPaymentInstructions tx expected = Ok verification
              /\ isValid verification = true
              /\ simulateTransaction (connection_cluster network) tx = Ok None
              /\ sendRawTransaction (connection_cluster network)
                   (Base64.decode serialized) = Ok sig
              /\ confirmTransaction (connection_cluster network) sig = Ok None
              /\ signature r = Some sig
              /\ explorerUrl r = Some (getExplorerUrl sig network))
    /\ (success r = false
        -> signature r = None /\ exists msg, submit_error r = Some msg).
Proof.
  destruct (submission_cases serialized expected network)
    as [(tx & v & sig & Et & Ev & Hv & Es & Ex & Ec & E)|(msg & E)];
    rewrite E; eexists; (split; [reflexivity|]); cbn [success signature
      explorerUrl submit_error]; split.
  - split; [intros _|reflexivity].
    exists tx, v, sig. repeat (split; [assumption|]). split; reflexivity.
  - discriminate.
  - split; [discriminate|].
    intros (tx & v & sig & _ & _ & _ & _ & _ & _ & H & _). discriminate H.
  - intros _. split; [reflexivity|]. eexists. reflexivity.
Qed.


(** X19.  A header whose decoded text is not JSON is refused with one fixed
    message, whatever the parser reported: [parseX402Header] throws it
    and the handler answers 402 with it. *)
Theorem malformed_header_is_refused (opts : MiddlewareOpts) (header : string)
    (e : JSError) :
  header <> "" ->
  JSON_parse (Buffer_toString (Base64.decode header)) = Throw e ->
  parseX402Header header = Throw (Error "Invalid x402 payment header format")
  /\ createPaymentMiddleware opts (Some header)
     = Json 402 (ErrorBody (Some "Invalid x402 payment header format")).
Proof.
  intros Hn Hp.
  assert (H : parseX402Header header
              = Throw (Error "Invalid x402 payment header format")).
  { unfold parseX402Header. rewrite Hp. reflexivity. }
  split; [exact H|].
  unfold createPaymentMiddleware.
  destruct header as [|c rest]; [contradiction Hn; reflexivity|].
  rewrite H. reflexivity.
Qed.



End ServerFacts.

(** ** The client side and the server side together *)
Section ClientFacts.
Context {RT : Runtime} {LG : Ledger} {CH : Chain}.

Lemma verifier_returns (tx : Transaction) (cfg : PaymentConfig) :
  exists r, verifyPaymentInstructions tx cfg = Ok r.
Proof.
  unfold verifyPaymentInstructions.
  destruct (verifyPaymentInstructions_try tx cfg); cbn [try_catch];
    eexists; reflexivity.
Qed.

(** X21.  [sdk.verifyPayment] adds nothing to the verifier for a transaction
    object; for a base64 text it verifies the deserialised transaction,
    and a text that does not deserialise gives an invalid result that
    carries the message of the failure.  It never throws. *)
Theorem verifyPayment_is_the_verifier_after_decoding (cfg : PaymentConfig) :
  (forall tx, verifyPayment (inl tx) cfg = verifyPaymentInstructions tx cfg)
  /\ (forall text,
        verifyPayment (inr text) cfg
        = match Transaction_from (Base64.decode text) with
          | Ok tx => verifyPaymentInstructions tx cfg
          | Throw e =>
              Ok (mkVerification false
                    (Some ("Verification failed: "
                           ++ (if instanceofError e then message e
                               else "Unknown error"))%string)
                    None)
          end).
Proof.
  split.
  - intros tx. unfold verifyPayment. cbn [bind].
    destruct (verifier_returns tx cfg) as (r & ->). reflexivity.
  - intros text. unfold verifyPayment.
    destruct (Transaction_from (Base64.decode text)) as [tx|e];
      cbn [bind try_catch]; [|reflexivity].
    destruct (verifier_returns tx cfg) as (r & ->). reflexivity.
Qed.

Lemma created_header_parses (data : json) :
  JSON_serializable data -> parseX402Header (createX402Header data) = Ok data.
Proof.
  unfold JSON_serializable, parseX402Header, createX402Header. intros Hp.
  unfold Buffer_toString, Buffer_from.
  rewrite Base64Facts.decode_encode, string_of_list_byte_of_string, Hp.
  reflexivity.
Qed.

Lemma encode_empty (bs : list byte) : Base64.encode bs = "" -> bs = [].
Proof.
  destruct bs as [|a [|b [|c rest]]]; [reflexivity| | |]; discriminate.
Qed.

Lemma created_header_not_empty (data : json) :
  JSON_stringify data <> "" -> createX402Header data <> "".
Proof.
  intros Hs He. apply Hs. unfold createX402Header, Buffer_from in He.
  apply encode_empty in He.
  destruct (JSON_stringify data); [reflexivity | discriminate He].
Qed.

(** X22.  The handler reads the payment proof of [createSignedTransaction]:
    given the header made from the proof, it submits exactly the
    serialized transaction of the proof against its expected
    configuration and answers by the result. *)
Theorem handler_reads_the_payment_proof (opts : MiddlewareOpts)
    (network serialized : string) :
  JSON_serializable (paymentProof network serialized) ->
  JSON_stringify (paymentProof network serialized) <> "" ->
  serialized <> "" ->
  exists r,
    verifyAndSubmitSerializedTransaction serialized (middleware_expected opts)
      (middleware_network opts) = Ok r
    /\ createPaymentMiddleware opts
         (Some (createX402Header (paymentProof network serialized)))
       = (if success r
          then Json 200 (VerifiedBody "Payment verified" (signature r)
                           (explorerUrl r))
          else Json 402 (ErrorBody (submit_error r))).
Proof.
  intros Hj Hs Ht.
  pose proof (created_header_parses _ Hj) as Hp.
  pose proof (created_header_not_empty _ Hs) as Hn.
  unfold createPaymentMiddleware.
  destruct (createX402Header (paymentProof network serialized))
    as [|c header] eqn:Eh; [contradiction Hn; reflexivity|].
  rewrite Hp. cbn [bind]. unfold paymentProof at 1.
  cbn [json_get find fst snd String.eqb Ascii.eqb Bool.eqb bind json_get_opt].
  destruct serialized as [|c0 text]; [contradiction Ht; reflexivity|].
  cbn [json_truthy negb].
  destruct (submission_cases (String c0 text) (middleware_expected opts)
              (middleware_network opts))
    as [(tx & v & sig & _ & _ & _ & _ & _ & _ & E)|(msg & E)];
    rewrite E; eexists; (split; [reflexivity|]); reflexivity.
Qed.

(** X23.  What [sdk.createSignedTransaction] returns was assembled from a
    configuration that [validateConfig] accepts, so a token payment
    already names its mint and the default USDC mint of
    [createSignedPaymentTransaction] is never applied; the header it
    returns is the one made from the proof of the serialized
    transaction. *)
Theorem signed_transaction_is_validated_first (sdk : X402SDK)
    (config : PaymentConfig) (payer : Keypair) (signedPayment : SignedPayment)
    (x402Header : string) :
  createSignedTransaction sdk config payer = Ok (signedPayment, x402Header) ->
  validation_isValid (validateConfig config) = true
  /\ (not_SOL (tokenType config) = true ->
      with_default_mint config (network (cfg sdk)) = Ok config)
  /\ (if not_SOL (tokenType config)
      then createSPLPaymentTransaction payer config
      else createSOLPaymentTransaction payer config)
     = Ok (signed_transaction signedPayment)
  /\ x402Header
     = createX402Header
         (paymentProof (network (cfg sdk)) (serializedTransaction signedPayment)).
Proof.
  unfold createSignedTransaction. intros H.
  destruct (validation_isValid (validateConfig config)) eqn:Hv;
    cbn [negb] in H; [|discriminate H].
  destruct (validateConfig_valid config Hv) as (_ & _ & _ & _ & _ & _ & Hm & _).
  assert (Hd : not_SOL (tokenType config) = true ->
               with_default_mint config (network (cfg sdk)) = Ok config).
  { intros Hn. unfold with_default_mint. rewrite (Hm Hn). reflexivity. }
  split; [reflexivity|]. split; [exact Hd|].
  destruct (createSignedPaymentTransaction config payer (network (cfg sdk)))
    as [sp|e] eqn:E; cbn [bind] in H; [|discriminate H].
  injection H as <- <-. split; [|reflexivity].
  unfold createSignedPaymentTransaction in E.
  destruct (assemble payer config (network (cfg sdk))) as [atx|e] eqn:Ea;
    cbn [bind] in E; [|discriminate E].
  destruct (Transaction_sign atx payer) as [sig|e]; cbn [bind] in E;
    [|discriminate E].
  destruct (Transaction_serialize atx payer) as [wire|e]; cbn [bind] in E;
    [|discriminate E].
  injection E as <-. cbn [signed_transaction].
  unfold assemble in Ea.
  destruct (not_SOL (tokenType config)); cbn [negb] in Ea; [|exact Ea].
  rewrite (Hd eq_refl) in Ea. exact Ea.
Qed.

(** X24.  [submitPaymentOnChain] has two outcomes.  It returns a receipt only
    after the transaction was assembled (for a token from the
    configuration with the mint filled in), simulated without error
    unless [simulateFirst] is [false], serialised, submitted and
    confirmed without error; the receipt then carries the signature of
    the submission and the amount in the units of the configuration,
    not in base units.  Every failure on the way is thrown as an
    [Error] whose message starts with a fixed prefix. *)
Theorem onchain_payment_outcomes (config : PaymentConfig) (payer : Keypair)
    (network : string) (simulateFirst : option bool) :
  (exists msg,
      submitPaymentOnChain config payer network simulateFirst
      = Throw (Error ("On-chain payment failed: " ++ msg)%string))
  \/ (exists receipt config' wire,
         submitPaymentOnChain config payer network simulateFirst = Ok receipt
         /\ (if not_SOL (tokenType config)
             then with_default_mint config network
             else Ok config) = Ok config'
         /\ (if not_SOL (tokenType config)
             then createSPLPaymentTransaction payer config'
             else createSOLPaymentTransaction payer config')
            = Ok (receipt_transaction receipt)
         /\ (simulateFirst <> Some false ->
             simulateTransaction (connection_cluster network)
               (mkTransaction
                  (assembled_instructions (receipt_transaction receipt)))
             = Ok None)
         /\ Transaction_serialize (receipt_transaction receipt) payer = Ok wire
         /\ sendRawTransaction (connection_cluster network) wire
            = Ok (txSignature receipt)
         /\ confirmTransaction (connection_cluster network) (txSignature receipt)
            = Ok None
         /\ receipt_explorerUrl receipt
            = getExplorerUrl (txSignature receipt) network
         /\ receipt_amount receipt = amountNumber (amount config)
         /\ receipt_mintAddress receipt
            = address_string_opt (mintAddress config')).
Proof.
  unfold submitPaymentOnChain.
  set (built := if negb (not_SOL (tokenType config)) then _ else _).
  assert (Hb : forall b, built = Ok b ->
             (if not_SOL (tokenType config)
              then with_default_mint config network
              else Ok config) = Ok (fst b)
             /\ (if not_SOL (tokenType config)
                 then createSPLPaymentTransaction payer (fst b)
                 else createSOLPaymentTransaction payer (fst b)) = Ok (snd b)
             /\ amount (fst b) = amount config).
  { intros b. subst built. destruct (not_SOL (tokenType config)); cbn [negb].
    - unfold with_default_mint.
      destruct (truthy_address (mintAddress config)); cbn [bind].
      + destruct (createSPLPaymentTransaction payer config) eqn:Ec;
          cbn [bind]; [|discriminate].
        intros [= <-]. cbn [fst snd]. rewrite Ec. repeat split.
      + destruct (tokenType config) as [[| |]|]; cbn [bind]; try discriminate.
        match goal with
        | |- context [createSPLPaymentTransaction payer ?c] =>
            destruct (createSPLPaymentTransaction payer c) eqn:Ec; cbn [bind];
            [|discriminate]
        end.
        intros [= <-]. cbn [fst snd]. rewrite Ec. repeat split.
    - destruct (createSOLPaymentTransaction payer config) eqn:Ec; cbn [bind];
        [|discriminate]. intros [= <-]. cbn [fst snd]. rewrite Ec. repeat split. }
  clearbody built.
  destruct built as [b|e]; cbn [bind try_catch]; [|left; eexists; reflexivity].
  destruct (Hb b eq_refl) as (Hc & Ht & Ha). clear Hb.
  destruct (Transaction_sign (snd b) payer) as [sig|e];
    cbn [bind try_catch]; [|left; eexists; reflexivity].
  set (simulated := match simulateFirst with Some false => _ | _ => _ end).
  assert (Hs : forall u, simulated = Ok u ->
             simulateFirst <> Some false ->
             simulateTransaction (connection_cluster network)
               (mkTransaction (assembled_instructions (snd b))) = Ok None).
  { intros u. subst simulated.
    destruct (simulateTransaction (connection_cluster network)
                (mkTransaction (assembled_instructions (snd b))))
      as [[err|]|e];
      destruct simulateFirst as [[|]|]; cbn [bind]; intros H Hn;
      try discriminate H; try reflexivity; contradiction Hn; reflexivity. }
  clearbody simulated.
  destruct simulated as [u|e]; cbn [bind try_catch];
    [|left; eexists; reflexivity].
  specialize (Hs u eq_refl).
  destruct (Transaction_serialize (snd b) payer) as [wire|e] eqn:Ew;
    cbn [bind try_catch]; [|left; eexists; reflexivity].
  destruct (sendRawTransaction (connection_cluster network) wire)
    as [signature|e] eqn:Ex; cbn [bind try_catch];
    [|left; eexists; reflexivity].
  destruct (confirmTransaction (connection_cluster network) signature)
    as [[err|]|e] eqn:Ec; cbn [bind try_catch];
    try (left; eexists; reflexivity).
  destruct (address_string (recipient (fst b))) as [text|e];
    cbn [bind try_catch]; [|left; eexists; reflexivity].
  right. eexists. exists (fst b), wire. split; [reflexivity|].
  cbn [receipt_transaction txSignature receipt_explorerUrl receipt_amount
       receipt_mintAddress].
  repeat (split; [assumption|]). split; [reflexivity|].
  split; [rewrite Ha; reflexivity | reflexivity].
Qed.

End ClientFacts.

(** ** Base58: the text of a key names the key *)
Module Base58Facts.
Import Base58.

Local Open Scope N_scope.

Lemma digit_nth_char (d : N) : d < 58 -> digit (nth_char d) = Some d.
Proof.
  intros H. destruct d as [|p]; [reflexivity|].
  do 6 (destruct p as [p|p|]; try reflexivity; try lia).
Qed.

Lemma nth_char_not_one (d : N) (s : string) :
  0 < d < 58 -> leading_ones (String (nth_char d) s) = 0.
Proof.
  intros H. destruct d as [|p]; [lia|].
  do 6 (destruct p as [p|p|]; try reflexivity; try lia).
Qed.

Lemma value_from_digits (fuel : nat) :
  forall n acc, n < 58 ^ N.of_nat fuel ->
  value_from (digits fuel n acc) 0 = value_from acc n.
Proof.
  induction fuel as [|fuel IH]; intros n acc Hn.
  - cbn [digits]. change (58 ^ N.of_nat 0) with 1 in Hn.
    replace n with 0 by lia. reflexivity.
  - cbn [digits]. destruct (n =? 0) eqn:E.
    + apply N.eqb_eq in E. subst n. reflexivity.
    + rewrite IH.
      * cbn [value_from]. rewrite digit_nth_char
          by (apply N.mod_upper_bound; discriminate).
        f_equal. rewrite N.mul_comm. symmetry. apply N.div_mod. discriminate.
      * rewrite Nat2N.inj_succ, N.pow_succ_r' in Hn.
        apply N.Div0.div_lt_upper_bound. exact Hn.
Qed.

Lemma leading_ones_digits (fuel : nat) :
  forall n acc, n < 58 ^ N.of_nat fuel ->
  n <> 0 \/ leading_ones acc = 0 ->
  leading_ones (digits fuel n acc) = 0.
Proof.
  induction fuel as [|fuel IH]; intros n acc Hn H.
  - cbn [digits]. change (58 ^ N.of_nat 0) with 1 in Hn.
    destruct H as [H|H]; [lia | exact H].
  - cbn [digits]. destruct (n =? 0) eqn:E.
    + apply N.eqb_eq in E. destruct H as [H|H]; [contradiction | exact H].
    + apply N.eqb_neq in E. apply IH.
      * rewrite Nat2N.inj_succ, N.pow_succ_r' in Hn.
        apply N.Div0.div_lt_upper_bound. exact Hn.
      * destruct (N.eq_dec (n / 58) 0) as [Hq|Hq]; [right | left; exact Hq].
        apply nth_char_not_one.
        pose proof (N.div_mod n 58 ltac:(discriminate)) as Hd.
        pose proof (N.mod_upper_bound n 58 ltac:(discriminate)) as Hu.
        rewrite Hq in Hd. lia.
Qed.

Lemma value_from_ones (k : nat) (s : string) :
  value_from (ones k ++ s) 0 = value_from s 0.
Proof. induction k as [|k IH]; [reflexivity | exact IH]. Qed.

Lemma leading_ones_ones (k : nat) (s : string) :
  leading_ones (ones k ++ s) = N.of_nat k + leading_ones s.
Proof.
  induction k as [|k IH]; [reflexivity|].
  cbn [ones append leading_ones]. rewrite IH. lia.
Qed.

Lemma byte_length_bound (n : N) : n < 2 ^ 256 -> byte_length n <= 32.
Proof.
  intros H. unfold byte_length.
  assert (Hs : N.size n <= 256).
  { destruct (N.eq_dec n 0) as [->|Hn]; [cbn; lia|].
    rewrite N.size_log2 by exact Hn.
    apply N.le_succ_l. apply N.log2_lt_pow2; lia. }
  change 32 with ((256 + 7) / 8). apply N.Div0.div_le_mono. lia.
Qed.

(** Decoding the text of a 32-byte number gives 32 bytes and the number. *)
Lemma decode_encode_key (n : N) :
  n < 2 ^ 256 -> decode (encode 32 n) = Some (32, n).
Proof.
  intros H. unfold decode, encode.
  assert (Hf : n < 58 ^ N.of_nat (N.to_nat (2 * 32))).
  { eapply N.lt_trans; [exact H|]. reflexivity. }
  rewrite value_from_ones, value_from_digits by exact Hf.
  cbn [value_from]. rewrite leading_ones_ones.
  rewrite leading_ones_digits by (exact Hf || (right; reflexivity)).
  pose proof (byte_length_bound n H) as Hb.
  f_equal. f_equal. rewrite N2Nat.id. lia.
Qed.

End Base58Facts.

Lemma new_PublicKey_toBase58 (k : PublicKey) :
  (_bn k < 2 ^ 256)%N -> new_PublicKey (toBase58 k) = Ok k.
Proof.
  intros H. unfold new_PublicKey, toBase58, PUBLIC_KEY_LENGTH.
  rewrite Base58Facts.decode_encode_key by exact H.
  destruct k. reflexivity.
Qed.

(** ** Results and requirements name their addresses by text *)
Section TextFacts.
Context {RT : Runtime}.

Lemma verify_loop_result (cfg : PaymentConfig) (recipient : option PublicKey)
    (expectedAmount : Z) (ixs : list TransactionInstruction)
    (r : PaymentVerificationResult) :
  verify_loop cfg recipient expectedAmount ixs = Ok r ->
  (isValid r = true /\ error r = None
   /\ exists R, recipient = Some R
        /\ details r
           = Some (mkDetails (Number_of_BigInt expectedAmount) (toBase58 R)
                     (tokenType cfg) (address_string_opt (mintAddress cfg))))
  \/ (isValid r = false /\ details r = None /\ exists msg, error r = Some msg).
Proof.
  induction ixs as [|ix rest IH]; cbn [verify_loop].
  - intros [= <-]. right. split; [reflexivity|]. split; [reflexivity|].
    eexists. reflexivity.
  - set (step := if negb (not_SOL (tokenType cfg)) then _ else _).
    destruct step as [[|]|e]; cbn [bind].
    + destruct recipient as [R|]; [|discriminate].
      intros [= <-]. left. split; [reflexivity|]. split; [reflexivity|].
      exists R. split; reflexivity.
    + exact IH.
    + discriminate.
Qed.

(** X25.  A verification result has one of two shapes.  A valid one has no
    error and details that name the token type and the mint of the
    expected configuration and its recipient by the base-58 text of
    the key, which reads back as that key; an invalid one has an error
    text and no details. *)
Theorem verification_result_shape (tx : Transaction) (cfg : PaymentConfig) :
  exists r,
    verifyPaymentInstructions tx cfg = Ok r
    /\ ((isValid r = true /\ error r = None
         /\ exists d R,
              details r = Some d
              /\ resolve_address (recipient cfg) = Ok (Some R)
              /\ details_recipient d = toBase58 R
              /\ details_tokenType d = tokenType cfg
              /\ details_mintAddress d = address_string_opt (mintAddress cfg)
              /\ ((_bn R < 2 ^ 256)%N ->
                  new_PublicKey (details_recipient d) = Ok R))
        \/ (isValid r = false /\ details r = None
            /\ exists msg, error r = Some msg)).
Proof.
  unfold verifyPaymentInstructions, verifyPaymentInstructions_try.
  destruct (resolve_address (recipient cfg)) as [rec|e] eqn:Er;
    cbn [bind try_catch].
  2:{ eexists. split; [reflexivity|]. right. cbn.
      split; [reflexivity|]. split; [reflexivity|]. eexists. reflexivity. }
  destruct (toTokenUnits (amount cfg) (decimals_or_default cfg)) as [ea|e];
    cbn [bind try_catch].
  2:{ eexists. split; [reflexivity|]. right. cbn.
      split; [reflexivity|]. split; [reflexivity|]. eexists. reflexivity. }
  destruct (verify_loop cfg rec ea (instructions tx)) as [r|e] eqn:E;
    cbn [try_catch].
  2:{ eexists. split; [reflexivity|]. right. cbn.
      split; [reflexivity|]. split; [reflexivity|]. eexists. reflexivity. }
  exists r. split; [reflexivity|].
  destruct (verify_loop_result _ _ _ _ _ E)
    as [(Hv & He & R & -> & Hd)|H]; [left | right; exact H].
  split; [exact Hv|]. split; [exact He|].
  eexists. exists R. split; [exact Hd|]. cbn.
  repeat (split; [reflexivity|]). apply new_PublicKey_toBase58.
Qed.

Lemma resolve_address_string (a : option Address) (text : string)
    (k : PublicKey) :
  address_string a = Ok text ->
  resolve_address a = Ok (Some k) ->
  (_bn k < 2 ^ 256)%N ->
  resolve_address (Some (AddrStr text)) = Ok (Some k).
Proof.
  destruct a as [[key|s]|]; cbn [address_string resolve_address].
  - intros [= <-] [= <-] H. rewrite new_PublicKey_toBase58 by exact H.
    reflexivity.
  - intros [= <-] H _. exact H.
  - discriminate.
Qed.

(** X26.  Turning a configuration into requirements and back keeps the token
    type, the creation flag and, by their texts, the recipient and the
    mint; the decimals come back filled in.  The amount does not come
    back: it returns as the text of the base units, beside the same
    decimals. *)
Theorem requirements_roundtrip (cfg : PaymentConfig) (network : string)
    (requirements : X402PaymentRequirements) (R : PublicKey) :
  toX402Requirements cfg network = Ok requirements ->
  resolve_address (recipient cfg) = Ok (Some R) ->
  (_bn R < 2 ^ 256)%N ->
  let back := fromX402Requirements requirements in
  tokenType back = tokenType cfg
  /\ createAccountIfNeeded back = createAccountIfNeeded cfg
  /\ decimals back = Some (decimals_or_default cfg)
  /\ resolve_address (recipient back) = Ok (Some R)
  /\ mintAddress back = option_map AddrStr (address_string_opt (mintAddress cfg))
  /\ exists units,
       toTokenUnits (amount cfg) (decimals_or_default cfg) = Ok units
       /\ amount back = Some (AmountStr (BigInt_toString units)).
Proof.
  unfold toX402Requirements. intros H Hr Hk.
  destruct (toTokenUnits (amount cfg) (decimals_or_default cfg))
    as [units|e]; cbn [bind] in H; [|discriminate H].
  destruct (address_string (recipient cfg)) as [text|e] eqn:Et;
    cbn [bind] in H; [|discriminate H].
  injection H as <-. unfold fromX402Requirements.
  cbn [req_tokenType req_currency req_amount req_payment_payload
       req_mintAddress req_createAccountIfNeeded payload_recipient
       payload_mintAddress payload_decimals tokenType amount recipient
       mintAddress decimals createAccountIfNeeded].
  split; [destruct (tokenType cfg); reflexivity|].
  split; [reflexivity|]. split; [reflexivity|].
  split; [exact (resolve_address_string _ _ _ Et Hr Hk)|].
  split.
  - destruct (address_string_opt (mintAddress cfg)) as [[|c m]|]; reflexivity.
  - exists units. split; reflexivity.
Qed.

End TextFacts.

(** ** The challenge and the expected amount *)
Section ChallengeAmountFacts.
Context {RT : Runtime}.

(** Rounding and flooring a quotient by a positive number differ by at
    most one. *)
Lemma round_floor_quotient (v q : Z) :
  0 < q ->
  v / q <= (2 * v + q) / (2 * q) <= v / q + 1.
Proof.
  intros Hq.
  pose proof (Z.div_mod v q ltac:(lia)) as Hf.
  pose proof (Z.mod_pos_bound v q Hq) as Hfb.
  pose proof (Z.div_mod (2 * v + q) (2 * q) ltac:(lia)) as Hr.
  pose proof (Z.mod_pos_bound (2 * v + q) (2 * q) ltac:(lia)) as Hrb.
  set (f := v / q) in *. set (r := (2 * v + q) / (2 * q)) in *.
  set (a := v mod q) in *. set (b := (2 * v + q) mod (2 * q)) in *.
  clearbody f r a b. split; nia.
Qed.

Lemma round_quotient_bounded (v q : Z) :
  2 <= q -> Z.abs v < 2 ^ 53 ->
  Z.abs ((2 * v + q) / (2 * q)) < 2 ^ 53.
Proof.
  intros Hq Hv.
  pose proof (round_floor_quotient v q ltac:(lia)) as [Hl Hu].
  pose proof (Z.div_mod v q ltac:(lia)) as Hf.
  pose proof (Z.mod_pos_bound v q ltac:(lia)) as Hfb.
  set (f := v / q) in *. set (r := (2 * v + q) / (2 * q)) in *.
  set (a := v mod q) in *. clearbody f r a.
  assert (Hp : 2 ^ 53 = 9007199254740992) by reflexivity.
  rewrite Hp in *. apply Z.abs_lt. apply Z.abs_lt in Hv. split; nia.
Qed.

(** The integer [Math.round] gives for a finite number with a mantissa
    below [2^53]. *)
Lemma to_integer_round (s : bool) (m : positive) (e : Z) :
  Z.pos m < 2 ^ 53 ->
  let v := if s then Z.neg m else Z.pos m in
  to_integer (Math_round (S754_finite s m e))
  = Some (if 0 <=? e then v * 2 ^ e
          else (2 * v + 2 ^ (- e)) / 2 ^ (1 - e)).
Proof.
  intros Hm v. unfold Math_round. fold v.
  destruct (0 <=? e) eqn:L.
  - unfold to_integer. fold v. rewrite L. reflexivity.
  - apply Z.leb_gt in L.
    apply NumberFacts.to_integer_normalize.
    replace (2 ^ (1 - e)) with (2 * 2 ^ (- e))
      by (replace (1 - e) with (Z.succ (- e)) by lia;
          rewrite Z.pow_succ_r by lia; reflexivity).
    apply round_quotient_bounded.
    + replace (- e) with (Z.succ (- e - 1)) by lia.
      rewrite Z.pow_succ_r by lia.
      pose proof (Z.pow_pos_nonneg 2 (- e - 1) ltac:(lia) ltac:(lia)). lia.
    + subst v. destruct s; cbn [Z.abs]; exact Hm.
Qed.

(** X27.  For a token other than SOL the amount the challenge announces is
    the amount the handler verifies against, or one base unit more:
    both come from the same product, the one rounded and the other
    floored. *)
Theorem token_challenge_within_one_of_expected (opts : MiddlewareOpts)
    (units : Z) :
  opts_tokenType opts <> SOL ->
  toTokenUnits (amount (middleware_expected opts))
    (decimals_or_default (middleware_expected opts)) = Ok units ->
  exists announced,
    to_integer (payment_amount (challenge opts)) = Some announced
    /\ units <= announced <= units + 1.
Proof.
  intros Ht.
  assert (Hd : decimals_or_default (middleware_expected opts) = 6%N).
  { unfold middleware_expected, decimals_or_default. cbn [decimals tokenType].
    destruct (opts_tokenType opts); [contradiction Ht|..]; reflexivity. }
  rewrite Hd. unfold challenge, middleware_expected.
  cbn [amount payment_amount].
  replace (TokenType_eqb (opts_tokenType opts) SOL) with false
    by (destruct (opts_tokenType opts); [contradiction Ht|..]; reflexivity).
  unfold toTokenUnits. cbn [amountNumber].
  destruct (mul (price opts) (Math_pow10 6)) as [s|s| |s m e] eqn:E.
  - intros [= <-]. exists 0. split; [reflexivity | lia].
  - discriminate.
  - discriminate.
  - pose proof (NumberFacts.mul_mantissa_bounded _ _ _ _ _ E) as Hm.
    unfold BigInt. rewrite NumberFacts.to_integer_floor by exact Hm.
    intros [= <-]. rewrite to_integer_round by exact Hm.
    eexists. split; [reflexivity|].
    unfold floorZ. destruct (0 <=? e) eqn:L; [lia|].
    apply Z.leb_gt in L.
    replace (2 ^ (1 - e)) with (2 * 2 ^ (- e))
      by (replace (1 - e) with (Z.succ (- e)) by lia;
          rewrite Z.pow_succ_r by lia; reflexivity).
    apply round_floor_quotient. apply Z.pow_pos_nonneg; lia.
Qed.

End ChallengeAmountFacts.

(** ** The builder and the validator *)
Section BuilderFacts.
Context {RT : Runtime}.

(** X1.  Whatever [build] refuses a draft for, [validateConfig] reports as
    well: the message of the exception is among the listed errors. *)
Theorem build_failure_is_listed_by_validateConfig (c : PaymentConfig)
    (e : JSError) :
  build c = Throw e ->
  exists msg, e = Error msg /\ In msg (validation_errors (validateConfig c)).
Proof.
  unfold build, validateConfig, validateConfig_errors.
  cbn [validation_errors]. intros H.
  destruct (tokenType c) as [t|] eqn:Et.
  - destruct (amount c) as [a|] eqn:Ea.
    + destruct (truthy_address (recipient c)) eqn:Er; cbn [negb] in H |- *.
      * destruct (not_SOL (Some t) && negb (truthy_address (mintAddress c)))
          eqn:Em; [|discriminate H].
        injection H as <-. eexists. split; [reflexivity|].
        apply in_or_app; right. apply in_or_app; right.
        apply in_or_app; right. apply in_or_app; left. left. reflexivity.
      * injection H as <-. eexists. split; [reflexivity|].
        apply in_or_app; right. apply in_or_app; right.
        apply in_or_app; left. left. reflexivity.
    + injection H as <-. eexists. split; [reflexivity|].
      apply in_or_app; right. apply in_or_app; left. left. reflexivity.
  - injection H as <-. eexists. split; [reflexivity|].
    apply in_or_app; left. left. reflexivity.
Qed.

End BuilderFacts.

(** ** The further properties on concrete inputs

    The reference runtime, the reference chain and the ledger that
    answers stand in for the collaborators. *)
Section FurtherExamples.
Existing Instance Reference.runtime.
Existing Instance ReferenceLedger.online.
Existing Instance ReferenceChain.chain.

Lemma valid_configuration_builds_witness :
  validation_isValid (validateConfig Samples.native_spec) = true
  /\ build Samples.native_spec = Ok Samples.native_spec.
Proof.
  split; [reflexivity|].
  apply (valid_configuration_builds Samples.native_spec). reflexivity.
Defined.

Lemma valid_amount_is_never_negative_witness :
  validation_isValid (validateConfig Samples.native_spec) = true
  /\ toTokenUnits (amount Samples.native_spec) 9 = Ok 1000000
  /\ 0 <= 1000000.
Proof.
  split; [reflexivity|]. split; [reflexivity|].
  apply (valid_amount_is_never_negative Samples.native_spec 9 1000000);
    reflexivity.
Defined.

Lemma pay_requires_mint_even_for_usdc_witness :
  not_SOL (tokenType MoreSamples.usdc_without_mint) = true
  /\ truthy_address (mintAddress MoreSamples.usdc_without_mint) = false
  /\ (exists msg,
         pay MoreSamples.sdk_off_chain MoreSamples.usdc_without_mint None
         = Throw (Error msg)).
Proof.
  split; [reflexivity|]. split; [reflexivity|].
  apply (pay_requires_mint_even_for_usdc MoreSamples.sdk_off_chain
           MoreSamples.usdc_without_mint None "solana-devnet"); reflexivity.
Defined.

Lemma explicit_method_overrides_preference_witness :
  let opts := Some (mkPayOpts (Some MoreSamples.payer_keypair)
                      (Some onchain_method) None) in
  validation_isValid (validateConfig Samples.native_spec) = true
  /\ resolved_method MoreSamples.sdk_off_chain opts = onchain_method
  /\ pay MoreSamples.sdk_off_chain Samples.native_spec opts
     = Ok (SubmitPaymentOnChain Samples.native_spec MoreSamples.payer_keypair
             "solana-devnet" None).
Proof.
  split; [reflexivity|]. split; [reflexivity|].
  apply (explicit_method_overrides_preference MoreSamples.sdk_off_chain
           Samples.native_spec
           (Some (mkPayOpts (Some MoreSamples.payer_keypair)
                    (Some onchain_method) None))); reflexivity.
Defined.

Lemma system_transfer_accepted_iff_witness :
  (1000000 < 2 ^ 64)%N
  /\ (verifySOLTransferInstruction MoreSamples.transfer_to_R (Some Samples.R) 1000001 = true
      <-> Samples.R = Samples.R /\ 1000001 <= Z.of_N 1000000).
Proof.
  split; [reflexivity|].
  apply (system_transfer_accepted_iff Samples.payer Samples.R 1000000
           Samples.R 1000001). reflexivity.
Defined.

Lemma token_transfer_accepted_iff_witness :
  (1000000 < 2 ^ 64)%N
  /\ (verifySPLTransferInstruction
        (createTransferInstruction Samples.payer_account Samples.R_account
           Samples.payer 1000000)
        (Some Samples.R) 1000000 (Some Samples.mint) = true
      <-> getAssociatedTokenAddress Samples.mint Samples.R
          = Ok Samples.R_account
          /\ 1000000 <= Z.of_N 1000000).
Proof.
  split; [reflexivity|].
  apply (token_transfer_accepted_iff Samples.payer_account Samples.R_account
           Samples.payer 1000000 Samples.R Samples.mint 1000000). reflexivity.
Defined.

Lemma accepted_for_every_smaller_amount_witness :
  5 <= 1000000
  /\ (verifySOLTransferInstruction MoreSamples.transfer_to_R (Some Samples.R) 1000000 = true
      -> verifySOLTransferInstruction MoreSamples.transfer_to_R (Some Samples.R) 5 = true).
Proof.
  split; [lia|].
  apply (accepted_for_every_smaller_amount MoreSamples.transfer_to_R (Some Samples.R) None
           1000000 5). lia.
Defined.

Lemma added_instructions_keep_validity_witness :
  verifyPaymentInstructions (mkTransaction [MoreSamples.transfer_to_R]) Samples.native_spec
  = Ok Samples.valid_result
  /\ isValid Samples.valid_result = true
  /\ exists r',
       verifyPaymentInstructions
         (mkTransaction
            ([Samples.odd_tag_transfer] ++ [MoreSamples.transfer_to_R]
             ++ [createTransferInstruction Samples.payer_account
                   Samples.R_account Samples.payer 7])%list)
         Samples.native_spec = Ok r'
       /\ isValid r' = true.
Proof.
  split; [reflexivity|]. split; [reflexivity|].
  apply (added_instructions_keep_validity (mkTransaction [MoreSamples.transfer_to_R])
           Samples.native_spec Samples.valid_result
           [Samples.odd_tag_transfer]
           [createTransferInstruction Samples.payer_account Samples.R_account
              Samples.payer 7]); reflexivity.
Defined.

Lemma native_verification_valid_iff_witness :
  tokenType Samples.native_spec = Some SOL
  /\ resolve_address (recipient Samples.native_spec) = Ok (Some Samples.R)
  /\ toTokenUnits (amount Samples.native_spec)
       (decimals_or_default Samples.native_spec) = Ok 1000000
  /\ exists r,
       verifyPaymentInstructions (mkTransaction [MoreSamples.transfer_to_R])
         Samples.native_spec = Ok r
       /\ (isValid r = true
           <-> exists ix, In ix [MoreSamples.transfer_to_R]
                 /\ programId ix = SYSTEM_PROGRAM_ID
                 /\ List.length (data ix) = 12%nat
                 /\ nth_error (data ix) 0 = Some x02
                 /\ 1000000 <= native_amount ix
                 /\ exists meta, nth_error (keys ix) 1 = Some meta
                                 /\ pubkey meta = Samples.R).
Proof.
  split; [reflexivity|]. split; [reflexivity|]. split; [reflexivity|].
  apply (native_verification_valid_iff (mkTransaction [MoreSamples.transfer_to_R])
           Samples.native_spec Samples.R 1000000); reflexivity.
Defined.

Lemma assembled_native_payment_verifies_witness :
  exists atx,
    createSOLPaymentTransaction MoreSamples.payer_keypair Samples.native_spec
    = Ok atx
    /\ tokenType Samples.native_spec = Some SOL
    /\ decimals_or_default Samples.native_spec = 9%N
    /\ toTokenUnits (amount Samples.native_spec) 9 = Ok 1000000
    /\ 0 <= 1000000 < 2 ^ 53
    /\ exists r,
         verifyPaymentInstructions (mkTransaction (assembled_instructions atx))
           Samples.native_spec = Ok r
         /\ isValid r = true.
Proof.
  eexists. split; [vm_compute; reflexivity|].
  split; [reflexivity|]. split; [reflexivity|]. split; [reflexivity|].
  split; [lia|].
  apply (assembled_native_payment_verifies MoreSamples.payer_keypair
           Samples.native_spec _ 1000000); try reflexivity.
  lia.
Defined.

Lemma assembled_token_payment_verifies_witness :
  exists atx,
    createSPLPaymentTransaction MoreSamples.payer_keypair Samples.token_spec
    = Ok atx
    /\ not_SOL (tokenType Samples.token_spec) = true
    /\ resolve_address (mintAddress Samples.token_spec) = Ok (Some Samples.mint)
    /\ getMintInfo Samples.mint = Ok 6%N
    /\ decimals_or_mint Samples.token_spec 6 = decimals_or_default Samples.token_spec
    /\ toTokenUnits (amount Samples.token_spec)
         (decimals_or_default Samples.token_spec) = Ok 1000000
    /\ 0 <= 1000000 < 2 ^ 64
    /\ exists r,
         verifyPaymentInstructions (mkTransaction (assembled_instructions atx))
           Samples.token_spec = Ok r
         /\ isValid r = true.
Proof.
  eexists. split; [vm_compute; reflexivity|].
  split; [reflexivity|]. split; [reflexivity|]. split; [reflexivity|].
  split; [reflexivity|]. split; [reflexivity|]. split; [lia|].
  apply (assembled_token_payment_verifies MoreSamples.payer_keypair
           Samples.token_spec _ Samples.mint 6 1000000); try reflexivity.
  lia.
Defined.

Lemma assembled_token_payment_shape_witness :
  exists atx,
    createSPLPaymentTransaction MoreSamples.payer_keypair Samples.token_spec
    = Ok atx
    /\ exists mint R source destination units,
         resolve_address (mintAddress Samples.token_spec) = Ok (Some mint)
         /\ resolve_address (recipient Samples.token_spec) = Ok (Some R)
         /\ getAssociatedTokenAddress mint (publicKey MoreSamples.payer_keypair)
            = Ok source
         /\ getAssociatedTokenAddress mint R = Ok destination
         /\ feePayer atx = publicKey MoreSamples.payer_keypair
         /\ assembled_instructions atx
            = ((if tokenAccountExists source then []
                else [createAssociatedTokenAccountInstruction
                        (publicKey MoreSamples.payer_keypair) source
                        (publicKey MoreSamples.payer_keypair) mint])
               ++ (match createAccountIfNeeded Samples.token_spec with
                   | Some true =>
                       if tokenAccountExists destination then []
                       else [createAssociatedTokenAccountInstruction
                               (publicKey MoreSamples.payer_keypair)
                               destination R mint]
                   | _ => []
                   end)
               ++ [createSPLTransferInstruction source destination
                     (publicKey MoreSamples.payer_keypair) units])%list.
Proof.
  eexists. split; [vm_compute; reflexivity|].
  apply (assembled_token_payment_shape MoreSamples.payer_keypair
           Samples.token_spec).
  vm_compute. reflexivity.
Defined.

Lemma legacy_payment_goes_to_the_payer_witness :
  preferOnChain (cfg MoreSamples.sdk_on_chain) = Some true
  /\ exists call,
       payForResource MoreSamples.sdk_on_chain MoreSamples.legacy_requirements
         (Some MoreSamples.payer_keypair) = Ok call
       /\ exists submission,
            call = DirectOnChain submission
            /\ direct_to submission = Samples.payer
            /\ direct_amount submission = direct_lamports "0.5"
            /\ programId (direct_instruction submission) = SYSTEM_PROGRAM_ID
            /\ keys (direct_instruction submission)
               = [mkAccountMeta Samples.payer true true;
                  mkAccountMeta Samples.payer false true].
Proof.
  split; [reflexivity|]. eexists. split; [vm_compute; reflexivity|].
  apply (legacy_payment_goes_to_the_payer MoreSamples.sdk_on_chain
           MoreSamples.legacy_requirements MoreSamples.payer_keypair);
    [reflexivity | vm_compute; reflexivity].
Defined.

Lemma malformed_header_is_refused_witness :
  "%%%" <> ""
  /\ JSON_parse (Buffer_toString (Base64.decode "%%%"))
     = Throw (Error "Unexpected token in JSON")
  /\ parseX402Header "%%%"
     = Throw (Error "Invalid x402 payment header format")
  /\ createPaymentMiddleware MoreSamples.paid_middleware (Some "%%%")
     = Json 402 (ErrorBody (Some "Invalid x402 payment header format")).
Proof.
  split; [discriminate|]. split; [reflexivity|].
  apply (malformed_header_is_refused MoreSamples.paid_middleware "%%%"
           (Error "Unexpected token in JSON")); [discriminate | reflexivity].
Defined.


Lemma handler_reads_the_payment_proof_witness :
  JSON_serializable (paymentProof "solana-devnet" "AQID")
  /\ JSON_stringify (paymentProof "solana-devnet" "AQID") <> ""
  /\ "AQID" <> ""
  /\ exists r,
       verifyAndSubmitSerializedTransaction "AQID"
         (middleware_expected MoreSamples.paid_middleware)
         (middleware_network MoreSamples.paid_middleware) = Ok r
       /\ createPaymentMiddleware MoreSamples.paid_middleware
            (Some (createX402Header (paymentProof "solana-devnet" "AQID")))
          = (if success r
             then Json 200 (VerifiedBody "Payment verified" (signature r)
                              (explorerUrl r))
             else Json 402 (ErrorBody (submit_error r))).
Proof.
  split; [reflexivity|]. split; [vm_compute; discriminate|].
  split; [discriminate|].
  apply (handler_reads_the_payment_proof MoreSamples.paid_middleware
           "solana-devnet" "AQID");
    [reflexivity | vm_compute; discriminate | discriminate].
Defined.

Lemma signed_transaction_is_validated_first_witness :
  exists signedPayment x402Header,
    createSignedTransaction MoreSamples.sdk_on_chain Samples.native_spec
      MoreSamples.payer_keypair = Ok (signedPayment, x402Header)
    /\ validation_isValid (validateConfig Samples.native_spec) = true
    /\ (not_SOL (tokenType Samples.native_spec) = true ->
        with_default_mint Samples.native_spec
          (network (cfg MoreSamples.sdk_on_chain)) = Ok Samples.native_spec)
    /\ (if not_SOL (tokenType Samples.native_spec)
        then createSPLPaymentTransaction MoreSamples.payer_keypair
               Samples.native_spec
        else createSOLPaymentTransaction MoreSamples.payer_keypair
               Samples.native_spec)
       = Ok (signed_transaction signedPayment)
    /\ x402Header
       = createX402Header
           (paymentProof (network (cfg MoreSamples.sdk_on_chain))
              (serializedTransaction signedPayment)).
Proof.
  eexists. eexists. split; [vm_compute; reflexivity|].
  apply (signed_transaction_is_validated_first MoreSamples.sdk_on_chain
           Samples.native_spec MoreSamples.payer_keypair).
  vm_compute. reflexivity.
Defined.

Lemma requirements_roundtrip_witness :
  exists requirements,
    toX402Requirements Samples.native_spec "solana-devnet" = Ok requirements
    /\ resolve_address (recipient Samples.native_spec) = Ok (Some Samples.R)
    /\ (_bn Samples.R < 2 ^ 256)%N
    /\ let back := fromX402Requirements requirements in
       tokenType back = tokenType Samples.native_spec
       /\ createAccountIfNeeded back = createAccountIfNeeded Samples.native_spec
       /\ decimals back = Some (decimals_or_default Samples.native_spec)
       /\ resolve_address (recipient back) = Ok (Some Samples.R)
       /\ mintAddress back
          = option_map AddrStr
              (address_string_opt (mintAddress Samples.native_spec))
       /\ exists units,
            toTokenUnits (amount Samples.native_spec)
              (decimals_or_default Samples.native_spec) = Ok units
            /\ amount back = Some (AmountStr (BigInt_toString units)).
Proof.
  eexists. split; [vm_compute; reflexivity|].
  split; [reflexivity|]. split; [reflexivity|].
  apply (requirements_roundtrip Samples.native_spec "solana-devnet");
    [vm_compute; reflexivity | reflexivity | reflexivity].
Defined.

Lemma token_challenge_within_one_of_expected_witness :
  opts_tokenType Samples.usdc_middleware <> SOL
  /\ toTokenUnits (amount (middleware_expected Samples.usdc_middleware))
       (decimals_or_default (middleware_expected Samples.usdc_middleware))
     = Ok 10000
  /\ exists announced,
       to_integer (payment_amount (challenge Samples.usdc_middleware))
       = Some announced
       /\ 10000 <= announced <= 10000 + 1.
Proof.
  split; [discriminate|]. split; [reflexivity|].
  apply (token_challenge_within_one_of_expected Samples.usdc_middleware 10000);
    [discriminate | reflexivity].
Defined.

(** A request that carries the payment proof of a transfer the ledger
    accepts is answered 200 with the signature. *)
Example paid_request_is_answered_200 :
  createPaymentMiddleware MoreSamples.paid_middleware
    (Some (createX402Header Samples.payment_proof))
  = Json 200
      (VerifiedBody "Payment verified"
         (Some "5VERv8NMvzbJMEkV8xnrLkEaWRtSz9CosKDYjCJjBRnb")
         (Some (getExplorerUrl "5VERv8NMvzbJMEkV8xnrLkEaWRtSz9CosKDYjCJjBRnb"
                  "solana-devnet"))).
Proof. vm_compute. reflexivity. Qed.

Lemma build_failure_is_listed_by_validateConfig_witness :
  build MoreSamples.usdc_without_mint
  = Throw (Error "Mint address is required for SPL token payments")
  /\ exists msg,
       Error "Mint address is required for SPL token payments" = Error msg
       /\ In msg (validation_errors (validateConfig MoreSamples.usdc_without_mint)).
Proof.
  split; [reflexivity|].
  apply (build_failure_is_listed_by_validateConfig MoreSamples.usdc_without_mint).
  reflexivity.
Defined.

End FurtherExamples.
